(** * coinaddr.validation: a shallow embedding and its verified properties

    The development follows [src/coinaddr/validation.py]: the validator
    registry ([Validators], [ValidatorMeta]), the two validators
    ([Base58CheckValidator], [EthereumValidator]), the request and result
    value objects and the [validate] entry point.

    Python values are modelled as the code has them: [bytes] as
    [list byte], the text of an address as [list ascii] and names as
    [string], integers as [Z], the registry [dict] as a [gmap string _],
    the ordered [networks] dict of a currency as an association list, and
    a call that may raise as an [outcome]. *)

From Stdlib Require Import ZArith List Strings.String Strings.Ascii Strings.Byte Bool Lia.
From stdpp Require Import gmap strings.
Import ListNotations.

Local Open Scope Z_scope.

(** ** Outcomes: a returned value or a raised Python exception *)

Inductive exn : Type :=
| TypeError
| ValueError
| IndexError
| UnicodeError.

Inductive outcome (A : Type) : Type :=
| Ok (a : A)
| Raise (e : exn).

Arguments Ok {A} a.
Arguments Raise {A} e.

(** Sequencing: an exception raised by the first call propagates. The
    instance gives the notation [x ← m; k]. *)
#[export] Instance outcome_bind : MBind outcome :=
  fun A B (k : A -> outcome B) (m : outcome A) =>
    match m with
    | Ok a => k a
    | Raise e => Raise e
    end.

(** ** Bytes *)

Abbreviation bytes := (list byte).

Definition byte_to_Z (b : byte) : Z := Z.of_N (Byte.to_N b).

Definition byte_of_Z (z : Z) : byte :=
  match Byte.of_N (Z.to_N (z mod 256)) with
  | Some b => b
  | None => x00
  end.

Definition byte_eqb (a b : byte) : bool := Byte.eqb a b.

Fixpoint bytes_eqb (a b : bytes) : bool :=
  match a, b with
  | [], [] => true
  | x :: a', y :: b' => byte_eqb x y && bytes_eqb a' b'
  | _, _ => false
  end.

(** [b.lstrip(bytes([c]))]: drop the leading run of the byte [c]. *)
Fixpoint bytes_lstrip (c : byte) (b : bytes) : bytes :=
  match b with
  | [] => []
  | x :: b' => if byte_eqb x c then bytes_lstrip c b' else b
  end.

(** [b[:-4]] and [b[-4:]]; a sequence shorter than four bytes gives the
    empty prefix and the whole sequence. *)
Definition slice_to_m4 (b : bytes) : bytes := firstn (length b - 4)%nat b.
Definition slice_from_m4 (b : bytes) : bytes := skipn (length b - 4)%nat b.

(** Words written in hexadecimal text, separated by blanks. *)
Definition hex_value (c : ascii) : option Z :=
  let n := Z.of_N (N_of_ascii c) in
  if (48 <=? n) && (n <=? 57) then Some (n - 48)
  else if (97 <=? n) && (n <=? 102) then Some (n - 87)
  else None.

Fixpoint hex_words_from (s : string) (cur : option Z) : list Z :=
  match s with
  | EmptyString =>
      match cur with
      | Some w => [w]
      | None => []
      end
  | String c s' =>
      match hex_value c, cur with
      | Some d, Some w => hex_words_from s' (Some (16 * w + d))
      | Some d, None => hex_words_from s' (Some d)
      | None, Some w => w :: hex_words_from s' None
      | None, None => hex_words_from s' None
      end
  end.

Definition hex_words (s : string) : list Z := hex_words_from s None.

(** ** hashlib.sha256 (FIPS 180-4), on 32-bit words held in [Z] *)

Module SHA256.

Definition mask32 : Z := 0xffffffff.
Definition add32 (x y : Z) : Z := (x + y) mod 2 ^ 32.
Definition rotr (n x : Z) : Z :=
  Z.lor (Z.shiftr x n) (Z.land (Z.shiftl x (32 - n)) mask32).
Definition not32 (x : Z) : Z := Z.lxor x mask32.

Definition ch (x y z : Z) : Z := Z.lxor (Z.land x y) (Z.land (not32 x) z).
Definition maj (x y z : Z) : Z :=
  Z.lxor (Z.lxor (Z.land x y) (Z.land x z)) (Z.land y z).
Definition bsig0 (x : Z) : Z := Z.lxor (Z.lxor (rotr 2 x) (rotr 13 x)) (rotr 22 x).
Definition bsig1 (x : Z) : Z := Z.lxor (Z.lxor (rotr 6 x) (rotr 11 x)) (rotr 25 x).
Definition ssig0 (x : Z) : Z := Z.lxor (Z.lxor (rotr 7 x) (rotr 18 x)) (Z.shiftr x 3).
Definition ssig1 (x : Z) : Z := Z.lxor (Z.lxor (rotr 17 x) (rotr 19 x)) (Z.shiftr x 10).

(** The constants are written as in FIPS 180-4, in hexadecimal text. *)
Definition K : list Z := hex_words
  "428a2f98 71374491 b5c0fbcf e9b5dba5 3956c25b 59f111f1 923f82a4 ab1c5ed5
   d807aa98 12835b01 243185be 550c7dc3 72be5d74 80deb1fe 9bdc06a7 c19bf174
   e49b69c1 efbe4786 0fc19dc6 240ca1cc 2de92c6f 4a7484aa 5cb0a9dc 76f988da
   983e5152 a831c66d b00327c8 bf597fc7 c6e00bf3 d5a79147 06ca6351 14292967
   27b70a85 2e1b2138 4d2c6dfc 53380d13 650a7354 766a0abb 81c2c92e 92722c85
   a2bfe8a1 a81a664b c24b8b70 c76c51a3 d192e819 d6990624 f40e3585 106aa070
   19a4c116 1e376c08 2748774c 34b0bcb5 391c0cb3 4ed8aa4a 5b9cca4f 682e6ff3
   748f82ee 78a5636f 84c87814 8cc70208 90befffa a4506ceb bef9a3f7 c67178f2".

Definition H0 : list Z := hex_words
  "6a09e667 bb67ae85 3c6ef372 a54ff53a 510e527f 9b05688c 1f83d9ab 5be0cd19".

(** Big-endian encoding of [z] on [n] bytes. *)
Fixpoint be_bytes (n : nat) (z : Z) : list Z :=
  match n with
  | O => []
  | S n' => (Z.shiftr z (8 * Z.of_nat n')) mod 256 :: be_bytes n' z
  end.

Definition be_word (bs : list Z) : Z :=
  fold_left (fun acc b => acc * 256 + b) bs 0.

(** Padding: the bit 1, zeros up to 56 mod 64, the bit length on 8 bytes. *)
Definition pad (msg : list Z) : list Z :=
  let len := Z.of_nat (length msg) in
  let zeros := Z.to_nat ((55 - len) mod 64) in
  msg ++ [0x80] ++ repeat 0 zeros ++ be_bytes 8 (8 * len).

Fixpoint chunks (fuel : nat) (size : nat) (l : list Z) : list (list Z) :=
  match fuel with
  | O => []
  | S fuel' =>
      match l with
      | [] => []
      | _ => firstn size l :: chunks fuel' size (skipn size l)
      end
  end.

(** The message schedule, produced from a sliding window of 16 words. *)
Fixpoint schedule (n : nat) (win : list Z) : list Z :=
  match n with
  | O => []
  | S n' =>
      let w16 := nth 0 win 0 in
      let w15 := nth 1 win 0 in
      let w7 := nth 9 win 0 in
      let w2 := nth 14 win 0 in
      let new := add32 (add32 (ssig1 w2) w7) (add32 (ssig0 w15) w16) in
      w16 :: schedule n' (tl win ++ [new])
  end.

Record regs : Type := mkRegs { ra : Z; rb : Z; rc : Z; rd : Z; re : Z; rf : Z; rg : Z; rh : Z }.

Definition round (s : regs) (kw : Z * Z) : regs :=
  let t1 := add32 (add32 (add32 (rh s) (bsig1 (re s))) (ch (re s) (rf s) (rg s)))
                  (add32 (fst kw) (snd kw)) in
  let t2 := add32 (bsig0 (ra s)) (maj (ra s) (rb s) (rc s)) in
  mkRegs (add32 t1 t2) (ra s) (rb s) (rc s) (add32 (rd s) t1) (re s) (rf s) (rg s).

Definition regs_of (h : list Z) : regs :=
  mkRegs (nth 0 h 0) (nth 1 h 0) (nth 2 h 0) (nth 3 h 0)
         (nth 4 h 0) (nth 5 h 0) (nth 6 h 0) (nth 7 h 0).

Definition list_of (s : regs) : list Z :=
  [ra s; rb s; rc s; rd s; re s; rf s; rg s; rh s].

Definition compress (h : list Z) (block : list Z) : list Z :=
  let ws := schedule 64 (map be_word (chunks 16 4 block)) in
  let s := fold_left round (combine K ws) (regs_of h) in
  map (fun p => add32 (fst p) (snd p)) (combine h (list_of s)).

Definition digest_Z (msg : list Z) : list Z :=
  let padded := pad msg in
  let blocks := chunks (length padded) 64 padded in
  flat_map (be_bytes 4) (fold_left compress blocks H0).

End SHA256.

(** [sha256(m).digest()] *)
Definition sha256 (m : bytes) : bytes :=
  map byte_of_Z (SHA256.digest_Z (map byte_to_Z m)).

Arguments sha256 : simpl never.

(** Hexadecimal rendering, as [bytes.hex()] and [hexdigest()] give it. *)
Definition hex_digit (n : Z) : ascii :=
  nth (Z.to_nat n) (list_ascii_of_string "0123456789abcdef") "0"%char.

Definition hex_of_bytes (b : bytes) : string :=
  string_of_list_ascii
    (flat_map (fun x => [hex_digit (byte_to_Z x / 16); hex_digit (byte_to_Z x mod 16)]) b).

Definition bytes_of_str (s : string) : bytes := list_byte_of_string s.

(** ** sha3.keccak_256 (original Keccak padding), on 64-bit lanes in [Z] *)

Module Keccak.

Definition mask64 : Z := 0xffffffffffffffff.

Definition rotl (x : Z) (n : Z) : Z :=
  Z.lor (Z.land (Z.shiftl x n) mask64) (Z.shiftr x (64 - n)).

Definition RC : list Z :=
  [ 0x0000000000000001; 0x0000000000008082; 0x800000000000808A;
    0x8000000080008000; 0x000000000000808B; 0x0000000080000001;
    0x8000000080008081; 0x8000000000008009; 0x000000000000008A;
    0x0000000000000088; 0x0000000080008009; 0x000000008000000A;
    0x000000008000808B; 0x800000000000008B; 0x8000000000008089;
    0x8000000000008003; 0x8000000000008002; 0x8000000000000080;
    0x000000000000800A; 0x800000008000000A; 0x8000000080008081;
    0x8000000000008080; 0x0000000080000001; 0x8000000080008008 ].

(** Rotation offsets, indexed by [x + 5 * y]. *)
Definition rho_offsets : list Z :=
  [ 0; 1; 62; 28; 27;
    36; 44; 6; 55; 20;
    3; 10; 43; 25; 39;
    41; 45; 15; 21; 8;
    18; 2; 61; 56; 14 ].

Definition lane (a : list Z) (x y : nat) : Z :=
  nth ((x mod 5) + 5 * (y mod 5))%nat a 0.

Definition indices : list nat := seq 0 25.

Definition theta (a : list Z) : list Z :=
  let c := map (fun x =>
                  Z.lxor (Z.lxor (Z.lxor (Z.lxor (lane a x 0) (lane a x 1)) (lane a x 2))
                                 (lane a x 3)) (lane a x 4)) (seq 0 5) in
  let d := map (fun x => Z.lxor (nth ((x + 4) mod 5)%nat c 0)
                                (rotl (nth ((x + 1) mod 5)%nat c 0) 1)) (seq 0 5) in
  map (fun i => Z.lxor (nth i a 0) (nth (i mod 5)%nat d 0)) indices.

(** rho and pi together: the lane written at [(x, y)] is the lane read at
    [(x + 3 y, x)], rotated by that lane's offset. *)
Definition rho_pi (a : list Z) : list Z :=
  map (fun i =>
         let x := (i mod 5)%nat in
         let y := (i / 5)%nat in
         let sx := ((x + 3 * y) mod 5)%nat in
         let sy := x in
         rotl (lane a sx sy) (nth (sx + 5 * sy)%nat rho_offsets 0)) indices.

Definition chi (b : list Z) : list Z :=
  map (fun i =>
         let x := (i mod 5)%nat in
         let y := (i / 5)%nat in
         Z.lxor (lane b x y)
                (Z.land (Z.lxor (lane b (x + 1) y) mask64) (lane b (x + 2) y))) indices.

Definition iota (rc : Z) (a : list Z) : list Z :=
  match a with
  | [] => []
  | a0 :: a' => Z.lxor a0 rc :: a'
  end.

Definition round (a : list Z) (rc : Z) : list Z :=
  iota rc (chi (rho_pi (theta a))).

Definition keccak_f (a : list Z) : list Z := fold_left round RC a.

(** Little-endian lanes. *)
Definition le_word (bs : list Z) : Z :=
  fold_right (fun b acc => b + 256 * acc) 0 bs.

Fixpoint le_bytes (n : nat) (z : Z) : list Z :=
  match n with
  | O => []
  | S n' => z mod 256 :: le_bytes n' (z / 256)
  end.

Definition rate : nat := 136.

(** pad10*1 with the Keccak domain byte 0x01. *)
Definition pad (msg : list Z) : list Z :=
  let q := (rate - (length msg) mod rate)%nat in
  if (q =? 1)%nat then msg ++ [0x81]
  else msg ++ [0x01] ++ repeat 0 (q - 2)%nat ++ [0x80].

Fixpoint blocks (fuel : nat) (l : list Z) : list (list Z) :=
  match fuel with
  | O => []
  | S fuel' =>
      match l with
      | [] => []
      | _ => firstn rate l :: blocks fuel' (skipn rate l)
      end
  end.

Fixpoint lanes_of (n : nat) (l : list Z) : list Z :=
  match n with
  | O => []
  | S n' => le_word (firstn 8 l) :: lanes_of n' (skipn 8 l)
  end.

Definition absorb (a : list Z) (block : list Z) : list Z :=
  let ls := lanes_of 17 block in
  keccak_f (map (fun i => Z.lxor (nth i a 0) (nth i ls 0)) indices).

Definition digest_Z (msg : list Z) : list Z :=
  let padded := pad msg in
  let st := fold_left absorb (blocks (length padded) padded) (repeat 0 25) in
  flat_map (le_bytes 8) (firstn 4 st).

End Keccak.

(** [sha3.keccak_256(m).digest()] *)
Definition keccak_256 (m : bytes) : bytes :=
  map byte_of_Z (Keccak.digest_Z (map byte_to_Z m)).

Arguments keccak_256 : simpl never.

(** ** The base58check package: [b58decode] and [b58encode]

    The package is an external dependency of the repository; the two
    functions are transcribed from its published source. Neither of them
    verifies a checksum: they convert between base 58 and base 256. *)

Module base58check.

Definition DEFAULT_CHARSET : bytes :=
  bytes_of_str "123456789ABCDEFGHJKLMNPQRSTUVWXYZabcdefghijkmnopqrstuvwxyz".

(** [charset.index(char)]: the position of the first occurrence. *)
Fixpoint index (c : byte) (cs : bytes) : option Z :=
  match cs with
  | [] => None
  | x :: cs' => if byte_eqb x c then Some 0 else option_map Z.succ (index c cs')
  end.

(** [_b58decode_int]: [output = output * base + charset.index(char)];
    a character outside the charset makes [index] raise ValueError. *)
Fixpoint b58decode_int (base : Z) (charset val : bytes) (output : Z) : outcome Z :=
  match val with
  | [] => Ok output
  | ch :: val' =>
      match index ch charset with
      | None => Raise ValueError
      | Some i => b58decode_int base charset val' (output * base + i)
      end
  end.

(** [while acc > 0: acc, mod = divmod(acc, 256); result.appendleft(mod)] *)
Fixpoint to_base256 (fuel : nat) (acc : Z) (result : bytes) : bytes :=
  match fuel with
  | O => result
  | S fuel' =>
      if acc >? 0 then to_base256 fuel' (acc / 256) (byte_of_Z (acc mod 256) :: result)
      else result
  end.

(** Each turn of either loop at least halves the accumulator, so the bit
    length of the accumulator is fuel enough ([to_base256_fuel]). *)
Definition fuel_for (acc : Z) : nat := S (Z.to_nat (Z.log2 acc)).

Definition b58decode (val charset : bytes) : outcome bytes :=
  let base := Z.of_nat (length charset) in
  if negb (base =? 58) then Raise ValueError
  else
    let stripped := bytes_lstrip (hd x00 charset) val in
    let pad_len := (length val - length stripped)%nat in
    acc ← b58decode_int base charset stripped 0;
    Ok (repeat x00 pad_len ++ to_base256 (fuel_for acc) acc []).

(** [while int_: int_, idx = divmod(int_, base);
     output = charset[idx:idx+1] + output] *)
Fixpoint b58encode_int (fuel : nat) (base : Z) (charset : bytes) (int_ : Z)
    (output : bytes) : bytes :=
  match fuel with
  | O => output
  | S fuel' =>
      if int_ =? 0 then output
      else b58encode_int fuel' base charset (int_ / base)
             (firstn 1 (skipn (Z.to_nat (int_ mod base)) charset) ++ output)
  end.

(** [for char in reversed(val): acc += p * char; p = p << 8] *)
Definition from_base256 (val : bytes) : Z :=
  snd (fold_left (fun '(p, acc) ch => (Z.shiftl p 8, acc + p * byte_to_Z ch))
                 (rev val) (1, 0)).

(** The inner helper's default argument [bytes([charset[0]])] is evaluated
    on entry, before the test on the base: an empty charset is an
    IndexError. *)
Definition b58encode (val charset : bytes) : outcome bytes :=
  match charset with
  | [] => Raise IndexError
  | c0 :: _ =>
      let base := Z.of_nat (length charset) in
      if negb (base =? 58) then Raise ValueError
      else
        let stripped := bytes_lstrip x00 val in
        let pad_len := (length val - length stripped)%nat in
        let acc := from_base256 stripped in
        let result := b58encode_int (fuel_for acc) base charset acc [] in
        Ok (repeat c0 pad_len ++ result)
  end.

End base58check.

(** ** The currency catalogue ([coinaddr.currency]) *)

Module Currency.

(** Modelled from the spec: the [Currency] record of [coinaddr/currency.py],
    which is not among the sources: name, ticker, the mapping from network
    label to version bytes (a dict, kept in insertion order), an optional
    charset override and the name of the validator algorithm. *)
Record t : Type := mk {
  name : string;
  ticker : string;
  validator : string;
  networks : list (string * list Z);
  charset : option bytes
}.

End Currency.

Module Currencies.

(** Modelled from the spec: the catalogue lookup [Currencies.get] of
    [coinaddr/currency.py], which matches the identifier against the name
    or the ticker of each currency and gives [None] when there is none. *)
Definition get (catalog : list Currency.t) (ident : string) : option Currency.t :=
  find (fun c => String.eqb ident (Currency.name c) || String.eqb ident (Currency.ticker c))
       catalog.

End Currencies.

(** ** The validator registry *)

Module Validators.

Section Registry.
Context {V : Type}.

(** [Validators.validators], a dict from algorithm name to validator class. *)
Definition get (validators : gmap string V) (key : string) : option V :=
  validators !! key.

Definition contains (validators : gmap string V) (key : string) : bool :=
  match validators !! key with
  | Some _ => true
  | None => false
  end.

End Registry.
End Validators.

Module ValidatorMeta.

Section Register.
Context {V : Type}.

(** Truth value of a class attribute [name]: [None] and the empty string
    are false. *)
Definition truthy (name : option string) : bool :=
  match name with
  | Some s => negb (String.eqb s "")
  | None => false
  end.

(** [ValidatorMeta.__new__]:
    [if new.name and new.name not in Validators.validators:
         Validators.validators[new.name] = new] *)
Definition register (name : option string) (new : V)
    (validators : gmap string V) : gmap string V :=
  match name with
  | Some s =>
      if truthy name && negb (Validators.contains validators s)
      then <[ s := new ]> validators
      else validators
  | None => validators
  end.

(** The class statements of a module, executed in order. *)
Definition register_all (classes : list (option string * V))
    (validators : gmap string V) : gmap string V :=
  fold_left (fun reg c => register (fst c) (snd c) reg) classes validators.

End Register.
End ValidatorMeta.

(** The validator classes of the module. *)
Inductive validator_class : Type :=
| ValidatorBase
| Base58CheckValidator_cls
| EthereumValidator_cls.

Definition class_name (c : validator_class) : option string :=
  match c with
  | ValidatorBase => None
  | Base58CheckValidator_cls => Some "Base58Check"%string
  | EthereumValidator_cls => Some "Ethereum"%string
  end.

(** The registry once [validation.py] has been imported. *)
Definition module_validators : gmap string validator_class :=
  ValidatorMeta.register_all
    (map (fun c => (class_name c, c))
         [ValidatorBase; Base58CheckValidator_cls; EthereumValidator_cls])
    ∅.

(** ** Text: [str] values restricted to code points below 256 *)

Definition is_ascii_char (c : ascii) : bool := (N_of_ascii c <? 128)%N.

Definition in_range (lo hi c : ascii) : bool :=
  ((N_of_ascii lo <=? N_of_ascii c) && (N_of_ascii c <=? N_of_ascii hi))%N.

(** [c.lower()] and [c.upper()] for one character. Only ASCII letters are
    moved; the validator never inspects the case of another character
    (a text that is not ASCII fails at [encode('ascii')] first). *)
Definition lower_char (c : ascii) : ascii :=
  if in_range "A" "Z" c then ascii_of_N (N_of_ascii c + 32) else c.

Definition upper_char (c : ascii) : ascii :=
  if in_range "a" "z" c then ascii_of_N (N_of_ascii c - 32) else c.

Definition lower (s : list ascii) : list ascii := map lower_char s.

(** [s.encode('ascii')] *)
Definition encode_ascii (s : list ascii) : outcome bytes :=
  if forallb is_ascii_char s then Ok (map byte_of_ascii s) else Raise UnicodeError.

(** [b.decode()]. Only the ASCII fragment of UTF-8 is modelled. With a byte
    above 0x7f Python raises UnicodeDecodeError on an ill-formed sequence and
    otherwise goes on with a text that is not ASCII, which the Ethereum
    validator then refuses at [encode('ascii')] with UnicodeEncodeError,
    unless its only characters outside ASCII are Kelvin signs (U+212A, whose
    lower case is ASCII). The model records a UnicodeError for every such
    input; the statements below are about ASCII addresses and do not rest on
    that branch. *)
Definition decode (b : bytes) : outcome (list ascii) :=
  if forallb (fun x => byte_to_Z x <? 128) b then Ok (map ascii_of_byte b)
  else Raise UnicodeError.

(** [s.lstrip('0x')]: drop leading characters while they are ['0'] or ['x']. *)
Fixpoint lstrip_0x (s : list ascii) : list ascii :=
  match s with
  | [] => []
  | c :: s' =>
      if Ascii.eqb c "0" || Ascii.eqb c "x" then lstrip_0x s' else s
  end.

(** [int(c, 16)] on one character. *)
Definition int_16 (c : ascii) : outcome Z :=
  if in_range "0" "9" c then Ok (Z.of_N (N_of_ascii c) - 48)
  else if in_range "a" "f" c then Ok (Z.of_N (N_of_ascii c) - 87)
  else if in_range "A" "F" c then Ok (Z.of_N (N_of_ascii c) - 55)
  else Raise ValueError.

(** ** The regular expressions [^(0x)?[0-9a-f]{40}$] and [^(0x)?[0-9A-F]{40}$] *)

Definition lower_hex (c : ascii) : bool := in_range "0" "9" c || in_range "a" "f" c.
Definition upper_hex (c : ascii) : bool := in_range "0" "9" c || in_range "A" "F" c.

(** [$] matches at the end of the text and just before a final newline. *)
Definition at_dollar (s : list ascii) : bool :=
  match s with
  | [] => true
  | [c] => Ascii.eqb c "010"
  | _ => false
  end.

(** [[class]{40}$] *)
Definition hex40_dollar (class : ascii -> bool) (s : list ascii) : bool :=
  (40 <=? length s)%nat && forallb class (firstn 40 s) && at_dollar (skipn 40 s).

(** [re.match] of [^(0x)?[class]{40}$]: the group is tried first, and on
    failure the match is tried again without it. *)
Definition pattern_match (class : ascii -> bool) (s : list ascii) : bool :=
  match s with
  | c0 :: c1 :: s' =>
      (Ascii.eqb c0 "0" && Ascii.eqb c1 "x" && hex40_dollar class s')
      || hex40_dollar class s
  | _ => hex40_dollar class s
  end.

(** ** Requests, results and the validators *)

Module ValidationResult.

Record t : Type := mk {
  name : string;
  ticker : string;
  address : bytes;
  valid : bool;
  network : string
}.

(** The attrs-generated constructor: each field is checked with
    [instance_of] in declaration order. [None] for [valid] or [network] is
    a TypeError. *)
Definition new (name ticker : string) (address : bytes)
    (valid : option bool) (network : option string) : outcome t :=
  match valid, network with
  | Some v, Some n => Ok (mk name ticker address v n)
  | _, _ => Raise TypeError
  end.

End ValidationResult.

Module ValidationRequest.

Record t : Type := mk {
  currency : Currency.t;
  address : bytes
}.

(** [extras]: the keyword arguments for the decoder, [charset] when the
    currency has a non-empty one. *)
Definition extras (self : t) : option bytes :=
  match Currency.charset (currency self) with
  | Some (c :: cs) => Some (c :: cs)
  | _ => None
  end.

(** A call [f(x, **extras)] of a function whose [charset] defaults to
    [DEFAULT_CHARSET]. *)
Definition with_extras {A : Type} (f : bytes -> A) (extras : option bytes) : A :=
  match extras with
  | Some cs => f cs
  | None => f base58check.DEFAULT_CHARSET
  end.

(** [networks]: [functools.reduce(operator.concat, tuple(values))]; reduce
    of an empty sequence without initial value is a TypeError. *)
Definition networks (self : t) : outcome (list Z) :=
  match map snd (Currency.networks (currency self)) with
  | [] => Raise TypeError
  | v :: vs => Ok (fold_left (fun a b => a ++ b) vs v)
  end.

End ValidationRequest.

(** [x in tuple_of_ints] *)
Definition int_in (x : Z) (l : list Z) : bool := existsb (Z.eqb x) l.

(** [abytes[0]] *)
Definition first_byte (abytes : bytes) : outcome Z :=
  match abytes with
  | [] => Raise IndexError
  | b :: _ => Ok (byte_to_Z b)
  end.

Module Base58CheckValidator.

Definition name : string := "Base58Check".

(** [25 > len(self.request.address) > 35], a chained comparison:
    [25 > len and len > 35]. *)
Definition length_gate (address : bytes) : bool :=
  let len := Z.of_nat (length address) in
  (25 >? len) && (len >? 35).

Definition b58decode (request : ValidationRequest.t) : outcome bytes :=
  ValidationRequest.with_extras
    (base58check.b58decode (ValidationRequest.address request))
    (ValidationRequest.extras request).

Definition b58encode (request : ValidationRequest.t) (abytes : bytes) : outcome bytes :=
  ValidationRequest.with_extras
    (base58check.b58encode abytes)
    (ValidationRequest.extras request).

(** [sha256(sha256(abytes[:-4]).digest()).digest()[:4]] *)
Definition checksum (abytes : bytes) : bytes :=
  firstn 4 (sha256 (sha256 (slice_to_m4 abytes))).

(** The body of [validate] below the length test: decoding, version byte,
    checksum and re-encoding. *)
Definition checks (request : ValidationRequest.t) : outcome bool :=
  abytes ← b58decode request;
  b0 ← first_byte abytes;
  nets ← ValidationRequest.networks request;
  if negb (int_in b0 nets) then Ok false
  else if negb (bytes_eqb (slice_from_m4 abytes) (checksum abytes)) then Ok false
  else
    encoded ← b58encode request abytes;
    Ok (bytes_eqb (ValidationRequest.address request) encoded).

Definition validate (request : ValidationRequest.t) : outcome bool :=
  if length_gate (ValidationRequest.address request) then Ok false
  else checks request.

(** [for name, networks in currency.networks.items(): if nbyte in networks:
    return name]; leaving the loop returns [None]. *)
Fixpoint scan_networks (nbyte : Z) (items : list (string * list Z)) : option string :=
  match items with
  | [] => None
  | (label, versions) :: items' =>
      if int_in nbyte versions then Some label else scan_networks nbyte items'
  end.

Definition network (request : ValidationRequest.t) : outcome (option string) :=
  abytes ← b58decode request;
  nbyte ← first_byte abytes;
  Ok (scan_networks nbyte (Currency.networks (ValidationRequest.currency request))).

End Base58CheckValidator.

Module EthereumValidator.

Definition name : string := "Ethereum".

Definition non_checksummed_patterns : list (list ascii -> bool) :=
  [pattern_match lower_hex; pattern_match upper_hex].

(** [addr_hash]: the hex digest of the Keccak-256 hash of the lowercased
    text's ASCII bytes. *)
Definition addr_hash (addr : list ascii) : outcome (list ascii) :=
  b ← encode_ascii (lower addr);
  Ok (list_ascii_of_string (hex_of_bytes (keccak_256 b))).

(** One turn of the loop at index [i]: [True] when the character fails the
    case rule. Both elements of the list given to [any] are evaluated. *)
Definition mismatch (h c : ascii) : outcome bool :=
  d ← int_16 h;
  Ok (((d >? 7) && negb (Ascii.eqb (upper_char c) c))
      || ((d <=? 7) && negb (Ascii.eqb (lower_char c) c))).

(** [for i in range(0, len(addr))], entered at index [i] with the
    characters [addr[i:]] still to visit. *)
Fixpoint case_loop (addr_hash : list ascii) (i : nat) (rest : list ascii) : outcome bool :=
  match rest with
  | [] => Ok true
  | c :: rest' =>
      match nth_error addr_hash i with
      | None => Raise IndexError
      | Some h =>
          bad ← mismatch h c;
          if (bad : bool) then Ok false else case_loop addr_hash (S i) rest'
      end
  end.

(** The checksum path, on the text [address]. *)
Definition checksum_path (address : list ascii) : outcome bool :=
  let addr := lstrip_0x address in
  h ← addr_hash addr;
  case_loop h 0 addr.

Definition validate_text (address : list ascii) : outcome bool :=
  if existsb (fun pat => pat address) non_checksummed_patterns then Ok true
  else checksum_path address.

Definition validate (request : ValidationRequest.t) : outcome bool :=
  address ← decode (ValidationRequest.address request);
  validate_text address.

Definition network (request : ValidationRequest.t) : outcome (option string) :=
  Ok (Some "both"%string).

End EthereumValidator.

(** Method dispatch on the class found in the registry. The abstract base
    has empty bodies, which return [None]. *)
Definition validator_validate (cls : validator_class) (request : ValidationRequest.t)
    : outcome (option bool) :=
  match cls with
  | ValidatorBase => Ok (@None bool)
  | Base58CheckValidator_cls => v ← Base58CheckValidator.validate request; Ok (Some v)
  | EthereumValidator_cls => v ← EthereumValidator.validate request; Ok (Some v)
  end.

Definition validator_network (cls : validator_class) (request : ValidationRequest.t)
    : outcome (option string) :=
  match cls with
  | ValidatorBase => Ok (@None string)
  | Base58CheckValidator_cls => Base58CheckValidator.network request
  | EthereumValidator_cls => EthereumValidator.network request
  end.

(** [ValidationRequest.execute]: the registry lookup, then the arguments of
    the result evaluated left to right ([validate] before [network]).
    Calling the [None] of an unregistered name is a TypeError. *)
Definition execute (validators : gmap string validator_class)
    (self : ValidationRequest.t) : outcome ValidationResult.t :=
  let cur := ValidationRequest.currency self in
  match Validators.get validators (Currency.validator cur) with
  | None => Raise TypeError
  | Some cls =>
      valid ← validator_validate cls self;
      network ← validator_network cls self;
      ValidationResult.new (Currency.name cur) (Currency.ticker cur)
        (ValidationRequest.address self) valid network
  end.

(** The [address] argument of the entry point: [bytes] or [str]. *)
Inductive address_arg : Type :=
| AddrBytes (b : bytes)
| AddrStr (s : string).

(** The attrs-generated constructor of [ValidationRequest]: both converters
    run, then the validators; an unknown currency converts to [None], which
    [instance_of(Currency)] refuses with a TypeError. *)
Definition new_request (catalog : list Currency.t) (currency : string)
    (address : address_arg) : outcome ValidationRequest.t :=
  let cur := Currencies.get catalog currency in
  abytes ← match address with
           | AddrBytes b => Ok b
           | AddrStr s => encode_ascii (list_ascii_of_string s)
           end;
  match cur with
  | None => Raise TypeError
  | Some c => Ok (ValidationRequest.mk c abytes)
  end.

(** [validate(currency, address)], the entry point. *)
Definition validate (catalog : list Currency.t) (validators : gmap string validator_class)
    (currency : string) (address : address_arg) : outcome ValidationResult.t :=
  request ← new_request catalog currency address;
  execute validators request.

(** ** A catalogue to run the entry point on *)

(** Modelled from the spec: two entries of the catalogue of
    [coinaddr/currency.py], which is not among the sources: bitcoin with the
    version bytes of its main and test networks, and ethereum, which has no
    version bytes. *)
Definition bitcoin : Currency.t :=
  Currency.mk "bitcoin" "btc" "Base58Check"
    [("main"%string, [0x00; 0x05]); ("test"%string, [0x6f; 0xc4])] None.

Definition ethereum : Currency.t :=
  Currency.mk "ethereum" "eth" "Ethereum" [] None.

Definition catalog : list Currency.t := [bitcoin; ethereum].

(** [coinaddr.validate(currency, address)] on that catalogue, with the
    registry as the module leaves it. *)
Definition coinaddr_validate (currency : string) (address : address_arg)
    : outcome ValidationResult.t :=
  validate catalog module_validators currency address.

(** The first class registered under [name] by a sequence of class
    statements, if any. *)
Fixpoint first_registered {V : Type} (name : string)
    (classes : list (option string * V)) : option V :=
  match classes with
  | [] => None
  | (Some n, v) :: classes' =>
      if String.eqb n name then Some v else first_registered name classes'
  | (None, _) :: classes' => first_registered name classes'
  end.

(** ** Vocabulary of the statements *)

(** The characters [lstrip('0x')] removes, and texts that do not begin with
    one of them. *)
Definition strippable (c : ascii) : Prop := c = "0"%char \/ c = "x"%char.

Definition clean_head (s : list ascii) : Prop :=
  forall c rest, s = c :: rest -> ~ strippable c.

(** Every character of a hex digest has a value under [int(_, 16)]. *)
Definition hex_text (h : list ascii) : Prop :=
  forall x, In x h -> exists d, int_16 x = Ok d.

(** The case rule of one position: with hash digit [d], the character [c]
    is unchanged by [upper()] when [d > 7] and by [lower()] when [d <= 7]. *)
Definition case_ok (d : Z) (c : ascii) : Prop :=
  (d > 7 -> upper_char c = c) /\ (d <= 7 -> lower_char c = c).

Definition case_bad (d : Z) (c : ascii) : Prop :=
  (d > 7 /\ upper_char c <> c) \/ (d <= 7 /\ lower_char c <> c).

(** Position [i] of [addr] obeys the rule against the digest [h]. *)
Definition position_ok (h addr : list ascii) (i : nat) : Prop :=
  forall c, nth_error addr i = Some c ->
  exists hc d, nth_error h i = Some hc /\ int_16 hc = Ok d /\ case_ok d c.

Definition position_bad (h addr : list ascii) (i : nat) : Prop :=
  exists c hc d, nth_error addr i = Some c /\ nth_error h i = Some hc /\
                 int_16 hc = Ok d /\ case_bad d c.

(** The charset both base-58 calls of a request receive. *)
Definition charset_of (request : ValidationRequest.t) : bytes :=
  ValidationRequest.with_extras (fun cs => cs) (ValidationRequest.extras request).

(** The number a byte sequence denotes, least significant byte first. *)
Definition le_val (l : bytes) : Z :=
  fold_right (fun b acc => byte_to_Z b + 256 * acc) 0 l.

(** The casing the loop of [EthereumValidator.validate] asks for: against
    the digest [h], a character is put in upper case where the hash digit
    exceeds 7 and in lower case elsewhere. *)
Fixpoint checksum_case (h addr : list ascii) : list ascii :=
  match h, addr with
  | hc :: h', c :: addr' =>
      match int_16 hc with
      | Ok d => if d >? 7 then upper_char c else lower_char c
      | Raise _ => c
      end :: checksum_case h' addr'
  | _, _ => addr
  end.

(** * Properties *)

(** ** The hash functions on the published test vectors *)

Example sha256_empty :
  hex_of_bytes (sha256 []) =
  "e3b0c44298fc1c149afbf4c8996fb92427ae41e4649b934ca495991b7852b855"%string.
Proof. vm_compute. reflexivity. Qed.

Example sha256_abc :
  hex_of_bytes (sha256 (bytes_of_str "abc")) =
  "ba7816bf8f01cfea414140de5dae2223b00361a396177a9cb410ff61f20015ad"%string.
Proof. vm_compute. reflexivity. Qed.

Example keccak_256_empty :
  hex_of_bytes (keccak_256 []) =
  "c5d2460186f7233c927e7db2dcc703c0e500b653ca82273b7bfad8045d85a470"%string.
Proof. vm_compute. reflexivity. Qed.

Example keccak_256_abc :
  hex_of_bytes (keccak_256 (bytes_of_str "abc")) =
  "4e03657aea45a94fc7d47ba826c8d667c0d1e6e33a64a036ec44f58fa12d6c45"%string.
Proof. vm_compute. reflexivity. Qed.

(** ** Sequencing and comparisons *)

Lemma bind_Ok_inv {A B : Type} (m : outcome A) (k : A -> outcome B) (b : B) :
  m ≫= k = Ok b -> exists a, m = Ok a /\ k a = Ok b.
Proof.
  destruct m as [a | e]; simpl; intros H.
  - exists a. split; [reflexivity | exact H].
  - discriminate H.
Qed.

Lemma bind_Ok {A B : Type} (m : outcome A) (k : A -> outcome B) (a : A) :
  m = Ok a -> m ≫= k = k a.
Proof. intros ->. reflexivity. Qed.

Lemma bind_Raise {A B : Type} (m : outcome A) (k : A -> outcome B) (e : exn) :
  m = Raise e -> m ≫= k = Raise e.
Proof. intros ->. reflexivity. Qed.

Lemma byte_eqb_eq (a b : byte) : byte_eqb a b = true <-> a = b.
Proof.
  unfold byte_eqb. split.
  - intros H. apply Byte.byte_dec_bl. exact H.
  - intros ->. apply Byte.byte_dec_lb. reflexivity.
Qed.

Lemma bytes_eqb_eq (a b : bytes) : bytes_eqb a b = true <-> a = b.
Proof.
  revert b. induction a as [| x a IH]; intros [| y b]; simpl;
    try (split; [discriminate | discriminate]); try (split; reflexivity).
  rewrite andb_true_iff, byte_eqb_eq, IH. split.
  - intros [-> ->]. reflexivity.
  - intros H. injection H as -> ->. split; reflexivity.
Qed.

Lemma int_in_In (x : Z) (l : list Z) : int_in x l = true <-> In x l.
Proof.
  unfold int_in. rewrite existsb_exists. split.
  - intros [y [Hy Heq]]. apply Z.eqb_eq in Heq. subst y. exact Hy.
  - intros H. exists x. split; [exact H | apply Z.eqb_refl].
Qed.

Lemma int_in_false (x : Z) (l : list Z) : int_in x l = false <-> ~ In x l.
Proof.
  rewrite <- int_in_In. destruct (int_in x l); split; intros H;
    try reflexivity; try discriminate; try (intros H'; discriminate H').
  exfalso. apply H. reflexivity.
Qed.

(** ** The registry *)

Section RegistryFacts.
Context {V : Type}.
Implicit Types (reg : gmap string V) (name : string) (new old : V).

Lemma contains_lookup reg name :
  Validators.contains reg name = true <-> is_Some (reg !! name).
Proof.
  unfold Validators.contains. destruct (reg !! name) as [v |]; split; intros H.
  - exists v. reflexivity.
  - reflexivity.
  - discriminate H.
  - destruct H as [v Hv]. discriminate Hv.
Qed.

Lemma truthy_Some name : name <> ""%string -> ValidatorMeta.truthy (Some name) = true.
Proof.
  intros Hne. unfold ValidatorMeta.truthy.
  destruct (String.eqb_spec name ""); [contradiction | reflexivity].
Qed.

Lemma register_fresh reg name new :
  name <> ""%string -> reg !! name = None ->
  ValidatorMeta.register (Some name) new reg = <[ name := new ]> reg.
Proof.
  intros Hne Hnone. unfold ValidatorMeta.register.
  rewrite (truthy_Some name Hne). unfold Validators.contains. rewrite Hnone.
  reflexivity.
Qed.

Lemma register_present reg name new old :
  reg !! name = Some old -> ValidatorMeta.register (Some name) new reg = reg.
Proof.
  intros Hsome. unfold ValidatorMeta.register, Validators.contains.
  rewrite Hsome. rewrite andb_false_r. reflexivity.
Qed.

Lemma register_unnamed reg (cname : option string) new :
  ValidatorMeta.truthy cname = false -> ValidatorMeta.register cname new reg = reg.
Proof.
  intros Hf. unfold ValidatorMeta.register. destruct cname as [s |]; [| reflexivity].
  rewrite Hf. reflexivity.
Qed.

(** One registration, seen from any key. *)
Lemma register_lookup reg (cname : option string) new name :
  name <> ""%string ->
  ValidatorMeta.register cname new reg !! name =
  match reg !! name with
  | Some old => Some old
  | None => if decide (cname = Some name) then Some new else None
  end.
Proof.
  intros Hne. unfold ValidatorMeta.register.
  destruct cname as [s |].
  - destruct (decide (s = name)) as [-> | Hsn].
    + rewrite truthy_Some by exact Hne. unfold Validators.contains.
      destruct (reg !! name) as [old |] eqn:Hl; simpl.
      * exact Hl.
      * rewrite lookup_insert_eq. rewrite decide_True by reflexivity. reflexivity.
    + assert (Hother : (if ValidatorMeta.truthy (Some s) && negb (Validators.contains reg s)
                        then <[ s := new ]> reg else reg) !! name = reg !! name).
      { destruct (ValidatorMeta.truthy (Some s) && negb (Validators.contains reg s));
          [apply lookup_insert_ne; exact Hsn | reflexivity]. }
      rewrite Hother. destruct (reg !! name); [reflexivity |].
      rewrite decide_False; [reflexivity | congruence].
  - destruct (reg !! name); [reflexivity |].
    rewrite decide_False; [reflexivity | discriminate].
Qed.

Lemma register_all_lookup (classes : list (option string * V)) reg name :
  name <> ""%string ->
  ValidatorMeta.register_all classes reg !! name =
  match reg !! name with
  | Some old => Some old
  | None => first_registered name classes
  end.
Proof.
  intros Hne. unfold ValidatorMeta.register_all.
  revert reg. induction classes as [| [cname v] classes IH]; intros reg; simpl.
  - destruct (reg !! name); reflexivity.
  - rewrite IH. rewrite (register_lookup reg cname v name Hne).
    destruct (reg !! name) as [old |]; [reflexivity |].
    destruct cname as [s |].
    + destruct (String.eqb_spec s name) as [-> | Hsn].
      * rewrite decide_True by reflexivity. reflexivity.
      * rewrite decide_False; [reflexivity | congruence].
    + rewrite decide_False; [reflexivity | discriminate].
Qed.

End RegistryFacts.

(** C8. Registration is first-wins and idempotent. A class registered under
    a name (a non-empty string) is added exactly when the registry has no
    entry for that name; registering under a name already present leaves
    the registry as it was (registration is a total function: nothing is
    raised); and after any sequence of class statements the class looked up
    under a name is the first one that was registered under it. *)
Theorem C8_registration_first_wins (V : Type) :
  (forall (reg : gmap string V) (name : string) (new : V),
      name <> ""%string -> reg !! name = None ->
      ValidatorMeta.register (Some name) new reg = <[ name := new ]> reg /\
      Validators.get (ValidatorMeta.register (Some name) new reg) name = Some new) /\
  (forall (reg : gmap string V) (name : string) (new old : V),
      reg !! name = Some old ->
      ValidatorMeta.register (Some name) new reg = reg) /\
  (forall (reg : gmap string V) (name : string) (first second : V),
      name <> ""%string ->
      ValidatorMeta.register (Some name) second
        (ValidatorMeta.register (Some name) first reg) =
      ValidatorMeta.register (Some name) first reg) /\
  (forall (classes : list (option string * V)) (name : string),
      name <> ""%string ->
      Validators.get (ValidatorMeta.register_all classes ∅) name =
      first_registered name classes).
Proof.
  split; [| split; [| split]].
  - intros reg name new Hne Hnone. split.
    + apply register_fresh; assumption.
    + unfold Validators.get. rewrite register_fresh by assumption.
      apply lookup_insert_eq.
  - intros reg name new old Hsome. eapply register_present. exact Hsome.
  - intros reg name first second Hne.
    destruct (reg !! name) as [old |] eqn:Hl.
    + rewrite (register_present reg name first old Hl).
      eapply register_present. exact Hl.
    + rewrite (register_fresh reg name first Hne Hl).
      eapply register_present. apply lookup_insert_eq.
  - intros classes name Hne. unfold Validators.get.
    rewrite (register_all_lookup classes ∅ name Hne).
    rewrite lookup_empty. reflexivity.
Qed.

Lemma C8_registration_first_wins_witness :
  ValidatorMeta.register (Some "Ethereum"%string) EthereumValidator_cls
    (∅ : gmap string validator_class) =
  <[ "Ethereum"%string := EthereumValidator_cls ]> ∅ /\
  ValidatorMeta.register (Some "Base58Check"%string) EthereumValidator_cls
    module_validators = module_validators /\
  Validators.get
    (ValidatorMeta.register_all
       [(None, ValidatorBase);
        (Some "Base58Check"%string, Base58CheckValidator_cls);
        (Some "Base58Check"%string, EthereumValidator_cls)] ∅)
    "Base58Check" = Some Base58CheckValidator_cls.
Proof.
  destruct (C8_registration_first_wins validator_class) as (Hnew & Hold & _ & Hall).
  split; [| split].
  - apply Hnew; [discriminate | reflexivity].
  - apply (Hold module_validators "Base58Check"%string EthereumValidator_cls
             Base58CheckValidator_cls).
    vm_compute. reflexivity.
  - rewrite Hall; [reflexivity | discriminate].
Defined.

(** ** Text *)

Lemma in_range_spec (lo hi c : ascii) :
  in_range lo hi c = true <->
  (N_of_ascii lo <= N_of_ascii c /\ N_of_ascii c <= N_of_ascii hi)%N.
Proof.
  unfold in_range. rewrite andb_true_iff, !N.leb_le. reflexivity.
Qed.

Lemma lower_hex_ascii (c : ascii) : lower_hex c = true -> is_ascii_char c = true.
Proof.
  unfold lower_hex, is_ascii_char. rewrite orb_true_iff, !in_range_spec.
  change (N_of_ascii "9") with 57%N. change (N_of_ascii "f") with 102%N.
  intros H. apply N.ltb_lt. lia.
Qed.

Lemma upper_hex_ascii (c : ascii) : upper_hex c = true -> is_ascii_char c = true.
Proof.
  unfold upper_hex, is_ascii_char. rewrite orb_true_iff, !in_range_spec.
  change (N_of_ascii "9") with 57%N. change (N_of_ascii "F") with 70%N.
  intros H. apply N.ltb_lt. lia.
Qed.

Lemma byte_to_Z_of_ascii (c : ascii) : byte_to_Z (byte_of_ascii c) = Z.of_N (N_of_ascii c).
Proof.
  unfold byte_to_Z. f_equal. apply Byte.to_of_N. symmetry. apply byte_of_ascii_via_N.
Qed.

Lemma byte_to_Z_range (b : byte) : 0 <= byte_to_Z b < 256.
Proof.
  unfold byte_to_Z. pose proof (Byte.to_N_bounded b). lia.
Qed.

(** Decoding the ASCII encoding of a text gives the text back. *)
Lemma decode_encoded (s : list ascii) :
  forallb is_ascii_char s = true -> decode (map byte_of_ascii s) = Ok s.
Proof.
  intros Hs. unfold decode.
  assert (Hall : forallb (fun x : byte => byte_to_Z x <? 128) (map byte_of_ascii s) = true).
  { rewrite forallb_forall in Hs. apply forallb_forall. intros x Hx.
    apply in_map_iff in Hx. destruct Hx as [c [<- Hc]].
    rewrite byte_to_Z_of_ascii. specialize (Hs c Hc). unfold is_ascii_char in Hs.
    apply N.ltb_lt in Hs. apply Z.ltb_lt. lia. }
  rewrite Hall. f_equal. rewrite map_map.
  rewrite (map_ext _ (fun c => c)) by (intros c; apply ascii_of_byte_of_ascii).
  apply map_id.
Qed.

Lemma forallb_impl {A : Type} (p q : A -> bool) (l : list A) :
  (forall x, p x = true -> q x = true) -> forallb p l = true -> forallb q l = true.
Proof.
  intros Hpq Hp. rewrite forallb_forall in *. intros x Hx. apply Hpq, Hp, Hx.
Qed.

Lemma hex40_dollar_exact (class : ascii -> bool) (body : list ascii) :
  length body = 40%nat -> forallb class body = true -> hex40_dollar class body = true.
Proof.
  intros Hlen Hall. unfold hex40_dollar.
  rewrite <- Hlen at 2 3. rewrite firstn_all, skipn_all, Hall, Hlen. reflexivity.
Qed.

Lemma pattern_match_bare (class : ascii -> bool) (body : list ascii) :
  length body = 40%nat -> forallb class body = true -> pattern_match class body = true.
Proof.
  intros Hlen Hall. pose proof (hex40_dollar_exact class body Hlen Hall) as H.
  unfold pattern_match. destruct body as [| c0 [| c1 s']]; try exact H.
  rewrite H. apply orb_true_r.
Qed.

Lemma pattern_match_prefixed (class : ascii -> bool) (body : list ascii) :
  length body = 40%nat -> forallb class body = true ->
  pattern_match class ("0"%char :: "x"%char :: body) = true.
Proof.
  intros Hlen Hall. unfold pattern_match.
  rewrite (hex40_dollar_exact class body Hlen Hall). reflexivity.
Qed.

(** C5. An address made of exactly 40 hex digits, all lowercase or all
    uppercase, with or without the prefix "0x", is accepted by
    [EthereumValidator.validate]; no checksum is consulted. *)
Theorem C5_non_checksummed_accepted (request : ValidationRequest.t) (body : list ascii) :
  length body = 40%nat ->
  forallb lower_hex body = true \/ forallb upper_hex body = true ->
  ValidationRequest.address request = map byte_of_ascii body \/
  ValidationRequest.address request = map byte_of_ascii ("0"%char :: "x"%char :: body) ->
  EthereumValidator.validate request = Ok true.
Proof.
  intros Hlen Hcase Haddr.
  assert (Hascii : forallb is_ascii_char body = true).
  { destruct Hcase as [H | H].
    - exact (forallb_impl _ _ _ lower_hex_ascii H).
    - exact (forallb_impl _ _ _ upper_hex_ascii H). }
  assert (Hpat : forall text, text = body \/ text = "0"%char :: "x"%char :: body ->
            existsb (fun pat => pat text) EthereumValidator.non_checksummed_patterns = true).
  { intros text Htext. unfold EthereumValidator.non_checksummed_patterns. simpl.
    destruct Hcase as [H | H]; destruct Htext as [-> | ->].
    - rewrite (pattern_match_bare _ _ Hlen H). reflexivity.
    - rewrite (pattern_match_prefixed _ _ Hlen H). reflexivity.
    - rewrite (pattern_match_bare _ _ Hlen H). apply orb_true_iff. right. reflexivity.
    - rewrite (pattern_match_prefixed _ _ Hlen H). apply orb_true_iff. right. reflexivity. }
  unfold EthereumValidator.validate.
  destruct Haddr as [-> | ->].
  - rewrite (decode_encoded body Hascii). simpl.
    unfold EthereumValidator.validate_text. rewrite Hpat by (left; reflexivity).
    reflexivity.
  - rewrite (decode_encoded ("0"%char :: "x"%char :: body)) by (simpl; exact Hascii).
    simpl. unfold EthereumValidator.validate_text.
    rewrite Hpat by (right; reflexivity). reflexivity.
Qed.

Lemma C5_non_checksummed_accepted_witness :
  EthereumValidator.validate
    (ValidationRequest.mk ethereum
       (bytes_of_str "0x5aaeb6053f3e94c9b9a09f33669435e7ef1beaed")) = Ok true /\
  EthereumValidator.validate
    (ValidationRequest.mk ethereum
       (bytes_of_str "5AAEB6053F3E94C9B9A09F33669435E7EF1BEAED")) = Ok true.
Proof.
  split.
  - apply (C5_non_checksummed_accepted _
             (list_ascii_of_string "5aaeb6053f3e94c9b9a09f33669435e7ef1beaed"));
      [reflexivity | left; reflexivity | right; reflexivity].
  - apply (C5_non_checksummed_accepted _
             (list_ascii_of_string "5AAEB6053F3E94C9B9A09F33669435E7EF1BEAED"));
      [reflexivity | right; reflexivity | left; reflexivity].
Defined.

(** ** The left strip of the checksum path *)

Lemma strip_test (c : ascii) :
  Ascii.eqb c "0" || Ascii.eqb c "x" = true <-> strippable c.
Proof.
  unfold strippable. rewrite orb_true_iff, !Ascii.eqb_eq. reflexivity.
Qed.

Lemma lstrip_0x_split (s : list ascii) :
  exists pre, s = pre ++ lstrip_0x s /\ Forall strippable pre.
Proof.
  induction s as [| c s IH]; simpl.
  - exists []. split; [reflexivity | constructor].
  - destruct (Ascii.eqb c "0" || Ascii.eqb c "x") eqn:Hc.
    + destruct IH as [pre [Heq Hpre]]. exists (c :: pre). split.
      * simpl. f_equal. exact Heq.
      * constructor; [apply strip_test; exact Hc | exact Hpre].
    + exists []. split; [reflexivity | constructor].
Qed.

Lemma lstrip_0x_clean (s : list ascii) : clean_head (lstrip_0x s).
Proof.
  induction s as [| c s IH]; simpl.
  - intros c' rest H. discriminate H.
  - destruct (Ascii.eqb c "0" || Ascii.eqb c "x") eqn:Hc.
    + exact IH.
    + intros c' rest H. injection H as <- _. intros Hs.
      apply strip_test in Hs. rewrite Hs in Hc. discriminate Hc.
Qed.

Lemma lstrip_0x_longest (s pre suf : list ascii) :
  s = pre ++ suf -> clean_head suf -> (length suf <= length (lstrip_0x s))%nat.
Proof.
  revert pre. induction s as [| c s IH]; intros pre Heq Hclean.
  - destruct pre; destruct suf; try discriminate Heq. simpl. lia.
  - simpl. destruct (Ascii.eqb c "0" || Ascii.eqb c "x") eqn:Hc.
    + destruct pre as [| p pre].
      * simpl in Heq. exfalso. apply (Hclean c s); [symmetry; exact Heq |].
        apply strip_test. exact Hc.
      * simpl in Heq. injection Heq as _ Heq. apply (IH pre); assumption.
    + rewrite Heq. rewrite length_app. simpl. lia.
Qed.

(** C7. The checksum path prepares its input with [lstrip('0x')], which
    removes the characters '0' and 'x' one by one from the left: the text
    that is hashed and case-checked is the longest suffix of the address
    that does not begin with '0' or 'x', so zero digits that follow a "0x"
    prefix are removed with it. *)
Theorem C7_checksum_path_left_strip (address : list ascii) :
  let addr := lstrip_0x address in
  (exists pre, address = pre ++ addr /\ Forall strippable pre) /\
  clean_head addr /\
  (forall pre suf, address = pre ++ suf -> clean_head suf ->
     (length suf <= length addr)%nat) /\
  EthereumValidator.checksum_path address =
    (h ← EthereumValidator.addr_hash addr; EthereumValidator.case_loop h 0 addr) /\
  (existsb (fun pat => pat address) EthereumValidator.non_checksummed_patterns = false ->
   EthereumValidator.validate_text address =
     (h ← EthereumValidator.addr_hash addr; EthereumValidator.case_loop h 0 addr)) /\
  (forall digits, lstrip_0x ("0"%char :: "x"%char :: "0"%char :: digits) = lstrip_0x digits).
Proof.
  intros addr. subst addr. repeat split.
  - apply lstrip_0x_split.
  - apply lstrip_0x_clean.
  - intros pre suf. apply lstrip_0x_longest.
  - intros Hpat. unfold EthereumValidator.validate_text. rewrite Hpat. reflexivity.
Qed.

Lemma C7_checksum_path_left_strip_witness :
  lstrip_0x (list_ascii_of_string "0x00Ab5xC") = list_ascii_of_string "Ab5xC" /\
  (length (list_ascii_of_string "b5xC") <= length (list_ascii_of_string "Ab5xC"))%nat /\
  EthereumValidator.validate_text (list_ascii_of_string "0x00Ab5xC") =
    (h ← EthereumValidator.addr_hash (list_ascii_of_string "Ab5xC");
     EthereumValidator.case_loop h 0 (list_ascii_of_string "Ab5xC")).
Proof.
  pose proof (C7_checksum_path_left_strip (list_ascii_of_string "0x00Ab5xC")) as H.
  cbv zeta in H. destruct H as (_ & _ & Hlong & _ & Hval & _).
  change (lstrip_0x (list_ascii_of_string "0x00Ab5xC"))
    with (list_ascii_of_string "Ab5xC") in Hlong, Hval.
  split; [reflexivity | split].
  - apply (Hlong (list_ascii_of_string "0x00A")); [reflexivity |].
    intros c rest Heq. injection Heq as <- _. intros [H | H]; discriminate H.
  - apply Hval. reflexivity.
Defined.

(** ** The mixed-case checksum loop *)

Lemma int_16_hex_digit (n : Z) : 0 <= n < 16 -> int_16 (hex_digit n) = Ok n.
Proof.
  intros Hn.
  assert (Hk : exists k : nat, (k < 16)%nat /\ n = Z.of_nat k)
    by (exists (Z.to_nat n); lia).
  destruct Hk as (k & Hk & ->).
  do 16 (destruct k as [| k]; [reflexivity |]). lia.
Qed.

Lemma hex_of_bytes_hex (b : bytes) : hex_text (list_ascii_of_string (hex_of_bytes b)).
Proof.
  unfold hex_of_bytes. rewrite list_ascii_of_string_of_list_ascii.
  intros x Hx. apply in_flat_map in Hx. destruct Hx as [v [_ Hv]].
  pose proof (byte_to_Z_range v) as Hr.
  destruct Hv as [<- | [<- | []]].
  - exists (byte_to_Z v / 16). apply int_16_hex_digit.
    split; [apply Z.div_pos; lia | apply Z.div_lt_upper_bound; lia].
  - exists (byte_to_Z v mod 16). apply int_16_hex_digit. apply Z.mod_pos_bound. lia.
Qed.

Lemma addr_hash_hex (addr h : list ascii) :
  EthereumValidator.addr_hash addr = Ok h -> hex_text h.
Proof.
  unfold EthereumValidator.addr_hash. intros H.
  apply bind_Ok_inv in H. destruct H as [b [_ H]]. injection H as <-.
  apply hex_of_bytes_hex.
Qed.

Lemma mismatch_false (hc c : ascii) (d : Z) :
  int_16 hc = Ok d ->
  (EthereumValidator.mismatch hc c = Ok false <-> case_ok d c).
Proof.
  intros Hd. unfold EthereumValidator.mismatch, case_ok. rewrite Hd. simpl.
  destruct (Ascii.eqb_spec (upper_char c) c) as [Hu | Hu];
    destruct (Ascii.eqb_spec (lower_char c) c) as [Hl | Hl];
    destruct (Z.gtb_spec d 7) as [Hgt | Hle];
    destruct (Z.leb_spec d 7) as [Hle' | Hgt']; simpl; try lia;
    (split; [intros H; try discriminate H; split; intros; try lia; assumption
            | intros [H1 H2]; try reflexivity; exfalso;
              first [apply Hu, H1; lia | apply Hl, H2; lia]]).
Qed.

Lemma mismatch_true (hc c : ascii) (d : Z) :
  int_16 hc = Ok d ->
  (EthereumValidator.mismatch hc c = Ok true <-> case_bad d c).
Proof.
  intros Hd. unfold EthereumValidator.mismatch, case_bad. rewrite Hd. simpl.
  destruct (Ascii.eqb_spec (upper_char c) c) as [Hu | Hu];
    destruct (Ascii.eqb_spec (lower_char c) c) as [Hl | Hl];
    destruct (Z.gtb_spec d 7) as [Hgt | Hle];
    destruct (Z.leb_spec d 7) as [Hle' | Hgt']; simpl; try lia;
    (split; [intros H; try discriminate H; first [left; split; [lia | assumption]
                                                  | right; split; [lia | assumption]]
            | intros [[H1 H2] | [H1 H2]]; try reflexivity; try lia; contradiction]).
Qed.

Lemma mismatch_total (hc c : ascii) (d : Z) :
  int_16 hc = Ok d -> exists bad, EthereumValidator.mismatch hc c = Ok bad.
Proof.
  intros Hd. unfold EthereumValidator.mismatch. rewrite Hd. simpl. eexists. reflexivity.
Qed.

(** The loop entered at index [i] accepts exactly when every remaining
    position has a hash digit and obeys the rule. *)
Lemma case_loop_true (h rest : list ascii) (i : nat) :
  EthereumValidator.case_loop h i rest = Ok true <->
  (forall j c, nth_error rest j = Some c ->
     exists hc d, nth_error h (i + j) = Some hc /\ int_16 hc = Ok d /\ case_ok d c).
Proof.
  revert i. induction rest as [| c rest IH]; intros i; simpl.
  - split; [| reflexivity]. intros _ j c Hj. destruct j; discriminate Hj.
  - split.
    + intros H. destruct (nth_error h i) as [hc |] eqn:Hh; [| discriminate H].
      destruct (int_16 hc) as [d | e] eqn:Hd.
      2:{ unfold EthereumValidator.mismatch in H. rewrite Hd in H. discriminate H. }
      destruct (mismatch_total hc c d Hd) as [bad Hbad]. rewrite Hbad in H. simpl in H.
      destruct bad; [discriminate H |].
      intros j c' Hj. destruct j as [| j].
      * simpl in Hj. injection Hj as <-. rewrite Nat.add_0_r.
        exists hc, d. split; [exact Hh | split; [exact Hd |]].
        apply (mismatch_false hc c d Hd). exact Hbad.
      * simpl in Hj. replace (i + S j)%nat with (S i + j)%nat by lia.
        apply (proj1 (IH (S i)) H j c' Hj).
    + intros H. destruct (H 0%nat c eq_refl) as (hc & d & Hh & Hd & Hok).
      rewrite Nat.add_0_r in Hh. rewrite Hh.
      rewrite (proj2 (mismatch_false hc c d Hd) Hok). simpl.
      apply IH. intros j c' Hj.
      replace (S i + j)%nat with (i + S j)%nat by lia. apply H. exact Hj.
Qed.

(** With a digest of hex digits, a position that breaks the rule makes the
    loop return [False]: the positions before it are visited without fault. *)
Lemma case_loop_false (h rest : list ascii) (i j : nat) (c hc : ascii) (d : Z) :
  hex_text h ->
  nth_error rest j = Some c -> nth_error h (i + j) = Some hc ->
  int_16 hc = Ok d -> case_bad d c ->
  EthereumValidator.case_loop h i rest = Ok false.
Proof.
  intros Hhex. revert i j. induction rest as [| c0 rest IH]; intros i j Hj Hh Hd Hbad.
  - destruct j; discriminate Hj.
  - simpl. destruct j as [| j].
    + simpl in Hj. injection Hj as ->. rewrite Nat.add_0_r in Hh. rewrite Hh.
      rewrite (proj2 (mismatch_true hc c d Hd) Hbad). reflexivity.
    + simpl in Hj.
      destruct (nth_error h i) as [h0 |] eqn:Hh0.
      2:{ apply nth_error_None in Hh0.
          assert (Hlt : (i + S j < length h)%nat)
            by (apply nth_error_Some; rewrite Hh; discriminate).
          lia. }
      destruct (Hhex h0 (nth_error_In _ _ Hh0)) as [d0 Hd0].
      destruct (mismatch_total h0 c0 d0 Hd0) as [bad Hb]. rewrite Hb. simpl.
      destruct bad; [reflexivity |].
      apply (IH (S i) j Hj); [| exact Hd | exact Hbad].
      replace (S i + j)%nat with (i + S j)%nat by lia. exact Hh.
Qed.

(** ** The base58check loops end within their fuel *)

Lemma fuel_for_enough (acc : Z) : acc < 2 ^ Z.of_nat (base58check.fuel_for acc).
Proof.
  unfold base58check.fuel_for.
  destruct (Z_lt_le_dec 0 acc) as [Hpos | Hneg].
  - pose proof (Z.log2_spec acc Hpos) as [_ Hhi].
    pose proof (Z.log2_nonneg acc) as Hnn.
    rewrite Nat2Z.inj_succ, Z2Nat.id by exact Hnn. exact Hhi.
  - assert (0 < 2 ^ Z.of_nat (S (Z.to_nat (Z.log2 acc)))) by (apply Z.pow_pos_nonneg; lia).
    lia.
Qed.

Lemma to_base256_fuel (fuel k : nat) (acc : Z) (result : bytes) :
  acc < 2 ^ Z.of_nat fuel ->
  base58check.to_base256 (fuel + k) acc result = base58check.to_base256 fuel acc result.
Proof.
  revert acc result. induction fuel as [| fuel IH]; intros acc result Hacc.
  - simpl in Hacc. destruct k as [| k]; simpl; [reflexivity |].
    destruct (Z.gtb_spec acc 0); [lia | reflexivity].
  - simpl. destruct (Z.gtb_spec acc 0) as [Hpos | _]; [| reflexivity].
    apply IH. rewrite Nat2Z.inj_succ, Z.pow_succ_r in Hacc by lia.
    apply Z.div_lt_upper_bound; lia.
Qed.

Lemma b58encode_int_fuel (fuel k : nat) (base : Z) (charset : bytes) (int_ : Z)
    (output : bytes) :
  2 <= base -> 0 <= int_ < 2 ^ Z.of_nat fuel ->
  base58check.b58encode_int (fuel + k) base charset int_ output =
  base58check.b58encode_int fuel base charset int_ output.
Proof.
  intros Hbase. revert int_ output.
  induction fuel as [| fuel IH]; intros int_ output Hacc.
  - simpl in Hacc. destruct k as [| k]; simpl; [reflexivity |].
    destruct (Z.eqb_spec int_ 0); [reflexivity | lia].
  - simpl. destruct (Z.eqb_spec int_ 0) as [_ | Hne]; [reflexivity |].
    apply IH. rewrite Nat2Z.inj_succ, Z.pow_succ_r in Hacc by lia. split.
    + apply Z.div_pos; lia.
    + apply Z.div_lt_upper_bound; nia.
Qed.

Lemma from_base256_nonneg (val : bytes) : 0 <= base58check.from_base256 val.
Proof.
  unfold base58check.from_base256.
  assert (H : forall l p acc, 0 <= p -> 0 <= acc ->
            0 <= snd (fold_left (fun '(p, acc) ch => (Z.shiftl p 8, acc + p * byte_to_Z ch))
                                l (p, acc))).
  { induction l as [| ch l IH]; intros p acc Hp Hacc; simpl; [exact Hacc |].
    apply IH.
    - apply Z.shiftl_nonneg. exact Hp.
    - pose proof (byte_to_Z_range ch). nia. }
  apply H; lia.
Qed.

(** Fuel beyond [fuel_for] changes nothing: both loops have ended. *)
Lemma to_base256_ends (acc : Z) (k : nat) :
  base58check.to_base256 (base58check.fuel_for acc + k) acc [] =
  base58check.to_base256 (base58check.fuel_for acc) acc [].
Proof. apply to_base256_fuel, fuel_for_enough. Qed.

Lemma b58encode_int_ends (val charset : bytes) (k : nat) :
  let acc := base58check.from_base256 val in
  base58check.b58encode_int (base58check.fuel_for acc + k) 58 charset acc [] =
  base58check.b58encode_int (base58check.fuel_for acc) 58 charset acc [].
Proof.
  intros acc. apply b58encode_int_fuel; [lia |]. split.
  - apply from_base256_nonneg.
  - apply fuel_for_enough.
Qed.

(** ** Base58CheckValidator *)

Section Base58CheckFacts.
Variable request : ValidationRequest.t.

Let address := ValidationRequest.address request.
Let items := Currency.networks (ValidationRequest.currency request).

Lemma length_gate_never (a : bytes) : Base58CheckValidator.length_gate a = false.
Proof.
  unfold Base58CheckValidator.length_gate. cbv zeta.
  destruct (Z.gtb_spec 25 (Z.of_nat (length a)));
    destruct (Z.gtb_spec (Z.of_nat (length a)) 35); simpl; try reflexivity; lia.
Qed.

Lemma validate_checks :
  Base58CheckValidator.validate request = Base58CheckValidator.checks request.
Proof.
  unfold Base58CheckValidator.validate. rewrite length_gate_never. reflexivity.
Qed.

Lemma fold_app_concat (vs : list (list Z)) (v : list Z) :
  fold_left (fun a b => a ++ b) vs v = v ++ concat vs.
Proof.
  revert v. induction vs as [| w vs IH]; intros v; simpl.
  - symmetry. apply app_nil_r.
  - rewrite IH. symmetry. apply app_assoc.
Qed.

Lemma networks_concat (nets : list Z) :
  ValidationRequest.networks request = Ok nets -> nets = concat (map snd items).
Proof.
  unfold ValidationRequest.networks. fold items.
  destruct (map snd items) as [| v vs]; intros H; [discriminate H |].
  injection H as <-. apply fold_app_concat.
Qed.

Lemma networks_defined :
  items <> [] -> exists nets, ValidationRequest.networks request = Ok nets.
Proof.
  unfold ValidationRequest.networks. fold items.
  destruct items as [| it its]; intros H; [contradiction |].
  simpl. eexists. reflexivity.
Qed.

Lemma networks_undefined :
  items = [] -> ValidationRequest.networks request = Raise TypeError.
Proof.
  unfold ValidationRequest.networks. fold items. intros ->. reflexivity.
Qed.

(** The checks once the address has decoded to a sequence with a first
    byte and the version bytes have been flattened. *)
Lemma checks_decoded (b : byte) (rest : bytes) (nets : list Z) :
  Base58CheckValidator.b58decode request = Ok (b :: rest) ->
  ValidationRequest.networks request = Ok nets ->
  Base58CheckValidator.checks request =
  if negb (int_in (byte_to_Z b) nets) then Ok false
  else if negb (bytes_eqb (slice_from_m4 (b :: rest))
                          (Base58CheckValidator.checksum (b :: rest))) then Ok false
  else
    encoded ← Base58CheckValidator.b58encode request (b :: rest);
    Ok (bytes_eqb address encoded).
Proof.
  intros Hdec Hnets. unfold Base58CheckValidator.checks.
  rewrite Hdec. simpl. rewrite Hnets. reflexivity.
Qed.

(** What an accepted address has gone through. *)
Lemma checks_true :
  Base58CheckValidator.checks request = Ok true ->
  exists b rest nets,
    Base58CheckValidator.b58decode request = Ok (b :: rest) /\
    ValidationRequest.networks request = Ok nets /\
    In (byte_to_Z b) nets /\
    slice_from_m4 (b :: rest) = Base58CheckValidator.checksum (b :: rest) /\
    Base58CheckValidator.b58encode request (b :: rest) = Ok address.
Proof.
  intros H. unfold Base58CheckValidator.checks in H.
  apply bind_Ok_inv in H. destruct H as [abytes [Hdec H]].
  apply bind_Ok_inv in H. destruct H as [b0 [Hb0 H]].
  apply bind_Ok_inv in H. destruct H as [nets [Hnets H]].
  destruct abytes as [| b rest]; [discriminate Hb0 |].
  injection Hb0 as <-.
  destruct (int_in (byte_to_Z b) nets) eqn:Hin; [| discriminate H]. simpl in H.
  destruct (bytes_eqb (slice_from_m4 (b :: rest))
              (Base58CheckValidator.checksum (b :: rest))) eqn:Hck;
    [| discriminate H].
  simpl in H. apply bind_Ok_inv in H. destruct H as [encoded [Henc H]].
  injection H as H. apply bytes_eqb_eq in H.
  exists b, rest, nets. repeat split.
  - exact Hdec.
  - exact Hnets.
  - apply int_in_In. exact Hin.
  - apply bytes_eqb_eq. exact Hck.
  - rewrite Henc. f_equal. symmetry. exact H.
Qed.

Lemma scan_networks_None (nbyte : Z) (l : list (string * list Z)) :
  (forall label versions, In (label, versions) l -> ~ In nbyte versions) ->
  Base58CheckValidator.scan_networks nbyte l = None.
Proof.
  induction l as [| [label versions] l IH]; intros H; simpl; [reflexivity |].
  rewrite (proj2 (int_in_false nbyte versions)).
  - apply IH. intros label' versions' Hin. apply (H label' versions'). right. exact Hin.
  - apply (H label versions). left. reflexivity.
Qed.

Lemma not_in_concat (nbyte : Z) (l : list (string * list Z)) :
  (forall label versions, In (label, versions) l -> ~ In nbyte versions) ->
  ~ In nbyte (concat (map snd l)).
Proof.
  intros H Hin. apply in_concat in Hin. destruct Hin as [versions [Hv Hb]].
  apply in_map_iff in Hv. destruct Hv as [[label versions'] [Heq Hl]].
  simpl in Heq. subst versions'. exact (H label versions Hl Hb).
Qed.

End Base58CheckFacts.

Lemma b58decode_charset (request : ValidationRequest.t) :
  Base58CheckValidator.b58decode request =
  base58check.b58decode (ValidationRequest.address request) (charset_of request).
Proof.
  unfold Base58CheckValidator.b58decode, charset_of, ValidationRequest.with_extras.
  destruct (ValidationRequest.extras request); reflexivity.
Qed.

Lemma b58encode_charset (request : ValidationRequest.t) (abytes : bytes) :
  Base58CheckValidator.b58encode request abytes =
  base58check.b58encode abytes (charset_of request).
Proof.
  unfold Base58CheckValidator.b58encode, charset_of, ValidationRequest.with_extras.
  destruct (ValidationRequest.extras request); reflexivity.
Qed.

(** C4. Round trip: when [Base58CheckValidator.validate] returns true, the
    address decodes, and encoding the decoded bytes again with the same
    charset gives back the address, byte for byte. *)
Theorem C4_round_trip (request : ValidationRequest.t) :
  Base58CheckValidator.validate request = Ok true ->
  exists abytes,
    base58check.b58decode (ValidationRequest.address request) (charset_of request)
      = Ok abytes /\
    base58check.b58encode abytes (charset_of request)
      = Ok (ValidationRequest.address request).
Proof.
  rewrite validate_checks. intros H.
  destruct (checks_true request H) as (b & rest & nets & Hdec & _ & _ & _ & Henc).
  exists (b :: rest). split.
  - rewrite <- b58decode_charset. exact Hdec.
  - rewrite <- b58encode_charset. exact Henc.
Qed.

Lemma C4_round_trip_witness :
  exists abytes,
    base58check.b58decode (bytes_of_str "1BoatSLRHtKNngkdXEeobR76b53LETtpyT")
      base58check.DEFAULT_CHARSET = Ok abytes /\
    base58check.b58encode abytes base58check.DEFAULT_CHARSET
      = Ok (bytes_of_str "1BoatSLRHtKNngkdXEeobR76b53LETtpyT").
Proof.
  apply (C4_round_trip
           (ValidationRequest.mk bitcoin (bytes_of_str "1BoatSLRHtKNngkdXEeobR76b53LETtpyT"))).
  vm_compute. reflexivity.
Defined.

(** C9. For an address that decodes to a sequence with first byte [b],
    and with [nets] the request's flattened version bytes, which is the
    concatenation of the version bytes of all the networks of the currency:
    [validate] returns false unless [b] is in [nets]. *)
Theorem C9_version_byte_gate (request : ValidationRequest.t) (b : byte) (rest : bytes)
    (nets : list Z) :
  Base58CheckValidator.b58decode request = Ok (b :: rest) ->
  ValidationRequest.networks request = Ok nets ->
  nets = concat (map snd (Currency.networks (ValidationRequest.currency request))) /\
  (~ In (byte_to_Z b) nets -> Base58CheckValidator.validate request = Ok false) /\
  (Base58CheckValidator.validate request = Ok true -> In (byte_to_Z b) nets).
Proof.
  intros Hdec Hnets. split; [| split].
  - apply networks_concat. exact Hnets.
  - intros Hnot. rewrite validate_checks, (checks_decoded request b rest nets Hdec Hnets).
    rewrite (proj2 (int_in_false _ _) Hnot). reflexivity.
  - rewrite validate_checks. intros H.
    destruct (checks_true request H) as (b' & rest' & nets' & Hdec' & Hnets' & Hin & _).
    rewrite Hdec in Hdec'. injection Hdec' as <- <-.
    rewrite Hnets in Hnets'. injection Hnets' as <-. exact Hin.
Qed.

Lemma C9_version_byte_gate_witness :
  Base58CheckValidator.validate
    (ValidationRequest.mk bitcoin (bytes_of_str "LVg2kJoFNg45Nbpy53h7Fe1wKyeXVRhMH9"))
  = Ok false /\
  In 0 [0; 5; 111; 196].
Proof.
  split.
  - refine (proj1 (proj2 (C9_version_byte_gate
              (ValidationRequest.mk bitcoin
                 (bytes_of_str "LVg2kJoFNg45Nbpy53h7Fe1wKyeXVRhMH9"))
              "0"%byte _ [0; 5; 111; 196] _ _)) _).
    + vm_compute. reflexivity.
    + vm_compute. reflexivity.
    + vm_compute. intros [H | [H | [H | [H | []]]]]; discriminate H.
  - refine (proj2 (proj2 (C9_version_byte_gate
              (ValidationRequest.mk bitcoin
                 (bytes_of_str "1BoatSLRHtKNngkdXEeobR76b53LETtpyT"))
              x00 _ [0; 5; 111; 196] _ _)) _).
    + vm_compute. reflexivity.
    + vm_compute. reflexivity.
    + vm_compute. reflexivity.
Defined.

(** C10. For a Base58Check currency, when the address decodes but its first
    byte is a version byte of none of the currency's networks, the
    [network] property gives [None] and [execute] returns no result: it
    raises a TypeError. *)
Theorem C10_foreign_version_byte_raises (validators : gmap string validator_class)
    (request : ValidationRequest.t) (b : byte) (rest : bytes) :
  Validators.get validators (Currency.validator (ValidationRequest.currency request))
    = Some Base58CheckValidator_cls ->
  Base58CheckValidator.b58decode request = Ok (b :: rest) ->
  (forall label versions,
      In (label, versions) (Currency.networks (ValidationRequest.currency request)) ->
      ~ In (byte_to_Z b) versions) ->
  Base58CheckValidator.network request = Ok None /\
  execute validators request = Raise TypeError.
Proof.
  intros Hget Hdec Hnone.
  assert (Hnet : Base58CheckValidator.network request = Ok None).
  { unfold Base58CheckValidator.network. rewrite Hdec. simpl.
    rewrite (scan_networks_None _ _ Hnone). reflexivity. }
  split; [exact Hnet |].
  unfold execute. rewrite Hget. simpl. rewrite validate_checks.
  destruct (Currency.networks (ValidationRequest.currency request)) as [| it its] eqn:Hitems.
  - unfold Base58CheckValidator.checks. rewrite Hdec. simpl.
    rewrite (networks_undefined request Hitems). reflexivity.
  - destruct (networks_defined request) as [nets Hnets];
      [rewrite Hitems; discriminate |].
    rewrite (checks_decoded request b rest nets Hdec Hnets).
    assert (Hnot : ~ In (byte_to_Z b) nets).
    { rewrite (networks_concat request nets Hnets). apply not_in_concat.
      rewrite Hitems. exact Hnone. }
    rewrite (proj2 (int_in_false _ _) Hnot). simpl.
    rewrite Hnet. reflexivity.
Qed.

Lemma C10_foreign_version_byte_raises_witness :
  execute module_validators
    (ValidationRequest.mk bitcoin (bytes_of_str "LVg2kJoFNg45Nbpy53h7Fe1wKyeXVRhMH9"))
  = Raise TypeError.
Proof.
  refine (proj2 (C10_foreign_version_byte_raises module_validators
            (ValidationRequest.mk bitcoin
               (bytes_of_str "LVg2kJoFNg45Nbpy53h7Fe1wKyeXVRhMH9"))
            "0"%byte _ _ _ _)).
  - vm_compute. reflexivity.
  - vm_compute. reflexivity.
  - intros label versions Hin.
    destruct Hin as [H | [H | []]]; injection H as <- <-;
      vm_compute; intros [H | [H | []]]; discriminate H.
Defined.

(** C2 (as amended). The length test lets every address of 25 to 35 bytes
    through to the decoding step, both ends included: a length of exactly 25
    passes, and so does a length of exactly 35. *)
Theorem C2_length_gate_window (request : ValidationRequest.t) :
  25 <= Z.of_nat (length (ValidationRequest.address request)) <= 35 ->
  Base58CheckValidator.length_gate (ValidationRequest.address request) = false /\
  Base58CheckValidator.validate request = Base58CheckValidator.checks request.
Proof.
  intros Hlen. unfold Base58CheckValidator.validate, Base58CheckValidator.length_gate.
  cbv zeta.
  destruct (Z.gtb_spec 25 (Z.of_nat (length (ValidationRequest.address request))));
    [lia |].
  split; reflexivity.
Qed.

Lemma C2_length_gate_window_witness :
  Base58CheckValidator.length_gate (bytes_of_str "2MsLZ5FqqYpjM1Q1W4X81zMVZTF9gdbhVwd")
    = false /\
  Base58CheckValidator.validate
    (ValidationRequest.mk bitcoin (bytes_of_str "2MsLZ5FqqYpjM1Q1W4X81zMVZTF9gdbhVwd")) =
  Base58CheckValidator.checks
    (ValidationRequest.mk bitcoin (bytes_of_str "2MsLZ5FqqYpjM1Q1W4X81zMVZTF9gdbhVwd")).
Proof.
  apply (C2_length_gate_window
           (ValidationRequest.mk bitcoin
              (bytes_of_str "2MsLZ5FqqYpjM1Q1W4X81zMVZTF9gdbhVwd"))).
  simpl. lia.
Defined.

(** C2 as stated fails: addresses of 35, of 36 and of 6 bytes are accepted. *)
Lemma C2_length_gate_counterexample :
  (length (bytes_of_str "2MsLZ5FqqYpjM1Q1W4X81zMVZTF9gdbhVwd") = 35%nat /\
   Base58CheckValidator.validate
     (ValidationRequest.mk bitcoin (bytes_of_str "2MsLZ5FqqYpjM1Q1W4X81zMVZTF9gdbhVwd"))
   = Ok true) /\
  (length (bytes_of_str "1111111111111111111111111111115GSrpS") = 36%nat /\
   Base58CheckValidator.validate
     (ValidationRequest.mk bitcoin (bytes_of_str "1111111111111111111111111111115GSrpS"))
   = Ok true) /\
  (length (bytes_of_str "1Wh4bh") = 6%nat /\
   Base58CheckValidator.validate (ValidationRequest.mk bitcoin (bytes_of_str "1Wh4bh"))
   = Ok true).
Proof. vm_compute. repeat split; reflexivity. Qed.

(** Where the checksum test decides. An accepted address always carries
    its checksum, and on every address that decodes to at least one byte,
    under a currency with at least one network, a mismatch makes
    [validate] return false. *)
Lemma checksum_test_decides (request : ValidationRequest.t) (abytes : bytes) :
  Base58CheckValidator.b58decode request = Ok abytes ->
  (Base58CheckValidator.validate request = Ok true ->
   slice_from_m4 abytes = firstn 4 (sha256 (sha256 (slice_to_m4 abytes)))) /\
  (abytes <> [] ->
   Currency.networks (ValidationRequest.currency request) <> [] ->
   slice_from_m4 abytes <> firstn 4 (sha256 (sha256 (slice_to_m4 abytes))) ->
   Base58CheckValidator.validate request = Ok false).
Proof.
  intros Hdec. rewrite validate_checks. split.
  - intros H.
    destruct (checks_true request H) as (b & rest & nets & Hdec' & _ & _ & Hck & _).
    rewrite Hdec in Hdec'. injection Hdec' as ->. exact Hck.
  - intros Hne Hnets Hmis. destruct abytes as [| b rest]; [contradiction |].
    destruct (networks_defined request Hnets) as [nets Hn].
    rewrite (checks_decoded request b rest nets Hdec Hn).
    destruct (negb (int_in (byte_to_Z b) nets)); [reflexivity |].
    destruct (bytes_eqb (slice_from_m4 (b :: rest))
                (Base58CheckValidator.checksum (b :: rest))) eqn:Hck.
    + apply bytes_eqb_eq in Hck. contradiction.
    + reflexivity.
Qed.

Example checksum_test_on_bitcoin :
  Base58CheckValidator.validate
    (ValidationRequest.mk bitcoin (bytes_of_str "1BoatSLRHtKNngkdXEeobR76b53LETtpyX"))
  = Ok false.
Proof.
  refine (proj2 (checksum_test_decides
            (ValidationRequest.mk bitcoin
               (bytes_of_str "1BoatSLRHtKNngkdXEeobR76b53LETtpyX"))
            (map byte_of_Z [0; 118; 128; 173; 236; 142; 171; 202; 186; 198; 118; 190;
                            158; 131; 133; 74; 222; 11; 210; 44; 219; 11; 185; 96; 226])
            _) _ _ _).
  - vm_compute. reflexivity.
  - discriminate.
  - discriminate.
  - vm_compute. discriminate.
Qed.

(** C3. The empty address is an address that decodes, to the empty byte
    sequence; the last four bytes of that sequence (there are none) are not
    the four checksum bytes of the double SHA-256 digest; and [validate]
    does not return false on it: it raises IndexError at [abytes[0]],
    which the length test before it, true of no length, lets it reach. The
    entry point raises the same for the currency bitcoin, on the empty
    bytes and on the empty text. *)
Theorem C3_empty_address_raises :
  Base58CheckValidator.b58decode (ValidationRequest.mk bitcoin []) = Ok [] /\
  slice_from_m4 [] <> firstn 4 (sha256 (sha256 (slice_to_m4 []))) /\
  Base58CheckValidator.length_gate [] = false /\
  Base58CheckValidator.validate (ValidationRequest.mk bitcoin []) = Raise IndexError /\
  coinaddr_validate "btc" (AddrBytes []) = Raise IndexError /\
  coinaddr_validate "btc" (AddrStr "") = Raise IndexError.
Proof.
  vm_compute. repeat split; try reflexivity. discriminate.
Qed.

(** C1. Malformed addresses on which the entry point raises instead of
    returning a result with [valid = false]: a corrupted checksum under a
    version byte of no bitcoin network, in a full-length address and in the
    one-character address "2", which decodes to the single byte 1 (TypeError
    from the result constructor, [network] being [None]); a character
    outside the base-58 alphabet (ValueError from the decoder); the empty
    address (IndexError); and, for ethereum, 65 digits, which outrun the 64
    digits of the hash (IndexError). For contrast, a corrupted checksum
    under a bitcoin version byte does give [valid = false]. *)
Theorem C1_malformed_address_raises :
  coinaddr_validate "btc" (AddrStr "LVg2kJoFNg45Nbpy53h7Fe1wKyeXVRhMH8")
    = Raise TypeError /\
  (base58check.b58decode (bytes_of_str "2") base58check.DEFAULT_CHARSET = Ok [x01] /\
   coinaddr_validate "btc" (AddrStr "2") = Raise TypeError) /\
  coinaddr_validate "btc" (AddrStr "1BoatSLRHtKNngkdXEeobR76b53LETtpy0")
    = Raise ValueError /\
  coinaddr_validate "btc" (AddrBytes []) = Raise IndexError /\
  coinaddr_validate "eth"
    (AddrStr "11111111111111111111111111111111111111111111111111111111111111111")
    = Raise IndexError /\
  coinaddr_validate "btc" (AddrStr "1BoatSLRHtKNngkdXEeobR76b53LETtpyX")
    = Ok (ValidationResult.mk "bitcoin" "btc"
            (bytes_of_str "1BoatSLRHtKNngkdXEeobR76b53LETtpyX") false "main").
Proof. vm_compute. repeat split; reflexivity. Qed.

(** ** When [execute] does return for a Base58Check currency *)

Lemma scan_networks_Some (nbyte : Z) (l : list (string * list Z))
    (label : string) (versions : list Z) :
  In (label, versions) l -> In nbyte versions ->
  exists found, Base58CheckValidator.scan_networks nbyte l = Some found.
Proof.
  induction l as [| [label' versions'] l IH]; intros Hin Hb; [destruct Hin |].
  simpl. destruct (int_in nbyte versions') eqn:Htest.
  - exists label'. reflexivity.
  - destruct Hin as [Heq | Hin].
    + injection Heq as -> ->. apply int_in_In in Hb. rewrite Hb in Htest.
      discriminate Htest.
    + apply IH; assumption.
Qed.

Lemma b58decode_base (val charset abytes : bytes) :
  base58check.b58decode val charset = Ok abytes -> Z.of_nat (length charset) = 58.
Proof.
  unfold base58check.b58decode. cbv zeta.
  destruct (Z.eqb_spec (Z.of_nat (length charset)) 58) as [H | H]; simpl.
  - intros _. exact H.
  - intros Hd. discriminate Hd.
Qed.

Lemma b58encode_defined (val charset : bytes) :
  Z.of_nat (length charset) = 58 -> exists encoded, base58check.b58encode val charset = Ok encoded.
Proof.
  intros Hbase. unfold base58check.b58encode.
  destruct charset as [| c0 cs]; [simpl in Hbase; lia |].
  cbv zeta. rewrite Hbase. simpl. eexists. reflexivity.
Qed.

(** With a registered Base58Check validator, an address that decodes to a
    sequence whose first byte is a version byte of one of the networks
    always gets a result; its [valid] field is what [validate] returned. *)
Lemma execute_Base58Check_returns (validators : gmap string validator_class)
    (request : ValidationRequest.t) (b : byte) (rest : bytes)
    (label : string) (versions : list Z) :
  Validators.get validators (Currency.validator (ValidationRequest.currency request))
    = Some Base58CheckValidator_cls ->
  Base58CheckValidator.b58decode request = Ok (b :: rest) ->
  In (label, versions) (Currency.networks (ValidationRequest.currency request)) ->
  In (byte_to_Z b) versions ->
  exists valid found,
    Base58CheckValidator.validate request = Ok valid /\
    execute validators request =
    Ok (ValidationResult.mk
          (Currency.name (ValidationRequest.currency request))
          (Currency.ticker (ValidationRequest.currency request))
          (ValidationRequest.address request) valid found).
Proof.
  intros Hget Hdec Hin Hb.
  destruct (scan_networks_Some (byte_to_Z b) _ label versions Hin Hb) as [found Hscan].
  assert (Hnet : Base58CheckValidator.network request = Ok (Some found)).
  { unfold Base58CheckValidator.network. rewrite Hdec. simpl. rewrite Hscan. reflexivity. }
  assert (Hval : exists valid, Base58CheckValidator.validate request = Ok valid).
  { rewrite validate_checks.
    destruct (networks_defined request) as [nets Hnets].
    { intros Hnil. rewrite Hnil in Hin. destruct Hin. }
    rewrite (checks_decoded request b rest nets Hdec Hnets).
    destruct (negb (int_in (byte_to_Z b) nets)); [eexists; reflexivity |].
    destruct (negb (bytes_eqb (slice_from_m4 (b :: rest))
                      (Base58CheckValidator.checksum (b :: rest))));
      [eexists; reflexivity |].
    rewrite b58decode_charset in Hdec. apply b58decode_base in Hdec.
    destruct (b58encode_defined (b :: rest) (charset_of request) Hdec) as [enc Henc].
    rewrite b58encode_charset, Henc. simpl. eexists. reflexivity. }
  destruct Hval as [valid Hval]. exists valid, found. split; [exact Hval |].
  unfold execute. rewrite Hget. simpl. rewrite Hval. simpl. rewrite Hnet. reflexivity.
Qed.

(** ** The decoder on every input *)

Lemma index_None (ch : byte) (cs : bytes) :
  base58check.index ch cs = None <-> ~ In ch cs.
Proof.
  induction cs as [| x cs IH]; simpl.
  - split; [intros _ [] | reflexivity].
  - destruct (byte_eqb x ch) eqn:Hx.
    + apply byte_eqb_eq in Hx. split; [discriminate |]. intros H. exfalso. apply H.
      left. exact Hx.
    + assert (Hne : x <> ch).
      { intros Heq. apply byte_eqb_eq in Heq. rewrite Heq in Hx. discriminate Hx. }
      destruct (base58check.index ch cs) as [i |]; simpl.
      * split; [discriminate |]. intros H. exfalso. apply H. right.
        destruct (in_dec Byte.byte_eq_dec ch cs) as [Hin | Hnot]; [exact Hin |].
        apply IH in Hnot. discriminate Hnot.
      * split; [| reflexivity]. intros _ [Heq | Hin]; [contradiction |].
        apply (proj1 IH); [reflexivity | exact Hin].
Qed.

Lemma index_range (ch : byte) (cs : bytes) (i : Z) :
  base58check.index ch cs = Some i -> 0 <= i < Z.of_nat (length cs).
Proof.
  revert i. induction cs as [| x cs IH]; intros i; simpl; [discriminate |].
  destruct (byte_eqb x ch).
  - intros H. injection H as <-. lia.
  - destruct (base58check.index ch cs) as [j |]; simpl; [| discriminate].
    intros H. injection H as <-. specialize (IH j eq_refl). lia.
Qed.

Lemma index_head (ch c0 : byte) (cs : bytes) (i : Z) :
  base58check.index ch (c0 :: cs) = Some i -> ch <> c0 -> 1 <= i.
Proof.
  simpl. destruct (byte_eqb c0 ch) eqn:Hx.
  - apply byte_eqb_eq in Hx. intros _ H. congruence.
  - destruct (base58check.index ch cs) as [j |] eqn:Hj; simpl; [| discriminate].
    intros H _. injection H as <-. pose proof (index_range ch cs j Hj). lia.
Qed.

Lemma b58decode_int_foreign (base : Z) (cs val : bytes) (output : Z) :
  (exists ch, In ch val /\ ~ In ch cs) ->
  base58check.b58decode_int base cs val output = Raise ValueError.
Proof.
  revert output. induction val as [| x val IH]; intros output [ch [Hin Hnot]].
  - destruct Hin.
  - simpl. destruct (base58check.index x cs) as [i |] eqn:Hi; [| reflexivity].
    apply IH. exists ch. split; [| exact Hnot].
    destruct Hin as [-> | Hin]; [| exact Hin].
    apply index_None in Hnot. rewrite Hnot in Hi. discriminate Hi.
Qed.

Lemma b58decode_int_known (base : Z) (cs val : bytes) (output : Z) :
  (forall ch, In ch val -> In ch cs) ->
  exists acc, base58check.b58decode_int base cs val output = Ok acc.
Proof.
  revert output. induction val as [| x val IH]; intros output Hall; simpl.
  - exists output. reflexivity.
  - destruct (base58check.index x cs) as [i |] eqn:Hi.
    + apply IH. intros ch Hch. apply Hall. right. exact Hch.
    + apply index_None in Hi. exfalso. apply Hi, Hall. left. reflexivity.
Qed.

Lemma b58decode_int_grows (base : Z) (cs val : bytes) (output acc : Z) :
  1 <= base -> 0 <= output ->
  base58check.b58decode_int base cs val output = Ok acc -> output <= acc.
Proof.
  intros Hbase. revert output. induction val as [| x val IH]; intros output Hout; simpl.
  - intros H. injection H as <-. lia.
  - destruct (base58check.index x cs) as [i |] eqn:Hi; [| discriminate].
    intros H. pose proof (index_range x cs i Hi) as Hr.
    apply IH in H; nia.
Qed.

Lemma bytes_lstrip_split (c : byte) (b : bytes) :
  exists n, b = repeat c n ++ bytes_lstrip c b.
Proof.
  induction b as [| x b IH]; simpl.
  - exists 0%nat. reflexivity.
  - destruct (byte_eqb x c) eqn:Hx.
    + apply byte_eqb_eq in Hx. subst x. destruct IH as [n Hn].
      exists (S n). simpl. f_equal. exact Hn.
    + exists 0%nat. reflexivity.
Qed.

Lemma bytes_lstrip_head (c x : byte) (b rest : bytes) :
  bytes_lstrip c b = x :: rest -> x <> c.
Proof.
  induction b as [| y b IH]; simpl; [discriminate |].
  destruct (byte_eqb y c) eqn:Hy; [exact IH |].
  intros H. injection H as <- _. intros Heq. apply byte_eqb_eq in Heq.
  rewrite Heq in Hy. discriminate Hy.
Qed.

Lemma bytes_lstrip_keeps (c ch : byte) (b : bytes) :
  In ch b -> ch <> c -> In ch (bytes_lstrip c b).
Proof.
  intros Hin Hne. induction b as [| y b IH]; [destruct Hin |].
  simpl. destruct (byte_eqb y c) eqn:Hy.
  - apply byte_eqb_eq in Hy. subst y. destruct Hin as [Heq | Hin]; [congruence |].
    apply IH. exact Hin.
  - exact Hin.
Qed.

Lemma bytes_lstrip_In (c ch : byte) (b : bytes) :
  In ch (bytes_lstrip c b) -> In ch b.
Proof.
  destruct (bytes_lstrip_split c b) as [n Hn]. intros H.
  rewrite Hn. apply in_or_app. right. exact H.
Qed.

Lemma to_base256_grows (fuel : nat) (acc : Z) (result : bytes) :
  (length result <= length (base58check.to_base256 fuel acc result))%nat.
Proof.
  revert acc result. induction fuel as [| fuel IH]; intros acc result; simpl; [lia |].
  destruct (acc >? 0); [| lia].
  specialize (IH (acc / 256) (byte_of_Z (acc mod 256) :: result)). simpl in IH. lia.
Qed.

Lemma to_base256_nonempty (acc : Z) :
  0 < acc -> base58check.to_base256 (base58check.fuel_for acc) acc [] <> [].
Proof.
  intros Hpos. unfold base58check.fuel_for. simpl.
  destruct (Z.gtb_spec acc 0) as [_ | Hle]; [| lia].
  intros H.
  pose proof (to_base256_grows (Z.to_nat (Z.log2 acc)) (acc / 256)
                [byte_of_Z (acc mod 256)]) as Hlen.
  rewrite H in Hlen. simpl in Hlen. lia.
Qed.

Lemma b58decode_int_positive (c0 x : byte) (cs' rest : bytes) (acc : Z) :
  x <> c0 ->
  base58check.b58decode_int 58 (c0 :: cs') (x :: rest) 0 = Ok acc -> 0 < acc.
Proof.
  intros Hne Hacc.
  change (match base58check.index x (c0 :: cs') with
          | Some i => base58check.b58decode_int 58 (c0 :: cs') rest (0 * 58 + i)
          | None => Raise ValueError
          end = Ok acc) in Hacc.
  destruct (base58check.index x (c0 :: cs')) as [i |] eqn:Hi; [| discriminate Hacc].
  pose proof (index_head x c0 cs' i Hi Hne) as Hi1.
  apply b58decode_int_grows in Hacc; lia.
Qed.

(** What the decoder does with an address, case by case. *)
Lemma b58decode_cases (val cs : bytes) :
  (Z.of_nat (length cs) <> 58 /\ base58check.b58decode val cs = Raise ValueError) \/
  (Z.of_nat (length cs) = 58 /\ (exists ch, In ch val /\ ~ In ch cs) /\
   base58check.b58decode val cs = Raise ValueError) \/
  (Z.of_nat (length cs) = 58 /\ (forall ch, In ch val -> In ch cs) /\
   exists abytes, base58check.b58decode val cs = Ok abytes /\ (abytes = [] <-> val = [])).
Proof.
  unfold base58check.b58decode. cbv zeta.
  destruct (Z.eqb_spec (Z.of_nat (length cs)) 58) as [Hbase | Hbase]; simpl;
    [| left; split; [exact Hbase | reflexivity]].
  right. destruct cs as [| c0 cs']; [simpl in Hbase; lia |].
  rewrite Hbase. change (hd x00 (c0 :: cs')) with c0.
  set (cs := c0 :: cs') in *.
  destruct (forallb (fun ch => if in_dec Byte.byte_eq_dec ch cs then true else false) val)
    eqn:Hall.
  - right. split; [reflexivity |].
    assert (Hin : forall ch, In ch val -> In ch cs).
    { intros ch Hch. rewrite forallb_forall in Hall. specialize (Hall ch Hch).
      destruct (in_dec Byte.byte_eq_dec ch cs); [assumption | discriminate]. }
    split; [exact Hin |].
    destruct (b58decode_int_known 58 cs (bytes_lstrip c0 val) 0) as [acc Hacc].
    { intros ch Hch. apply Hin. eapply bytes_lstrip_In. exact Hch. }
    rewrite (bind_Ok _ _ acc Hacc). eexists. split; [reflexivity |].
    split.
    + intros Hnil. apply app_eq_nil in Hnil. destruct Hnil as [Hpad Hdigits].
      destruct (bytes_lstrip c0 val) as [| x rest] eqn:Hstrip.
      * simpl in Hpad. rewrite Nat.sub_0_r in Hpad.
        destruct val; [reflexivity | discriminate Hpad].
      * exfalso.
        pose proof (b58decode_int_positive c0 x cs' rest acc
                      (bytes_lstrip_head c0 x val rest Hstrip) Hacc) as Hpos.
        apply (to_base256_nonempty acc); [exact Hpos | exact Hdigits].
    + intros ->. simpl in Hacc. injection Hacc as <-. reflexivity.
  - left. split; [reflexivity |].
    assert (Hbad : exists ch, In ch val /\ ~ In ch cs).
    { apply not_true_iff_false in Hall.
      destruct (existsb (fun ch => if in_dec Byte.byte_eq_dec ch cs then false else true) val)
        eqn:Hex.
      - apply existsb_exists in Hex. destruct Hex as [ch [Hch Ht]].
        exists ch. split; [exact Hch |].
        destruct (in_dec Byte.byte_eq_dec ch cs); [discriminate | assumption].
      - exfalso. apply Hall. apply forallb_forall. intros ch Hch.
        destruct (in_dec Byte.byte_eq_dec ch cs) as [Hi | Hn]; [reflexivity |].
        assert (Hcontra : existsb
                  (fun ch => if in_dec Byte.byte_eq_dec ch cs then false else true) val = true).
        { apply existsb_exists. exists ch. split; [exact Hch |].
          destruct (in_dec Byte.byte_eq_dec ch cs); [contradiction | reflexivity]. }
        rewrite Hcontra in Hex. discriminate Hex. }
    split; [exact Hbad |].
    rewrite b58decode_int_foreign; [reflexivity |].
    destruct Hbad as [ch [Hch Hnot]]. exists ch. split; [| exact Hnot].
    apply bytes_lstrip_keeps; [exact Hch |].
    intros ->. apply Hnot. left. reflexivity.
Qed.

Lemma request_decode_cases (request : ValidationRequest.t) :
  let cs := charset_of request in
  let addr := ValidationRequest.address request in
  (Z.of_nat (length cs) <> 58 /\
   Base58CheckValidator.b58decode request = Raise ValueError) \/
  (Z.of_nat (length cs) = 58 /\ (exists ch, In ch addr /\ ~ In ch cs) /\
   Base58CheckValidator.b58decode request = Raise ValueError) \/
  (Z.of_nat (length cs) = 58 /\ (forall ch, In ch addr -> In ch cs) /\
   exists abytes, Base58CheckValidator.b58decode request = Ok abytes /\
                  (abytes = [] <-> addr = [])).
Proof.
  cbv zeta. rewrite b58decode_charset. apply b58decode_cases.
Qed.

(** The three tests of [validate], as one boolean. *)
Lemma checks_verdict (request : ValidationRequest.t) (b : byte) (rest : bytes)
    (nets : list Z) :
  Base58CheckValidator.b58decode request = Ok (b :: rest) ->
  ValidationRequest.networks request = Ok nets ->
  exists encoded,
    Base58CheckValidator.b58encode request (b :: rest) = Ok encoded /\
    Base58CheckValidator.checks request =
    Ok (int_in (byte_to_Z b) nets
        && bytes_eqb (slice_from_m4 (b :: rest)) (Base58CheckValidator.checksum (b :: rest))
        && bytes_eqb (ValidationRequest.address request) encoded).
Proof.
  intros Hdec Hnets.
  pose proof Hdec as Hbase. rewrite b58decode_charset in Hbase.
  apply b58decode_base in Hbase.
  destruct (b58encode_defined (b :: rest) (charset_of request) Hbase) as [enc Henc].
  rewrite <- b58encode_charset in Henc.
  exists enc. split; [exact Henc |].
  rewrite (checks_decoded request b rest nets Hdec Hnets).
  destruct (int_in (byte_to_Z b) nets); simpl; [| reflexivity].
  destruct (bytes_eqb (slice_from_m4 (b :: rest))
              (Base58CheckValidator.checksum (b :: rest))); simpl; [| reflexivity].
  rewrite Henc. reflexivity.
Qed.

(** X1. The verdict of [Base58CheckValidator.validate] is the conjunction of
    three tests and of nothing else: the first decoded byte is one of the
    flattened version bytes, the last four decoded bytes are the checksum of
    the bytes before them, and encoding the decoded bytes gives back the
    address. The length of the address plays no part. *)
Theorem X1_validate_verdict (request : ValidationRequest.t) (v : bool) :
  Base58CheckValidator.validate request = Ok v <->
  exists b rest nets encoded,
    Base58CheckValidator.b58decode request = Ok (b :: rest) /\
    ValidationRequest.networks request = Ok nets /\
    Base58CheckValidator.b58encode request (b :: rest) = Ok encoded /\
    v = int_in (byte_to_Z b) nets
        && bytes_eqb (slice_from_m4 (b :: rest)) (firstn 4 (sha256 (sha256 (slice_to_m4 (b :: rest)))))
        && bytes_eqb (ValidationRequest.address request) encoded.
Proof.
  rewrite validate_checks. split.
  - intros Hv. pose proof Hv as H. unfold Base58CheckValidator.checks in H.
    apply bind_Ok_inv in H. destruct H as [abytes [Hdec H]].
    apply bind_Ok_inv in H. destruct H as [b0 [Hb0 H]].
    apply bind_Ok_inv in H. destruct H as [nets [Hnets _]].
    destruct abytes as [| b rest]; [discriminate Hb0 |].
    destruct (checks_verdict request b rest nets Hdec Hnets) as [enc [Henc Hexpr]].
    exists b, rest, nets, enc. repeat split; try assumption.
    rewrite Hv in Hexpr. injection Hexpr as ->. reflexivity.
  - intros (b & rest & nets & enc & Hdec & Hnets & Henc & ->).
    destruct (checks_verdict request b rest nets Hdec Hnets) as [enc' [Henc' Hv]].
    rewrite Henc in Henc'. injection Henc' as <-. exact Hv.
Qed.

Lemma X1_validate_verdict_witness :
  exists b rest nets encoded,
    Base58CheckValidator.b58decode
      (ValidationRequest.mk bitcoin (bytes_of_str "1BoatSLRHtKNngkdXEeobR76b53LETtpyT"))
      = Ok (b :: rest) /\
    ValidationRequest.networks
      (ValidationRequest.mk bitcoin (bytes_of_str "1BoatSLRHtKNngkdXEeobR76b53LETtpyT"))
      = Ok nets /\
    Base58CheckValidator.b58encode
      (ValidationRequest.mk bitcoin (bytes_of_str "1BoatSLRHtKNngkdXEeobR76b53LETtpyT"))
      (b :: rest) = Ok encoded /\
    true = int_in (byte_to_Z b) nets
           && bytes_eqb (slice_from_m4 (b :: rest))
                (firstn 4 (sha256 (sha256 (slice_to_m4 (b :: rest)))))
           && bytes_eqb (bytes_of_str "1BoatSLRHtKNngkdXEeobR76b53LETtpyT") encoded.
Proof.
  apply (proj1 (X1_validate_verdict
                  (ValidationRequest.mk bitcoin
                     (bytes_of_str "1BoatSLRHtKNngkdXEeobR76b53LETtpyT")) true)).
  vm_compute. reflexivity.
Defined.

Lemma validate_classified (request : ValidationRequest.t) :
  let cs := charset_of request in
  let addr := ValidationRequest.address request in
  let items := Currency.networks (ValidationRequest.currency request) in
  ((Z.of_nat (length cs) <> 58 \/ exists ch, In ch addr /\ ~ In ch cs) /\
   Base58CheckValidator.validate request = Raise ValueError) \/
  (Z.of_nat (length cs) = 58 /\ addr = [] /\
   Base58CheckValidator.validate request = Raise IndexError) \/
  (Z.of_nat (length cs) = 58 /\ (forall ch, In ch addr -> In ch cs) /\ addr <> [] /\
   items = [] /\ Base58CheckValidator.validate request = Raise TypeError) \/
  (Z.of_nat (length cs) = 58 /\ (forall ch, In ch addr -> In ch cs) /\ addr <> [] /\
   items <> [] /\ exists v, Base58CheckValidator.validate request = Ok v).
Proof.
  cbv zeta. rewrite validate_checks.
  destruct (request_decode_cases request)
    as [[Hbase Hdec] | [(Hbase & Hbad & Hdec) | (Hbase & Hall & abytes & Hdec & Hnil)]].
  - left. split; [left; exact Hbase |].
    unfold Base58CheckValidator.checks. rewrite Hdec. reflexivity.
  - left. split; [right; exact Hbad |].
    unfold Base58CheckValidator.checks. rewrite Hdec. reflexivity.
  - right. destruct abytes as [| b rest].
    + left. split; [exact Hbase |]. split; [apply Hnil; reflexivity |].
      unfold Base58CheckValidator.checks. rewrite Hdec. reflexivity.
    + right.
      assert (Hne : ValidationRequest.address request <> []).
      { intros H. apply Hnil in H. discriminate H. }
      destruct (Currency.networks (ValidationRequest.currency request)) as [| it its]
        eqn:Hitems.
      * left. repeat split; try assumption.
        unfold Base58CheckValidator.checks. rewrite Hdec. simpl.
        rewrite (networks_undefined request Hitems). reflexivity.
      * right. repeat split; try assumption; [discriminate |].
        destruct (networks_defined request) as [nets Hnets];
          [rewrite Hitems; discriminate |].
        destruct (checks_verdict request b rest nets Hdec Hnets) as [enc [_ Hv]].
        eexists. exact Hv.
Qed.

(** X2. Every outcome of [Base58CheckValidator.validate] and when it
    happens. It raises ValueError exactly when the charset does not have 58
    characters or the address has a byte outside the charset; IndexError
    exactly on the empty address; TypeError exactly when a non-empty address
    within the charset meets a currency without networks; in every other
    case, and only then, it returns a boolean. *)
Theorem X2_validate_outcomes (request : ValidationRequest.t) :
  let cs := charset_of request in
  let addr := ValidationRequest.address request in
  let items := Currency.networks (ValidationRequest.currency request) in
  (Base58CheckValidator.validate request = Raise ValueError <->
   (Z.of_nat (length cs) <> 58 \/ exists ch, In ch addr /\ ~ In ch cs)) /\
  (Base58CheckValidator.validate request = Raise IndexError <->
   (Z.of_nat (length cs) = 58 /\ addr = [])) /\
  (Base58CheckValidator.validate request = Raise TypeError <->
   (Z.of_nat (length cs) = 58 /\ (forall ch, In ch addr -> In ch cs) /\ addr <> [] /\
    items = [])) /\
  ((exists v, Base58CheckValidator.validate request = Ok v) <->
   (Z.of_nat (length cs) = 58 /\ (forall ch, In ch addr -> In ch cs) /\ addr <> [] /\
    items <> [])) /\
  Base58CheckValidator.validate request <> Raise UnicodeError.
Proof.
  cbv zeta.
  pose proof (validate_classified request) as Hcls. cbv zeta in Hcls.
  set (cs := charset_of request) in *.
  set (addr := ValidationRequest.address request) in *.
  set (items := Currency.networks (ValidationRequest.currency request)) in *.
  assert (Hclash : (Z.of_nat (length cs) <> 58 \/ exists ch, In ch addr /\ ~ In ch cs) ->
                   Z.of_nat (length cs) = 58 ->
                   (forall ch, In ch addr -> In ch cs) -> False).
  { intros [Hne | [ch [Hin Hnot]]] Hb Hall; [contradiction | exact (Hnot (Hall ch Hin))]. }
  assert (Hempty : forall ch, In ch addr -> addr = [] -> In ch cs).
  { intros ch Hin Hnil. rewrite Hnil in Hin. destruct Hin. }
  destruct Hcls as [[Hc Ho] | [(Hb & Ha & Ho) | [(Hb & Hall & Ha & Hi & Ho)
                                               | (Hb & Hall & Ha & Hi & v & Ho)]]];
    rewrite Ho.
  - (* ValueError *)
    split; [| split; [| split; [| split]]].
    + split; [intros _; exact Hc | reflexivity].
    + split; [discriminate |]. intros [Hb Ha]. exfalso.
      apply (Hclash Hc Hb). intros ch Hin. exact (Hempty ch Hin Ha).
    + split; [discriminate |]. intros (Hb & Hall & _). exfalso. exact (Hclash Hc Hb Hall).
    + split; [intros [v H]; discriminate H |].
      intros (Hb & Hall & _). exfalso. exact (Hclash Hc Hb Hall).
    + discriminate.
  - (* IndexError *)
    split; [| split; [| split; [| split]]].
    + split; [discriminate |]. intros Hc. exfalso.
      apply (Hclash Hc Hb). intros ch Hin. exact (Hempty ch Hin Ha).
    + split; [intros _; split; assumption | reflexivity].
    + split; [discriminate |]. intros (_ & _ & Hne & _). contradiction.
    + split; [intros [v H]; discriminate H |]. intros (_ & _ & Hne & _). contradiction.
    + discriminate.
  - (* TypeError *)
    split; [| split; [| split; [| split]]].
    + split; [discriminate |]. intros Hc. exfalso. exact (Hclash Hc Hb Hall).
    + split; [discriminate |]. intros [_ Hnil]. contradiction.
    + split; [intros _; repeat split; assumption | reflexivity].
    + split; [intros [v H]; discriminate H |]. intros (_ & _ & _ & Hne). contradiction.
    + discriminate.
  - (* a boolean *)
    split; [| split; [| split; [| split]]].
    + split; [discriminate |]. intros Hc. exfalso. exact (Hclash Hc Hb Hall).
    + split; [discriminate |]. intros [_ Hnil]. contradiction.
    + split; [discriminate |]. intros (_ & _ & _ & Hnil). contradiction.
    + split; [intros _; repeat split; assumption | intros _; exists v; reflexivity].
    + discriminate.
Qed.

Lemma X2_validate_outcomes_witness :
  Base58CheckValidator.validate
    (ValidationRequest.mk bitcoin (bytes_of_str "1BoatSLRHtKNngkdXEeobR76b53LETtpy0"))
  = Raise ValueError /\
  Base58CheckValidator.validate (ValidationRequest.mk bitcoin []) = Raise IndexError.
Proof.
  pose proof (X2_validate_outcomes
                (ValidationRequest.mk bitcoin
                   (bytes_of_str "1BoatSLRHtKNngkdXEeobR76b53LETtpy0"))) as Hbad.
  pose proof (X2_validate_outcomes (ValidationRequest.mk bitcoin [])) as Hnil.
  cbv zeta in Hbad, Hnil.
  destruct Hbad as [Hvalue _]. destruct Hnil as [_ [Hindex _]].
  split.
  - apply Hvalue. right. exists "0"%byte. split.
    + vm_compute. do 33 right. left. reflexivity.
    + vm_compute. intros H.
      repeat (destruct H as [H | H]; [discriminate H |]). exact H.
  - apply Hindex. split; reflexivity.
Defined.

(** ** The network of a Base58Check address *)

Lemma scan_first_match (nbyte : Z) (items : list (string * list Z)) (label : string) :
  Base58CheckValidator.scan_networks nbyte items = Some label <->
  exists pre versions post,
    items = pre ++ (label, versions) :: post /\ In nbyte versions /\
    forall l v, In (l, v) pre -> ~ In nbyte v.
Proof.
  induction items as [| [l0 v0] items IH]; simpl.
  - split; [discriminate |]. intros (pre & versions & post & Heq & _).
    destruct pre; discriminate Heq.
  - destruct (int_in nbyte v0) eqn:Htest.
    + split.
      * intros H. injection H as <-. exists [], v0, items.
        split; [reflexivity |]. split; [apply int_in_In; exact Htest |].
        intros l v [].
      * intros (pre & versions & post & Heq & Hin & Hpre).
        destruct pre as [| [l1 v1] pre].
        -- simpl in Heq. injection Heq as -> _ _. reflexivity.
        -- simpl in Heq. injection Heq as <- <- _. exfalso.
           apply (Hpre l0 v0); [left; reflexivity | apply int_in_In; exact Htest].
    + rewrite IH. split.
      * intros (pre & versions & post & Heq & Hin & Hpre).
        exists ((l0, v0) :: pre), versions, post.
        split; [simpl; f_equal; exact Heq |]. split; [exact Hin |].
        intros l v [H | H].
        -- injection H as <- <-. apply int_in_false. exact Htest.
        -- exact (Hpre l v H).
      * intros (pre & versions & post & Heq & Hin & Hpre).
        destruct pre as [| [l1 v1] pre].
        -- simpl in Heq. injection Heq as <- <- _. apply int_in_In in Hin.
           rewrite Hin in Htest. discriminate Htest.
        -- simpl in Heq. injection Heq as _ _ Heq.
           exists pre, versions, post. split; [exact Heq |]. split; [exact Hin |].
           intros l v H. apply (Hpre l v). right. exact H.
Qed.

Lemma scan_no_match (nbyte : Z) (items : list (string * list Z)) :
  Base58CheckValidator.scan_networks nbyte items = None <->
  forall l v, In (l, v) items -> ~ In nbyte v.
Proof.
  split; [| apply scan_networks_None].
  induction items as [| [l0 v0] items IH]; simpl; [intros _ l v [] |].
  destruct (int_in nbyte v0) eqn:Htest; [discriminate |].
  intros H l v [Heq | Hin].
  - injection Heq as <- <-. apply int_in_false. exact Htest.
  - exact (IH H l v Hin).
Qed.

(** X3. The network of a Base58Check address is decided by its first
    decoded byte alone: [network] returns the first label, in the order of
    the currency's [networks] dict, whose version bytes contain that byte,
    and [None] exactly when no network lists it. Neither the checksum nor
    the other bytes are consulted. *)
Theorem X3_network_first_match (request : ValidationRequest.t) (b : byte) (rest : bytes) :
  Base58CheckValidator.b58decode request = Ok (b :: rest) ->
  (forall label,
     Base58CheckValidator.network request = Ok (Some label) <->
     exists pre versions post,
       Currency.networks (ValidationRequest.currency request)
         = pre ++ (label, versions) :: post /\
       In (byte_to_Z b) versions /\
       forall l v, In (l, v) pre -> ~ In (byte_to_Z b) v) /\
  (Base58CheckValidator.network request = Ok None <->
   forall l v, In (l, v) (Currency.networks (ValidationRequest.currency request)) ->
               ~ In (byte_to_Z b) v).
Proof.
  intros Hdec.
  assert (Hnet : Base58CheckValidator.network request =
                 Ok (Base58CheckValidator.scan_networks (byte_to_Z b)
                       (Currency.networks (ValidationRequest.currency request)))).
  { unfold Base58CheckValidator.network. rewrite Hdec. reflexivity. }
  rewrite Hnet. split.
  - intros label. rewrite <- scan_first_match. split.
    + intros H. injection H as H. exact H.
    + intros ->. reflexivity.
  - rewrite <- scan_no_match. split.
    + intros H. injection H as H. exact H.
    + intros ->. reflexivity.
Qed.

Lemma X3_network_first_match_witness :
  Base58CheckValidator.network
    (ValidationRequest.mk bitcoin (bytes_of_str "2MsLZ5FqqYpjM1Q1W4X81zMVZTF9gdbhVwX"))
  = Ok (Some "test"%string).
Proof.
  refine (proj2 (proj1 (X3_network_first_match
            (ValidationRequest.mk bitcoin
               (bytes_of_str "2MsLZ5FqqYpjM1Q1W4X81zMVZTF9gdbhVwX")) "196"%byte _ _)
            "test"%string) _).
  - vm_compute. reflexivity.
  - exists [("main"%string, [0; 5])], [111; 196], []. split; [reflexivity |]. split.
    + vm_compute. right. left. reflexivity.
    + intros l v [H | []]. injection H as <- <-. vm_compute.
      intros [H | [H | []]]; discriminate H.
Defined.

Lemma in_flattened (nbyte : Z) (items : list (string * list Z)) :
  In nbyte (concat (map snd items)) <->
  exists label versions, In (label, versions) items /\ In nbyte versions.
Proof.
  rewrite in_concat. split.
  - intros [versions [Hv Hb]]. apply in_map_iff in Hv.
    destruct Hv as [[label versions'] [Heq Hin]]. simpl in Heq. subst versions'.
    exists label, versions. split; assumption.
  - intros (label & versions & Hin & Hb). exists versions. split; [| exact Hb].
    apply in_map_iff. exists (label, versions). split; [reflexivity | exact Hin].
Qed.

(** X4. An address that [Base58CheckValidator.validate] accepts always has
    a network: [network] returns the label of a network of the currency
    whose version bytes contain the first decoded byte, never [None], and
    [execute] then returns a result carrying [valid = True] and that label. *)
Theorem X4_valid_address_has_network (validators : gmap string validator_class)
    (request : ValidationRequest.t) :
  Validators.get validators (Currency.validator (ValidationRequest.currency request))
    = Some Base58CheckValidator_cls ->
  Base58CheckValidator.validate request = Ok true ->
  exists b rest label versions,
    Base58CheckValidator.b58decode request = Ok (b :: rest) /\
    In (label, versions) (Currency.networks (ValidationRequest.currency request)) /\
    In (byte_to_Z b) versions /\
    Base58CheckValidator.network request = Ok (Some label) /\
    execute validators request =
    Ok (ValidationResult.mk
          (Currency.name (ValidationRequest.currency request))
          (Currency.ticker (ValidationRequest.currency request))
          (ValidationRequest.address request) true label).
Proof.
  intros Hget Hval. pose proof Hval as Hchecks. rewrite validate_checks in Hchecks.
  destruct (checks_true request Hchecks) as (b & rest & nets & Hdec & Hnets & Hin & _).
  rewrite (networks_concat request nets Hnets) in Hin.
  apply in_flattened in Hin. destruct Hin as (l0 & v0 & Hl0 & Hb0).
  destruct (scan_networks_Some (byte_to_Z b) _ l0 v0 Hl0 Hb0) as [label Hscan].
  pose proof Hscan as Hfirst. apply scan_first_match in Hfirst.
  destruct Hfirst as (pre & versions & post & Heq & Hb & _).
  assert (Hnet : Base58CheckValidator.network request = Ok (Some label)).
  { unfold Base58CheckValidator.network. rewrite Hdec. simpl. rewrite Hscan. reflexivity. }
  exists b, rest, label, versions. split; [exact Hdec |]. split.
  { rewrite Heq. apply in_or_app. right. left. reflexivity. }
  split; [exact Hb |]. split; [exact Hnet |].
  unfold execute. rewrite Hget. simpl. rewrite Hval. simpl. rewrite Hnet. reflexivity.
Qed.

Lemma X4_valid_address_has_network_witness :
  exists b rest label versions,
    Base58CheckValidator.b58decode
      (ValidationRequest.mk bitcoin (bytes_of_str "1BoatSLRHtKNngkdXEeobR76b53LETtpyT"))
      = Ok (b :: rest) /\
    In (label, versions) (Currency.networks bitcoin) /\
    In (byte_to_Z b) versions /\
    Base58CheckValidator.network
      (ValidationRequest.mk bitcoin (bytes_of_str "1BoatSLRHtKNngkdXEeobR76b53LETtpyT"))
      = Ok (Some label) /\
    execute module_validators
      (ValidationRequest.mk bitcoin (bytes_of_str "1BoatSLRHtKNngkdXEeobR76b53LETtpyT")) =
    Ok (ValidationResult.mk "bitcoin" "btc"
          (bytes_of_str "1BoatSLRHtKNngkdXEeobR76b53LETtpyT") true label).
Proof.
  apply (X4_valid_address_has_network module_validators
           (ValidationRequest.mk bitcoin
              (bytes_of_str "1BoatSLRHtKNngkdXEeobR76b53LETtpyT"))).
  - vm_compute. reflexivity.
  - vm_compute. reflexivity.
Defined.

(** ** The registry as the module leaves it *)

Lemma module_validators_table :
  module_validators =
  <[ "Ethereum"%string := EthereumValidator_cls ]>
    (<[ "Base58Check"%string := Base58CheckValidator_cls ]> ∅).
Proof.
  unfold module_validators, ValidatorMeta.register_all.
  cbn [map fold_left class_name fst snd].
  rewrite (register_unnamed ∅ None ValidatorBase) by reflexivity.
  rewrite (register_fresh ∅ "Base58Check" Base58CheckValidator_cls)
    by (try discriminate; apply lookup_empty).
  rewrite register_fresh;
    [reflexivity | discriminate | rewrite lookup_insert_ne by discriminate; apply lookup_empty].
Qed.

(** X5. Once the module is imported the registry holds exactly two entries,
    "Base58Check" and "Ethereum"; the abstract base class, whose name is
    [None], is not in it. A currency that names any other validator cannot
    be executed: the lookup gives [None] and calling it raises TypeError,
    whatever the address. *)
Theorem X5_module_registry (key : string) :
  (Validators.get module_validators key = Some Base58CheckValidator_cls <->
   key = "Base58Check"%string) /\
  (Validators.get module_validators key = Some EthereumValidator_cls <->
   key = "Ethereum"%string) /\
  Validators.get module_validators key <> Some ValidatorBase /\
  (Validators.contains module_validators key = true <->
   key = "Base58Check"%string \/ key = "Ethereum"%string) /\
  (forall request,
     Currency.validator (ValidationRequest.currency request) = key ->
     key <> "Base58Check"%string -> key <> "Ethereum"%string ->
     execute module_validators request = Raise TypeError).
Proof.
  assert (Hget : Validators.get module_validators key =
                 if decide (key = "Ethereum"%string) then Some EthereumValidator_cls
                 else if decide (key = "Base58Check"%string)
                      then Some Base58CheckValidator_cls else None).
  { unfold Validators.get. rewrite module_validators_table.
    destruct (decide (key = "Ethereum"%string)) as [-> | Hne].
    - apply lookup_insert_eq.
    - rewrite lookup_insert_ne by congruence.
      destruct (decide (key = "Base58Check"%string)) as [-> | Hnb].
      + apply lookup_insert_eq.
      + rewrite lookup_insert_ne by congruence. apply lookup_empty. }
  assert (Hcontains : Validators.contains module_validators key =
                      match Validators.get module_validators key with
                      | Some _ => true
                      | None => false
                      end) by reflexivity.
  rewrite Hcontains, Hget.
  destruct (decide (key = "Ethereum"%string)) as [-> | Hne];
    [| destruct (decide (key = "Base58Check"%string)) as [-> | Hnb]].
  - split; [split; [discriminate | discriminate] |].
    split; [split; reflexivity |]. split; [discriminate |].
    split; [split; [intros _; right; reflexivity | reflexivity] |].
    intros request _ _ H. contradiction.
  - split; [split; reflexivity |].
    split; [split; [discriminate | discriminate] |]. split; [discriminate |].
    split; [split; [intros _; left; reflexivity | reflexivity] |].
    intros request _ H. contradiction.
  - split; [split; [discriminate | intros H; contradiction] |].
    split; [split; [discriminate | intros H; contradiction] |]. split; [discriminate |].
    split; [split; [discriminate | intros [H | H]; contradiction] |].
    intros request Hkey _ _. unfold execute. rewrite Hkey, Hget. reflexivity.
Qed.

Lemma X5_module_registry_witness :
  execute module_validators
    (ValidationRequest.mk (Currency.mk "coin" "con" "Bech32" [] None)
       (bytes_of_str "anything")) = Raise TypeError.
Proof.
  refine (proj2 (proj2 (proj2 (proj2 (X5_module_registry "Bech32"%string)))) _ _ _ _).
  - reflexivity.
  - discriminate.
  - discriminate.
Defined.

(** ** What registration keeps and what it adds *)

Section RegistrationInvariant.
Context {V : Type}.
Implicit Types (reg : gmap string V) (classes : list (option string * V)).

Lemma register_keeps reg (cname : option string) (new : V) (key : string) (v : V) :
  reg !! key = Some v -> ValidatorMeta.register cname new reg !! key = Some v.
Proof.
  intros Hkey. unfold ValidatorMeta.register. destruct cname as [s |]; [| exact Hkey].
  destruct (ValidatorMeta.truthy (Some s) && negb (Validators.contains reg s)) eqn:Hg;
    [| exact Hkey].
  destruct (decide (s = key)) as [-> | Hne].
  - apply andb_true_iff in Hg. destruct Hg as [_ Hc].
    unfold Validators.contains in Hc. rewrite Hkey in Hc. discriminate Hc.
  - rewrite lookup_insert_ne by exact Hne. exact Hkey.
Qed.

Lemma register_adds reg (cname : option string) (new : V) (key : string) (v : V) :
  ValidatorMeta.register cname new reg !! key = Some v ->
  reg !! key = Some v \/ (cname = Some key /\ v = new /\ key <> ""%string).
Proof.
  unfold ValidatorMeta.register. destruct cname as [s |]; [| left; assumption].
  destruct (ValidatorMeta.truthy (Some s) && negb (Validators.contains reg s)) eqn:Hg;
    [| left; assumption].
  destruct (decide (s = key)) as [-> | Hne].
  - rewrite lookup_insert_eq. intros H. injection H as <-. right.
    split; [reflexivity |]. split; [reflexivity |].
    apply andb_true_iff in Hg. destruct Hg as [Ht _]. simpl in Ht.
    intros ->. discriminate Ht.
  - rewrite lookup_insert_ne by exact Hne. left. assumption.
Qed.

End RegistrationInvariant.

(** X6. Registration only ever grows the registry. Whatever class statements
    run, an entry that is present stays, with the class it had; every entry
    found afterwards was there before or comes from a class statement of
    that very name; and nothing is ever stored under the empty name. *)
Theorem X6_registry_only_grows (V : Type) (classes : list (option string * V))
    (reg : gmap string V) (key : string) (v : V) :
  (reg !! key = Some v -> ValidatorMeta.register_all classes reg !! key = Some v) /\
  (ValidatorMeta.register_all classes reg !! key = Some v ->
   reg !! key = Some v \/ (In (Some key, v) classes /\ key <> ""%string)) /\
  (reg !! ""%string = None -> ValidatorMeta.register_all classes reg !! ""%string = None).
Proof.
  unfold ValidatorMeta.register_all. split; [| split].
  - revert reg. induction classes as [| [cname new] classes IH]; intros reg Hkey; simpl.
    + exact Hkey.
    + apply IH. apply register_keeps. exact Hkey.
  - revert reg. induction classes as [| [cname new] classes IH]; intros reg Hkey; simpl in *.
    + left. exact Hkey.
    + destruct (IH _ Hkey) as [Hbefore | [Hin Hne]].
      * destruct (register_adds reg cname new key v Hbefore) as [H | (-> & -> & Hne)].
        -- left. exact H.
        -- right. split; [left; reflexivity | exact Hne].
      * right. split; [right; exact Hin | exact Hne].
  - revert reg. induction classes as [| [cname new] classes IH]; intros reg Hkey; simpl.
    + exact Hkey.
    + apply IH.
      destruct (ValidatorMeta.register cname new reg !! ""%string) as [w |] eqn:Hw;
        [| reflexivity].
      destruct (register_adds reg cname new ""%string w Hw) as [H | (_ & _ & Hne)].
      * rewrite Hkey in H. discriminate H.
      * contradiction.
Qed.

Lemma X6_registry_only_grows_witness :
  ValidatorMeta.register_all
    [(Some ""%string, ValidatorBase); (Some "Base58Check"%string, EthereumValidator_cls)]
    module_validators !! "Base58Check"%string = Some Base58CheckValidator_cls /\
  ValidatorMeta.register_all
    [(Some ""%string, ValidatorBase); (Some "Base58Check"%string, EthereumValidator_cls)]
    module_validators !! ""%string = None.
Proof.
  split.
  - apply (proj1 (X6_registry_only_grows validator_class _ module_validators
                    "Base58Check"%string Base58CheckValidator_cls)).
    vm_compute. reflexivity.
  - apply (proj2 (proj2 (X6_registry_only_grows validator_class _ module_validators
                           ""%string ValidatorBase))).
    vm_compute. reflexivity.
Defined.

(** ** What the result constructor lets through *)

Lemma result_new_Ok (name ticker : string) (address : bytes) (valid : option bool)
    (network : option string) (r : ValidationResult.t) :
  ValidationResult.new name ticker address valid network = Ok r ->
  exists v n, valid = Some v /\ network = Some n /\
              r = ValidationResult.mk name ticker address v n.
Proof.
  unfold ValidationResult.new. destruct valid as [v |]; [| discriminate].
  destruct network as [n |]; [| discriminate].
  intros H. injection H as <-. exists v, n. repeat split.
Qed.

(** ** The entry point *)

Lemma find_matches (catalog : list Currency.t) (ident : string) (c : Currency.t) :
  Currencies.get catalog ident = Some c ->
  In c catalog /\ (ident = Currency.name c \/ ident = Currency.ticker c).
Proof.
  unfold Currencies.get. intros H. apply find_some in H. destruct H as [Hin Hm].
  split; [exact Hin |]. apply orb_true_iff in Hm.
  destruct Hm as [Hm | Hm]; apply String.eqb_eq in Hm; [left | right]; exact Hm.
Qed.

(** X8. Whatever the entry point returns describes the currency it resolved
    and the address it was given: the identifier is the name or the ticker
    of a currency of the catalogue, the result carries that currency's name
    and ticker, its address field is the bytes passed in (the ASCII bytes of
    a text address), and its verdict and network are those of the validator
    registered under the currency's validator name. *)
Theorem X8_result_describes_request (catalog : list Currency.t)
    (validators : gmap string validator_class) (ident : string)
    (address : address_arg) (r : ValidationResult.t) :
  validate catalog validators ident address = Ok r ->
  exists c cls,
    In c catalog /\ (ident = Currency.name c \/ ident = Currency.ticker c) /\
    Currencies.get catalog ident = Some c /\
    Validators.get validators (Currency.validator c) = Some cls /\
    ValidationResult.name r = Currency.name c /\
    ValidationResult.ticker r = Currency.ticker c /\
    match address with
    | AddrBytes b => ValidationResult.address r = b
    | AddrStr s =>
        ValidationResult.address r = map byte_of_ascii (list_ascii_of_string s) /\
        forallb is_ascii_char (list_ascii_of_string s) = true
    end /\
    validator_validate cls (ValidationRequest.mk c (ValidationResult.address r))
      = Ok (Some (ValidationResult.valid r)) /\
    validator_network cls (ValidationRequest.mk c (ValidationResult.address r))
      = Ok (Some (ValidationResult.network r)).
Proof.
  unfold validate. intros H.
  apply bind_Ok_inv in H. destruct H as [request [Hreq Hexec]].
  unfold new_request in Hreq.
  apply bind_Ok_inv in Hreq. destruct Hreq as [abytes [Hbytes Hreq]].
  destruct (Currencies.get catalog ident) as [c |] eqn:Hget; [| discriminate Hreq].
  injection Hreq as <-.
  destruct (find_matches catalog ident c Hget) as [Hin Hident].
  unfold execute in Hexec. simpl in Hexec.
  destruct (Validators.get validators (Currency.validator c)) as [cls |] eqn:Hcls;
    [| discriminate Hexec].
  apply bind_Ok_inv in Hexec. destruct Hexec as [ov [Hv Hexec]].
  apply bind_Ok_inv in Hexec. destruct Hexec as [on [Hn Hexec]].
  apply result_new_Ok in Hexec. destruct Hexec as (v & n & -> & -> & ->).
  exists c, cls. simpl.
  split; [exact Hin |]. split; [exact Hident |]. split; [reflexivity |].
  split; [exact Hcls |]. split; [reflexivity |]. split; [reflexivity |].
  split; [| split; assumption].
  destruct address as [b | s].
  - injection Hbytes as <-. reflexivity.
  - unfold encode_ascii in Hbytes.
    destruct (forallb is_ascii_char (list_ascii_of_string s)); [| discriminate Hbytes].
    injection Hbytes as <-. split; reflexivity.
Qed.

Lemma X8_result_describes_request_witness :
  exists c cls,
    In c catalog /\
    ("btc"%string = Currency.name c \/ "btc"%string = Currency.ticker c) /\
    Currencies.get catalog "btc" = Some c /\
    Validators.get module_validators (Currency.validator c) = Some cls /\
    "bitcoin"%string = Currency.name c /\
    "btc"%string = Currency.ticker c /\
    (bytes_of_str "1BoatSLRHtKNngkdXEeobR76b53LETtpyT" =
       map byte_of_ascii (list_ascii_of_string "1BoatSLRHtKNngkdXEeobR76b53LETtpyT") /\
     forallb is_ascii_char (list_ascii_of_string "1BoatSLRHtKNngkdXEeobR76b53LETtpyT")
       = true) /\
    validator_validate cls
      (ValidationRequest.mk c (bytes_of_str "1BoatSLRHtKNngkdXEeobR76b53LETtpyT"))
      = Ok (Some true) /\
    validator_network cls
      (ValidationRequest.mk c (bytes_of_str "1BoatSLRHtKNngkdXEeobR76b53LETtpyT"))
      = Ok (Some "main"%string).
Proof.
  apply (X8_result_describes_request catalog module_validators "btc"
           (AddrStr "1BoatSLRHtKNngkdXEeobR76b53LETtpyT")
           (ValidationResult.mk "bitcoin" "btc"
              (bytes_of_str "1BoatSLRHtKNngkdXEeobR76b53LETtpyT") true "main")).
  vm_compute. reflexivity.
Defined.

(** ** The Ethereum validator on every ASCII address *)

Lemma keccak_round_length (a : list Z) (rc : Z) : length (Keccak.round a rc) = 25%nat.
Proof.
  unfold Keccak.round, Keccak.iota, Keccak.chi.
  destruct (map _ Keccak.indices) as [| a0 a'] eqn:Hm.
  - apply (f_equal (@length Z)) in Hm. rewrite length_map in Hm. discriminate Hm.
  - apply (f_equal (@length Z)) in Hm. rewrite length_map in Hm. simpl in *.
    symmetry. exact Hm.
Qed.

Lemma keccak_f_length (a : list Z) : length (Keccak.keccak_f a) = 25%nat.
Proof.
  unfold Keccak.keccak_f.
  change Keccak.RC with (removelast Keccak.RC ++ [0x8000000080008008]).
  rewrite fold_left_app. simpl fold_left at 1. apply keccak_round_length.
Qed.

Lemma keccak_state_length (blocks : list (list Z)) (st : list Z) :
  length st = 25%nat -> length (fold_left Keccak.absorb blocks st) = 25%nat.
Proof.
  revert st. induction blocks as [| blk blocks IH]; intros st Hst; simpl; [exact Hst |].
  apply IH. unfold Keccak.absorb. apply keccak_f_length.
Qed.

Lemma le_bytes_length (n : nat) (z : Z) : length (Keccak.le_bytes n z) = n.
Proof.
  revert z. induction n as [| n IH]; intros z; simpl; [reflexivity |].
  rewrite IH. reflexivity.
Qed.

Lemma keccak_256_length (m : bytes) : length (keccak_256 m) = 32%nat.
Proof.
  unfold keccak_256, Keccak.digest_Z. cbv zeta. rewrite length_map.
  match goal with
  | |- context [fold_left Keccak.absorb ?bl ?st] =>
      pose proof (keccak_state_length bl st (repeat_length 0 25)) as Hst;
      destruct (fold_left Keccak.absorb bl st) as [| s0 [| s1 [| s2 [| s3 st']]]];
      try discriminate Hst
  end.
  cbn [firstn flat_map]. rewrite !length_app, !le_bytes_length. reflexivity.
Qed.

Lemma hex_of_bytes_length (b : bytes) :
  length (list_ascii_of_string (hex_of_bytes b)) = (2 * length b)%nat.
Proof.
  unfold hex_of_bytes. rewrite list_ascii_of_string_of_list_ascii.
  induction b as [| x b IH]; simpl; [reflexivity |]. rewrite IH. lia.
Qed.

Lemma decode_ascii (b : bytes) (text : list ascii) :
  decode b = Ok text -> forallb is_ascii_char text = true.
Proof.
  unfold decode. destruct (forallb (fun x : byte => byte_to_Z x <? 128) b) eqn:Hall;
    [| discriminate].
  intros H. injection H as <-. rewrite forallb_forall in *. intros c Hc.
  apply in_map_iff in Hc. destruct Hc as [x [<- Hx]]. specialize (Hall x Hx).
  apply Z.ltb_lt in Hall. unfold is_ascii_char, byte_to_Z in *.
  rewrite ascii_of_byte_via_N. rewrite N_ascii_embedding.
  - apply N.ltb_lt. lia.
  - pose proof (Byte.to_N_bounded x). lia.
Qed.

Lemma lower_char_N (c : ascii) :
  N_of_ascii (lower_char c) =
  (if in_range "A" "Z" c then N_of_ascii c + 32 else N_of_ascii c)%N.
Proof.
  unfold lower_char. destruct (in_range "A" "Z" c) eqn:Hr; [| reflexivity].
  apply in_range_spec in Hr. change (N_of_ascii "Z") with 90%N in Hr.
  apply N_ascii_embedding. lia.
Qed.

Lemma upper_char_N (c : ascii) :
  N_of_ascii (upper_char c) =
  (if in_range "a" "z" c then N_of_ascii c - 32 else N_of_ascii c)%N.
Proof.
  unfold upper_char. destruct (in_range "a" "z" c) eqn:Hr; [| reflexivity].
  apply in_range_spec in Hr. change (N_of_ascii "z") with 122%N in Hr.
  apply N_ascii_embedding. lia.
Qed.

Lemma N_of_ascii_inj (c1 c2 : ascii) : N_of_ascii c1 = N_of_ascii c2 -> c1 = c2.
Proof.
  intros H. rewrite <- (ascii_N_embedding c1), <- (ascii_N_embedding c2), H. reflexivity.
Qed.

Lemma lower_char_ascii (c : ascii) : is_ascii_char c = true -> is_ascii_char (lower_char c) = true.
Proof.
  unfold is_ascii_char. rewrite lower_char_N. intros H. apply N.ltb_lt in H.
  apply N.ltb_lt. destruct (in_range "A" "Z" c) eqn:Hr; [| exact H].
  apply in_range_spec in Hr. change (N_of_ascii "Z") with 90%N in Hr. lia.
Qed.

Lemma lstrip_0x_incl (s : list ascii) (c : ascii) : In c (lstrip_0x s) -> In c s.
Proof.
  destruct (lstrip_0x_split s) as [pre [Heq _]]. intros H. rewrite Heq.
  apply in_or_app. right. exact H.
Qed.

Lemma lstrip_0x_length (s : list ascii) : (length (lstrip_0x s) <= length s)%nat.
Proof.
  destruct (lstrip_0x_split s) as [pre [Heq _]]. rewrite Heq at 2.
  rewrite length_app. lia.
Qed.

(** The hash of an ASCII text exists and has 64 hex digits. *)
Lemma addr_hash_defined (addr : list ascii) :
  forallb is_ascii_char addr = true ->
  exists h, EthereumValidator.addr_hash addr = Ok h /\ length h = 64%nat /\ hex_text h.
Proof.
  intros Hascii. unfold EthereumValidator.addr_hash, encode_ascii.
  assert (Hlow : forallb is_ascii_char (lower addr) = true).
  { unfold lower. rewrite forallb_forall in *. intros c Hc.
    apply in_map_iff in Hc. destruct Hc as [c0 [<- Hc0]].
    apply lower_char_ascii, Hascii, Hc0. }
  rewrite Hlow. simpl. eexists. split; [reflexivity |]. split.
  - rewrite hex_of_bytes_length, keccak_256_length. reflexivity.
  - apply hex_of_bytes_hex.
Qed.

Lemma addr_hash_ascii (addr : list ascii) :
  forallb is_ascii_char addr = true ->
  EthereumValidator.addr_hash addr =
  Ok (list_ascii_of_string (hex_of_bytes (keccak_256 (map byte_of_ascii (lower addr))))).
Proof.
  intros Hascii. unfold EthereumValidator.addr_hash, encode_ascii.
  assert (Hlow : forallb is_ascii_char (lower addr) = true).
  { unfold lower. rewrite forallb_forall in *. intros c Hc.
    apply in_map_iff in Hc. destruct Hc as [c0 [<- Hc0]].
    apply lower_char_ascii, Hascii, Hc0. }
  rewrite Hlow. reflexivity.
Qed.

Lemma hex40_dollar_short (class : ascii -> bool) (s : list ascii) :
  hex40_dollar class s = true -> (length s <= 41)%nat.
Proof.
  unfold hex40_dollar. rewrite !andb_true_iff. intros [[_ _] Hd].
  assert (Hlen : (length (skipn 40 s) <= 1)%nat).
  { destruct (skipn 40 s) as [| c [| c' l]]; simpl in *; [lia | lia | discriminate Hd]. }
  rewrite length_skipn in Hlen. lia.
Qed.

Lemma pattern_match_short (class : ascii -> bool) (s : list ascii) :
  pattern_match class s = true -> (length s <= 43)%nat.
Proof.
  unfold pattern_match. destruct s as [| c0 [| c1 s']].
  - intros H. apply hex40_dollar_short in H. lia.
  - intros H. apply hex40_dollar_short in H. lia.
  - rewrite orb_true_iff, !andb_true_iff. intros [[_ H] | H];
      apply hex40_dollar_short in H; simpl in *; lia.
Qed.

Lemma patterns_short (address : list ascii) :
  existsb (fun pat => pat address) EthereumValidator.non_checksummed_patterns = true ->
  (length address <= 43)%nat.
Proof.
  unfold EthereumValidator.non_checksummed_patterns. simpl.
  rewrite !orb_true_iff. intros [H | [H | H]]; [| | discriminate H];
    apply pattern_match_short in H; exact H.
Qed.

Lemma case_ok_or_bad (d : Z) (c : ascii) : case_ok d c \/ case_bad d c.
Proof.
  unfold case_ok, case_bad.
  destruct (Z_le_gt_dec d 7) as [Hle | Hgt].
  - destruct (ascii_dec (lower_char c) c) as [Heq | Hne].
    + left. split; [lia | intros _; exact Heq].
    + right. right. split; assumption.
  - destruct (ascii_dec (upper_char c) c) as [Heq | Hne].
    + left. split; [intros _; exact Heq | lia].
    + right. left. split; assumption.
Qed.

Lemma case_ok_not_bad (d : Z) (c : ascii) : case_ok d c -> case_bad d c -> False.
Proof.
  unfold case_ok, case_bad. intros [Hu Hl] [[Hgt Hne] | [Hle Hne]].
  - apply Hne, Hu, Hgt.
  - apply Hne, Hl, Hle.
Qed.

(** The loop faults exactly when the text outruns the digest and every
    position that has a digit obeys the case rule. *)
Lemma case_loop_IndexError (h rest : list ascii) (i : nat) :
  hex_text h -> (i <= length h)%nat ->
  (EthereumValidator.case_loop h i rest = Raise IndexError <->
   (length h < i + length rest)%nat /\
   forall j c, nth_error rest j = Some c -> (i + j < length h)%nat ->
     exists hc d, nth_error h (i + j) = Some hc /\ int_16 hc = Ok d /\ case_ok d c).
Proof.
  intros Hhex. revert i. induction rest as [| c rest IH]; intros i Hi; simpl.
  - split; [discriminate |]. intros [Hlen _]. lia.
  - destruct (nth_error h i) as [hc |] eqn:Hh.
    + assert (Hlt : (i < length h)%nat) by (apply nth_error_Some; rewrite Hh; discriminate).
      destruct (Hhex hc (nth_error_In _ _ Hh)) as [d Hd].
      destruct (mismatch_total hc c d Hd) as [bad Hbad]. rewrite Hbad. simpl.
      destruct bad.
      * split; [discriminate |]. intros [_ Hall]. exfalso.
        destruct (Hall 0%nat c eq_refl) as (hc' & d' & Hh' & Hd' & Hok); [lia |].
        rewrite Nat.add_0_r, Hh in Hh'. injection Hh' as <-.
        rewrite Hd in Hd'. injection Hd' as <-.
        apply (case_ok_not_bad d c Hok). apply (mismatch_true hc c d Hd). exact Hbad.
      * rewrite (IH (S i)) by lia. split.
        -- intros [Hlen Hall]. split; [lia |]. intros j c' Hj Hij.
           destruct j as [| j].
           ++ simpl in Hj. injection Hj as <-. rewrite Nat.add_0_r.
              exists hc, d. split; [exact Hh |]. split; [exact Hd |].
              apply (mismatch_false hc c d Hd). exact Hbad.
           ++ simpl in Hj. replace (i + S j)%nat with (S i + j)%nat by lia.
              apply Hall; [exact Hj | lia].
        -- intros [Hlen Hall]. split; [lia |]. intros j c' Hj Hij.
           replace (S i + j)%nat with (i + S j)%nat by lia.
           apply Hall; [exact Hj | lia].
    + apply nth_error_None in Hh. split; [| reflexivity]. intros _. split; [lia |].
      intros j c' _ Hij. lia.
Qed.

Lemma case_loop_outcome (h rest : list ascii) (i : nat) :
  hex_text h ->
  (exists v, EthereumValidator.case_loop h i rest = Ok v) \/
  EthereumValidator.case_loop h i rest = Raise IndexError.
Proof.
  intros Hhex. revert i. induction rest as [| c rest IH]; intros i; simpl.
  - left. exists true. reflexivity.
  - destruct (nth_error h i) as [hc |] eqn:Hh; [| right; reflexivity].
    destruct (Hhex hc (nth_error_In _ _ Hh)) as [d Hd].
    destruct (mismatch_total hc c d Hd) as [bad Hbad]. rewrite Hbad. simpl.
    destruct bad; [left; exists false; reflexivity | apply IH].
Qed.

(** [validate] on an ASCII address that no pattern matches is the loop. *)
Lemma validate_is_loop (request : ValidationRequest.t) (address h : list ascii) :
  decode (ValidationRequest.address request) = Ok address ->
  existsb (fun pat => pat address) EthereumValidator.non_checksummed_patterns = false ->
  EthereumValidator.addr_hash (lstrip_0x address) = Ok h ->
  EthereumValidator.validate request = EthereumValidator.case_loop h 0 (lstrip_0x address).
Proof.
  intros Hdec Hpat Hh. unfold EthereumValidator.validate. rewrite Hdec. simpl.
  unfold EthereumValidator.validate_text. rewrite Hpat.
  unfold EthereumValidator.checksum_path. rewrite Hh. reflexivity.
Qed.

Lemma validate_matched (request : ValidationRequest.t) (address : list ascii) :
  decode (ValidationRequest.address request) = Ok address ->
  existsb (fun pat => pat address) EthereumValidator.non_checksummed_patterns = true ->
  EthereumValidator.validate request = Ok true.
Proof.
  intros Hdec Hpat. unfold EthereumValidator.validate. rewrite Hdec. simpl.
  unfold EthereumValidator.validate_text. rewrite Hpat. reflexivity.
Qed.

Lemma stripped_ascii (address : list ascii) :
  forallb is_ascii_char address = true ->
  forallb is_ascii_char (lstrip_0x address) = true.
Proof.
  intros H. rewrite forallb_forall in *. intros c Hc. apply H, lstrip_0x_incl, Hc.
Qed.

(** C6. In the mixed-case checksum path, let [h] be the hex digest of the
    Keccak-256 hash of the ASCII bytes of the lowercased post-strip
    address. [validate] returns true exactly when at every position of the
    post-strip address the character is uppercase where the digit of [h]
    is above 7 and lowercase where it is at most 7; one position that
    breaks the rule makes [validate] return false. *)
Theorem C6_mixed_case_checksum (request : ValidationRequest.t) (address : list ascii) :
  decode (ValidationRequest.address request) = Ok address ->
  existsb (fun pat => pat address) EthereumValidator.non_checksummed_patterns = false ->
  let addr := lstrip_0x address in
  let h := list_ascii_of_string
             (hex_of_bytes (keccak_256 (map byte_of_ascii (lower addr)))) in
  (EthereumValidator.validate request = Ok true <-> forall i, position_ok h addr i) /\
  (forall i, position_bad h addr i -> EthereumValidator.validate request = Ok false).
Proof.
  intros Hdec Hpat addr h.
  assert (Hh : EthereumValidator.addr_hash addr = Ok h).
  { apply addr_hash_ascii, stripped_ascii. eapply decode_ascii. exact Hdec. }
  clearbody h. subst addr.
  rewrite (validate_is_loop request address h Hdec Hpat Hh). split.
  - rewrite case_loop_true. unfold position_ok. simpl. split.
    + intros H i c Hc. exact (H i c Hc).
    + intros H j c Hc. exact (H j c Hc).
  - intros i (c & hc & d & Hc & Hhc & Hd & Hbad).
    apply (case_loop_false h (lstrip_0x address) 0 i c hc d); auto.
    eapply addr_hash_hex. exact Hh.
Qed.

Lemma C6_mixed_case_checksum_witness :
  EthereumValidator.validate
    (ValidationRequest.mk ethereum
       (bytes_of_str "0x5aAeb6053F3E94C9b9A09f33669435E7Ef1BeAed")) = Ok true /\
  position_ok
    (list_ascii_of_string
       "d385650ce8fdc6db7ee3a091d34814dbc4ce18219ffae52182efff4034d707e5")
    (list_ascii_of_string "5aAeb6053F3E94C9b9A09f33669435E7Ef1BeAed") 2 /\
  EthereumValidator.validate
    (ValidationRequest.mk ethereum
       (bytes_of_str "0x5AAeb6053F3E94C9b9A09f33669435E7Ef1BeAed")) = Ok false.
Proof.
  assert (Hdigest : forall text,
            lower (lstrip_0x (list_ascii_of_string text))
              = list_ascii_of_string "5aaeb6053f3e94c9b9a09f33669435e7ef1beaed" ->
            list_ascii_of_string
              (hex_of_bytes (keccak_256 (map byte_of_ascii
                 (lower (lstrip_0x (list_ascii_of_string text))))))
            = list_ascii_of_string
                "d385650ce8fdc6db7ee3a091d34814dbc4ce18219ffae52182efff4034d707e5").
  { intros text ->. vm_compute. reflexivity. }
  pose proof (C6_mixed_case_checksum
    (ValidationRequest.mk ethereum
       (bytes_of_str "0x5aAeb6053F3E94C9b9A09f33669435E7Ef1BeAed"))
    (list_ascii_of_string "0x5aAeb6053F3E94C9b9A09f33669435E7Ef1BeAed")
    ltac:(vm_compute; reflexivity) ltac:(vm_compute; reflexivity)) as Hgood.
  pose proof (C6_mixed_case_checksum
    (ValidationRequest.mk ethereum
       (bytes_of_str "0x5AAeb6053F3E94C9b9A09f33669435E7Ef1BeAed"))
    (list_ascii_of_string "0x5AAeb6053F3E94C9b9A09f33669435E7Ef1BeAed")
    ltac:(vm_compute; reflexivity) ltac:(vm_compute; reflexivity)) as Hbad.
  cbv zeta in Hgood, Hbad.
  rewrite (Hdigest "0x5aAeb6053F3E94C9b9A09f33669435E7Ef1BeAed" eq_refl) in Hgood.
  rewrite (Hdigest "0x5AAeb6053F3E94C9b9A09f33669435E7Ef1BeAed" eq_refl) in Hbad.
  destruct Hgood as [Hiff _]. destruct Hbad as [_ Hfalse].
  assert (Htrue : EthereumValidator.validate
            (ValidationRequest.mk ethereum
               (bytes_of_str "0x5aAeb6053F3E94C9b9A09f33669435E7Ef1BeAed")) = Ok true)
    by (vm_compute; reflexivity).
  split; [exact Htrue | split].
  - exact (proj1 Hiff Htrue 2%nat).
  - apply (Hfalse 1%nat).
    exists "A"%char, "3"%char, 3.
    split; [reflexivity | split; [reflexivity | split; [reflexivity |]]].
    right. split; [lia | vm_compute; discriminate].
Defined.

(** X9. The checksum path of [EthereumValidator.validate] checks neither
    the length nor the alphabet of the address: every ASCII address whose
    text, once '0' and 'x' are stripped from the left, has at most 64
    characters and no letter (each character is its own upper and lower
    case) is accepted. The empty address and "0x" are among them. *)
Theorem X9_caseless_address_accepted (request : ValidationRequest.t)
    (address : list ascii) :
  decode (ValidationRequest.address request) = Ok address ->
  (length (lstrip_0x address) <= 64)%nat ->
  (forall c, In c (lstrip_0x address) -> upper_char c = c /\ lower_char c = c) ->
  EthereumValidator.validate request = Ok true.
Proof.
  intros Hdec Hlen Hcase.
  destruct (existsb (fun pat => pat address) EthereumValidator.non_checksummed_patterns)
    eqn:Hpat; [exact (validate_matched request address Hdec Hpat) |].
  destruct (addr_hash_defined (lstrip_0x address)) as (h & Hh & Hlen64 & Hhex).
  { apply stripped_ascii. eapply decode_ascii. exact Hdec. }
  rewrite (validate_is_loop request address h Hdec Hpat Hh).
  apply case_loop_true. intros j c Hj. simpl.
  assert (Hjlt : (j < length h)%nat).
  { rewrite Hlen64. assert (j < length (lstrip_0x address))%nat; [| lia].
    apply nth_error_Some. rewrite Hj. discriminate. }
  destruct (nth_error h j) as [hc |] eqn:Hhc;
    [| apply nth_error_None in Hhc; lia].
  destruct (Hhex hc (nth_error_In _ _ Hhc)) as [d Hd].
  exists hc, d. split; [reflexivity |]. split; [exact Hd |].
  destruct (Hcase c (nth_error_In _ _ Hj)) as [Hu Hl].
  split; intros _; assumption.
Qed.

Lemma X9_caseless_address_accepted_witness :
  EthereumValidator.validate (ValidationRequest.mk ethereum []) = Ok true /\
  EthereumValidator.validate
    (ValidationRequest.mk ethereum (bytes_of_str "0x1234-5678 9")) = Ok true.
Proof.
  split.
  - apply (X9_caseless_address_accepted _ []).
    + reflexivity.
    + simpl. lia.
    + intros c [].
  - apply (X9_caseless_address_accepted _ (list_ascii_of_string "0x1234-5678 9")).
    + reflexivity.
    + simpl. lia.
    + intros c Hc. simpl in Hc.
      repeat (destruct Hc as [<- | Hc]; [split; reflexivity |]). destruct Hc.
Defined.

(** X10. On an ASCII address [EthereumValidator.validate] returns a boolean
    or raises IndexError, nothing else. It raises IndexError exactly when
    the stripped text has more than 64 characters, the number of hex digits
    of the hash, and its first 64 characters obey the case rule; a stripped
    text of more than 64 characters is never accepted. *)
Theorem X10_checksum_path_outcomes (request : ValidationRequest.t)
    (address : list ascii) :
  decode (ValidationRequest.address request) = Ok address ->
  exists h,
    EthereumValidator.addr_hash (lstrip_0x address) = Ok h /\ length h = 64%nat /\
    (EthereumValidator.validate request = Raise IndexError <->
     (64 < length (lstrip_0x address))%nat /\
     forall i, (i < 64)%nat -> position_ok h (lstrip_0x address) i) /\
    ((exists v, EthereumValidator.validate request = Ok v) \/
     EthereumValidator.validate request = Raise IndexError) /\
    ((64 < length (lstrip_0x address))%nat ->
     EthereumValidator.validate request <> Ok true).
Proof.
  intros Hdec.
  destruct (addr_hash_defined (lstrip_0x address)) as (h & Hh & Hlen64 & Hhex).
  { apply stripped_ascii. eapply decode_ascii. exact Hdec. }
  exists h. split; [exact Hh |]. split; [exact Hlen64 |].
  destruct (existsb (fun pat => pat address) EthereumValidator.non_checksummed_patterns)
    eqn:Hpat.
  - pose proof (patterns_short address Hpat) as Hshort.
    pose proof (lstrip_0x_length address) as Hstrip.
    rewrite (validate_matched request address Hdec Hpat).
    split; [| split].
    + split; [discriminate |]. intros [Hlong _]. lia.
    + left. exists true. reflexivity.
    + intros Hlong. lia.
  - rewrite (validate_is_loop request address h Hdec Hpat Hh).
    split; [| split].
    + rewrite (case_loop_IndexError h (lstrip_0x address) 0 Hhex) by lia.
      rewrite Hlen64. simpl. split.
      * intros [Hlong Hall]. split; [exact Hlong |].
        intros i Hi c Hc. exact (Hall i c Hc Hi).
      * intros [Hlong Hall]. split; [exact Hlong |].
        intros j c Hc Hj. exact (Hall j Hj c Hc).
    + apply case_loop_outcome. exact Hhex.
    + intros Hlong Htrue.
      pose proof (proj1 (case_loop_true h (lstrip_0x address) 0) Htrue) as Hall.
      destruct (nth_error (lstrip_0x address) 64) as [c |] eqn:Hc;
        [| apply nth_error_None in Hc; lia].
      destruct (Hall 64%nat c Hc) as (hc & d & Hhc & _).
      change (0 + 64)%nat with 64%nat in Hhc.
      assert (64 < length h)%nat; [| lia].
      apply nth_error_Some. rewrite Hhc. discriminate.
Qed.

Lemma X10_checksum_path_outcomes_witness :
  exists h,
    EthereumValidator.addr_hash
      (lstrip_0x (list_ascii_of_string
         "11111111111111111111111111111111111111111111111111111111111111111")) = Ok h /\
    length h = 64%nat /\
    (EthereumValidator.validate
       (ValidationRequest.mk ethereum (bytes_of_str
          "11111111111111111111111111111111111111111111111111111111111111111"))
     = Raise IndexError <->
     (64 < length (lstrip_0x (list_ascii_of_string
         "11111111111111111111111111111111111111111111111111111111111111111")))%nat /\
     forall i, (i < 64)%nat ->
       position_ok h (lstrip_0x (list_ascii_of_string
         "11111111111111111111111111111111111111111111111111111111111111111")) i) /\
    ((exists v, EthereumValidator.validate
       (ValidationRequest.mk ethereum (bytes_of_str
          "11111111111111111111111111111111111111111111111111111111111111111")) = Ok v) \/
     EthereumValidator.validate
       (ValidationRequest.mk ethereum (bytes_of_str
          "11111111111111111111111111111111111111111111111111111111111111111"))
     = Raise IndexError) /\
    ((64 < length (lstrip_0x (list_ascii_of_string
         "11111111111111111111111111111111111111111111111111111111111111111")))%nat ->
     EthereumValidator.validate
       (ValidationRequest.mk ethereum (bytes_of_str
          "11111111111111111111111111111111111111111111111111111111111111111"))
     <> Ok true).
Proof.
  apply (X10_checksum_path_outcomes
           (ValidationRequest.mk ethereum (bytes_of_str
              "11111111111111111111111111111111111111111111111111111111111111111"))).
  reflexivity.
Defined.

Lemma upper_fixed (c : ascii) : upper_char c = c -> in_range "a" "z" c = false.
Proof.
  intros Hfix. destruct (in_range "a" "z" c) eqn:Hr; [| reflexivity].
  pose proof (upper_char_N c) as HN. rewrite Hr, Hfix in HN.
  apply in_range_spec in Hr. change (N_of_ascii "a") with 97%N in Hr. lia.
Qed.

Lemma lower_fixed (c : ascii) : lower_char c = c -> in_range "A" "Z" c = false.
Proof.
  intros Hfix. destruct (in_range "A" "Z" c) eqn:Hr; [| reflexivity].
  pose proof (lower_char_N c) as HN. rewrite Hr, Hfix in HN. lia.
Qed.

(** Two characters with the same lower case that both obey the case rule
    for the same hash digit are the same character. *)
Lemma case_rule_determines (d : Z) (c1 c2 : ascii) :
  lower_char c1 = lower_char c2 -> case_ok d c1 -> case_ok d c2 -> c1 = c2.
Proof.
  intros Hlow [Hu1 Hl1] [Hu2 Hl2].
  destruct (Z_le_gt_dec d 7) as [Hle | Hgt].
  - rewrite <- (Hl1 Hle), <- (Hl2 Hle). exact Hlow.
  - pose proof (upper_fixed c1 (Hu1 Hgt)) as H1.
    pose proof (upper_fixed c2 (Hu2 Hgt)) as H2.
    apply (f_equal N_of_ascii) in Hlow. rewrite !lower_char_N in Hlow.
    apply N_of_ascii_inj.
    assert (Hn1 : ~ (97 <= N_of_ascii c1 <= 122)%N).
    { intros H. assert (in_range "a" "z" c1 = true) as Hr by (apply in_range_spec; exact H).
      rewrite Hr in H1. discriminate H1. }
    assert (Hn2 : ~ (97 <= N_of_ascii c2 <= 122)%N).
    { intros H. assert (in_range "a" "z" c2 = true) as Hr by (apply in_range_spec; exact H).
      rewrite Hr in H2. discriminate H2. }
    destruct (in_range "A" "Z" c1) eqn:Hr1; destruct (in_range "A" "Z" c2) eqn:Hr2;
      try (apply in_range_spec in Hr1; change (N_of_ascii "A") with 65%N in Hr1;
           change (N_of_ascii "Z") with 90%N in Hr1);
      try (apply in_range_spec in Hr2; change (N_of_ascii "A") with 65%N in Hr2;
           change (N_of_ascii "Z") with 90%N in Hr2);
      lia.
Qed.

Lemma same_lower_same_text (l1 l2 : list ascii) :
  lower l1 = lower l2 ->
  (forall i c1 c2, nth_error l1 i = Some c1 -> nth_error l2 i = Some c2 -> c1 = c2) ->
  l1 = l2.
Proof.
  revert l2. induction l1 as [| a l1 IH]; intros [| b l2] Hlow Hpos; simpl in Hlow;
    try discriminate Hlow; [reflexivity |].
  injection Hlow as _ Hlow. f_equal.
  - exact (Hpos 0%nat a b eq_refl eq_refl).
  - apply IH; [exact Hlow |]. intros i c1 c2 H1 H2. exact (Hpos (S i) c1 c2 H1 H2).
Qed.

(** X11. The mixed-case checksum fixes the casing: two ASCII addresses
    that no non-checksummed pattern matches, that [validate] both accepts
    and whose stripped texts are equal up to case, have the same stripped
    text. So among all the casings of an address at most one passes the
    checksum path. *)
Theorem X11_checksum_casing_unique (request1 request2 : ValidationRequest.t)
    (address1 address2 : list ascii) :
  decode (ValidationRequest.address request1) = Ok address1 ->
  decode (ValidationRequest.address request2) = Ok address2 ->
  existsb (fun pat => pat address1) EthereumValidator.non_checksummed_patterns = false ->
  existsb (fun pat => pat address2) EthereumValidator.non_checksummed_patterns = false ->
  lower (lstrip_0x address1) = lower (lstrip_0x address2) ->
  EthereumValidator.validate request1 = Ok true ->
  EthereumValidator.validate request2 = Ok true ->
  lstrip_0x address1 = lstrip_0x address2.
Proof.
  intros Hdec1 Hdec2 Hpat1 Hpat2 Hlow Hv1 Hv2.
  destruct (addr_hash_defined (lstrip_0x address1)) as (h & Hh1 & _ & _).
  { apply stripped_ascii. eapply decode_ascii. exact Hdec1. }
  assert (Hh2 : EthereumValidator.addr_hash (lstrip_0x address2) = Ok h).
  { unfold EthereumValidator.addr_hash in *. rewrite <- Hlow. exact Hh1. }
  rewrite (validate_is_loop request1 address1 h Hdec1 Hpat1 Hh1) in Hv1.
  rewrite (validate_is_loop request2 address2 h Hdec2 Hpat2 Hh2) in Hv2.
  pose proof (proj1 (case_loop_true h (lstrip_0x address1) 0) Hv1) as Hall1.
  pose proof (proj1 (case_loop_true h (lstrip_0x address2) 0) Hv2) as Hall2.
  apply same_lower_same_text; [exact Hlow |].
  intros i c1 c2 Hc1 Hc2.
  destruct (Hall1 i c1 Hc1) as (hc1 & d1 & Hhc1 & Hd1 & Hok1).
  destruct (Hall2 i c2 Hc2) as (hc2 & d2 & Hhc2 & Hd2 & Hok2).
  rewrite Hhc1 in Hhc2. injection Hhc2 as <-.
  rewrite Hd1 in Hd2. injection Hd2 as <-.
  apply (case_rule_determines d1 c1 c2); [| exact Hok1 | exact Hok2].
  assert (Hn : nth_error (lower (lstrip_0x address1)) i = Some (lower_char c1)).
  { unfold lower. rewrite nth_error_map, Hc1. reflexivity. }
  rewrite Hlow in Hn. unfold lower in Hn. rewrite nth_error_map, Hc2 in Hn.
  injection Hn as Hn. symmetry. exact Hn.
Qed.

Lemma X11_checksum_casing_unique_witness :
  lstrip_0x (list_ascii_of_string "0x5aAeb6053F3E94C9b9A09f33669435E7Ef1BeAed") =
  lstrip_0x (list_ascii_of_string "5aAeb6053F3E94C9b9A09f33669435E7Ef1BeAed").
Proof.
  apply (X11_checksum_casing_unique
           (ValidationRequest.mk ethereum
              (bytes_of_str "0x5aAeb6053F3E94C9b9A09f33669435E7Ef1BeAed"))
           (ValidationRequest.mk ethereum
              (bytes_of_str "5aAeb6053F3E94C9b9A09f33669435E7Ef1BeAed")));
    vm_compute; reflexivity.
Defined.

(** X12. The non-checksummed patterns end in [$], which also matches just
    before a final newline: 40 hex digits, all lowercase or all uppercase,
    with or without "0x", followed by one newline character are accepted
    by [EthereumValidator.validate] like the address without it. *)
Theorem X12_trailing_newline_accepted (request : ValidationRequest.t)
    (body : list ascii) :
  length body = 40%nat ->
  forallb lower_hex body = true \/ forallb upper_hex body = true ->
  ValidationRequest.address request = map byte_of_ascii (body ++ ["010"%char]) \/
  ValidationRequest.address request =
    map byte_of_ascii ("0"%char :: "x"%char :: body ++ ["010"%char]) ->
  EthereumValidator.validate request = Ok true.
Proof.
  intros Hlen Hcase Haddr.
  assert (Hascii : forallb is_ascii_char (body ++ ["010"%char]) = true).
  { rewrite forallb_app. apply andb_true_iff. split; [| reflexivity].
    destruct Hcase as [H | H].
    - exact (forallb_impl _ _ _ lower_hex_ascii H).
    - exact (forallb_impl _ _ _ upper_hex_ascii H). }
  assert (Hdollar : forall class, forallb class body = true ->
            hex40_dollar class (body ++ ["010"%char]) = true).
  { intros class Hall. unfold hex40_dollar.
    rewrite length_app, Hlen. simpl Nat.leb.
    rewrite <- Hlen at 1 2. rewrite firstn_app, firstn_all, Nat.sub_diag.
    simpl firstn. rewrite app_nil_r, Hall.
    rewrite skipn_app, skipn_all, Nat.sub_diag. reflexivity. }
  assert (Hpat : forall text,
            text = body ++ ["010"%char] \/
            text = "0"%char :: "x"%char :: body ++ ["010"%char] ->
            existsb (fun pat => pat text) EthereumValidator.non_checksummed_patterns = true).
  { intros text Htext. unfold EthereumValidator.non_checksummed_patterns.
    cbn [existsb]. destruct Hcase as [H | H]; pose proof (Hdollar _ H) as Hd.
    - apply orb_true_iff. left. unfold pattern_match.
      destruct Htext as [-> | ->].
      + destruct (body ++ ["010"%char]) as [| c0 [| c1 s']]; try exact Hd.
        rewrite Hd. apply orb_true_r.
      + rewrite Hd. reflexivity.
    - apply orb_true_iff. right. apply orb_true_iff. left. unfold pattern_match.
      destruct Htext as [-> | ->].
      + destruct (body ++ ["010"%char]) as [| c0 [| c1 s']]; try exact Hd.
        rewrite Hd. apply orb_true_r.
      + rewrite Hd. reflexivity. }
  destruct Haddr as [Ha | Ha].
  - apply (validate_matched request (body ++ ["010"%char])).
    + rewrite Ha. apply decode_encoded. exact Hascii.
    + apply Hpat. left. reflexivity.
  - apply (validate_matched request ("0"%char :: "x"%char :: body ++ ["010"%char])).
    + rewrite Ha. apply decode_encoded. simpl. exact Hascii.
    + apply Hpat. right. reflexivity.
Qed.

Lemma X12_trailing_newline_accepted_witness :
  EthereumValidator.validate
    (ValidationRequest.mk ethereum
       (map byte_of_ascii
          (list_ascii_of_string "0x5aaeb6053f3e94c9b9a09f33669435e7ef1beaed"
           ++ ["010"%char]))) = Ok true.
Proof.
  apply (X12_trailing_newline_accepted _
           (list_ascii_of_string "5aaeb6053f3e94c9b9a09f33669435e7ef1beaed"));
    [reflexivity | left; reflexivity | right; reflexivity].
Defined.

(** ** Encoding and decoding are inverse *)

Lemma byte_of_Z_to_Z (b : byte) : byte_of_Z (byte_to_Z b) = b.
Proof.
  unfold byte_of_Z. pose proof (byte_to_Z_range b) as Hr.
  rewrite Z.mod_small by exact Hr. unfold byte_to_Z. rewrite N2Z.id.
  rewrite Byte.of_to_N. reflexivity.
Qed.

Lemma nth_index (cs : bytes) (k : nat) :
  List.NoDup cs -> (k < length cs)%nat ->
  base58check.index (nth k cs x00) cs = Some (Z.of_nat k).
Proof.
  intros Hnd. revert k. induction Hnd as [| x cs Hx Hnd IH]; intros k Hk.
  - simpl in Hk. lia.
  - destruct k as [| k].
    + simpl. rewrite (proj2 (byte_eqb_eq x x) eq_refl). reflexivity.
    + simpl in Hk. change (nth (S k) (x :: cs) x00) with (nth k cs x00).
      change (base58check.index (nth k cs x00) (x :: cs))
        with (if byte_eqb x (nth k cs x00) then Some 0
              else option_map Z.succ (base58check.index (nth k cs x00) cs)).
      destruct (byte_eqb x (nth k cs x00)) eqn:Heq.
      * apply byte_eqb_eq in Heq. exfalso. apply Hx. rewrite Heq.
        apply nth_In. lia.
      * rewrite IH by lia. simpl. f_equal. lia.
Qed.

Lemma take1_drop (cs : bytes) (k : nat) :
  (k < length cs)%nat -> firstn 1 (skipn k cs) = [nth k cs x00].
Proof.
  revert k. induction cs as [| x cs IH]; intros k Hk; simpl in Hk; [lia |].
  destruct k as [| k]; [reflexivity |]. simpl. apply IH. lia.
Qed.

Lemma b58decode_int_app (base : Z) (cs l1 l2 : bytes) (output : Z) :
  base58check.b58decode_int base cs (l1 ++ l2) output =
  (base58check.b58decode_int base cs l1 output ≫= base58check.b58decode_int base cs l2).
Proof.
  revert output. induction l1 as [| x l1 IH]; intros output; simpl; [reflexivity |].
  destruct (base58check.index x cs) as [i |]; [apply IH | reflexivity].
Qed.

(** The digits [b58encode_int] writes in front of [output]: read back they
    give the number, and the first of them is not the zero digit. *)
Lemma b58encode_int_digits (cs : bytes) (fuel : nat) (acc : Z) (output : bytes) :
  List.NoDup cs -> Z.of_nat (length cs) = 58 -> 0 <= acc < 2 ^ Z.of_nat fuel ->
  exists ds,
    base58check.b58encode_int fuel 58 cs acc output = ds ++ output /\
    (forall o, base58check.b58decode_int 58 cs ds o
               = Ok (o * 58 ^ Z.of_nat (length ds) + acc)) /\
    (0 < acc -> exists d rest, ds = d :: rest /\ d <> hd x00 cs) /\
    (acc = 0 -> ds = []).
Proof.
  intros Hnd Hlen. revert acc output.
  induction fuel as [| fuel IH]; intros acc output Hacc.
  - simpl in Hacc. assert (acc = 0) by lia. subst acc. exists []. simpl.
    split; [reflexivity |]. split; [intros o; f_equal; lia |].
    split; [lia | reflexivity].
  - simpl. destruct (Z.eqb_spec acc 0) as [-> | Hne].
    + exists []. simpl. split; [reflexivity |]. split; [intros o; f_equal; lia |].
      split; [lia | reflexivity].
    + assert (Hpos : 0 < acc) by lia.
      pose proof (Z.mod_pos_bound acc 58 ltac:(lia)) as Hk.
      assert (Hklt : (Z.to_nat (acc mod 58) < length cs)%nat) by lia.
      rewrite (take1_drop cs _ Hklt).
      set (d := nth (Z.to_nat (acc mod 58)) cs x00).
      assert (Hq : 0 <= acc / 58 < 2 ^ Z.of_nat fuel).
      { rewrite Nat2Z.inj_succ, Z.pow_succ_r in Hacc by lia. split.
        - apply Z.div_pos; lia.
        - apply Z.div_lt_upper_bound; lia. }
      destruct (IH (acc / 58) ([d] ++ output) Hq) as (ds & Henc & Hdec & Hhead & Hzero).
      exists (ds ++ [d]). split; [rewrite Henc, <- app_assoc; reflexivity |].
      assert (Hd : base58check.index d cs = Some (acc mod 58)).
      { unfold d. rewrite (nth_index cs _ Hnd Hklt). f_equal. lia. }
      split; [| split; [| lia]].
      * intros o. rewrite b58decode_int_app, Hdec. simpl. rewrite Hd.
        f_equal. rewrite length_app. simpl length.
        rewrite Nat2Z.inj_add, Z.pow_add_r by lia. simpl Z.of_nat.
        rewrite Z.pow_1_r. pose proof (Z.div_mod acc 58 ltac:(lia)). lia.
      * intros _. destruct (Z_lt_le_dec 0 (acc / 58)) as [Hqpos | Hqz].
        -- destruct (Hhead Hqpos) as (d' & rest & -> & Hd').
           exists d', (rest ++ [d]). split; [reflexivity | exact Hd'].
        -- assert (Hq0 : acc / 58 = 0) by lia. rewrite (Hzero Hq0).
           exists d, []. split; [reflexivity |].
           destruct cs as [| c0 cs']; [simpl in Hlen; lia |]. simpl hd.
           intros Heq.
           assert (Hi0 : base58check.index d (c0 :: cs') = Some 0).
           { rewrite Heq. simpl. rewrite (proj2 (byte_eqb_eq c0 c0) eq_refl). reflexivity. }
           rewrite Hd in Hi0. injection Hi0 as Hi0.
           pose proof (Z.div_mod acc 58 ltac:(lia)). lia.
Qed.

Lemma from_base256_le_val (val : bytes) : base58check.from_base256 val = le_val (rev val).
Proof.
  unfold base58check.from_base256.
  assert (H : forall l p acc,
            snd (fold_left (fun '(p, acc) ch => (Z.shiftl p 8, acc + p * byte_to_Z ch))
                           l (p, acc)) = acc + p * le_val l).
  { induction l as [| ch l IH]; intros p acc; simpl; [lia |].
    rewrite IH. rewrite Z.shiftl_mul_pow2 by lia. change (2 ^ 8) with 256. lia. }
  rewrite H. lia.
Qed.

Lemma le_val_nonneg (l : bytes) : 0 <= le_val l.
Proof.
  induction l as [| x l IH]; simpl; [lia |]. pose proof (byte_to_Z_range x). lia.
Qed.

Lemma le_val_pos (l : bytes) : l <> [] -> List.last l x00 <> x00 -> 0 < le_val l.
Proof.
  induction l as [| x l IH]; intros Hne Hlast; [contradiction |].
  pose proof (byte_to_Z_range x) as Hx. pose proof (le_val_nonneg l) as Hl.
  change (le_val (x :: l)) with (byte_to_Z x + 256 * le_val l).
  destruct l as [| y l].
  - simpl in Hlast. simpl le_val.
    assert (byte_to_Z x <> 0); [| lia].
    intros H0. apply Hlast. rewrite <- (byte_of_Z_to_Z x), H0. reflexivity.
  - assert (0 < le_val (y :: l)); [| lia].
    apply IH; [discriminate | exact Hlast].
Qed.

(** [to_base256] writes the bytes of a number, most significant first. *)
Lemma to_base256_le_val (l : bytes) (fuel : nat) (result : bytes) :
  l = [] \/ List.last l x00 <> x00 -> (length l <= fuel)%nat ->
  base58check.to_base256 fuel (le_val l) result = rev l ++ result.
Proof.
  revert fuel result. induction l as [| x l IH]; intros fuel result Hlast Hfuel.
  - simpl. destruct fuel; reflexivity.
  - destruct fuel as [| fuel]; [simpl in Hfuel; lia |].
    assert (Hnz : List.last (x :: l) x00 <> x00) by (destruct Hlast as [H | H]; [discriminate H | exact H]).
    pose proof (le_val_pos (x :: l) ltac:(discriminate) Hnz) as Hpos.
    pose proof (byte_to_Z_range x) as Hx.
    change (le_val (x :: l)) with (byte_to_Z x + 256 * le_val l) in *.
    simpl base58check.to_base256.
    destruct (Z.gtb_spec (byte_to_Z x + 256 * le_val l) 0) as [_ | Hle]; [| lia].
    assert (Hdiv : (byte_to_Z x + 256 * le_val l) / 256 = le_val l).
    { symmetry. apply (Z.div_unique _ 256 (le_val l) (byte_to_Z x)); [left; exact Hx | lia]. }
    assert (Hmod : (byte_to_Z x + 256 * le_val l) mod 256 = byte_to_Z x).
    { symmetry. apply (Z.mod_unique _ 256 (le_val l)); [left; exact Hx | lia]. }
    rewrite Hdiv, Hmod, byte_of_Z_to_Z.
    rewrite IH.
    + simpl. rewrite <- app_assoc. reflexivity.
    + destruct l as [| y l]; [left; reflexivity | right; exact Hnz].
    + simpl in Hfuel. lia.
Qed.

Lemma bytes_lstrip_clean (c : byte) (ds : bytes) :
  (forall d rest, ds = d :: rest -> d <> c) -> bytes_lstrip c ds = ds.
Proof.
  destruct ds as [| d rest]; intros H; simpl; [reflexivity |].
  destruct (byte_eqb d c) eqn:Hd; [| reflexivity].
  apply byte_eqb_eq in Hd. exfalso. exact (H d rest eq_refl Hd).
Qed.

Lemma bytes_lstrip_repeat (c : byte) (n : nat) (ds : bytes) :
  (forall d rest, ds = d :: rest -> d <> c) ->
  bytes_lstrip c (repeat c n ++ ds) = ds.
Proof.
  intros H. induction n as [| n IH]; simpl.
  - apply bytes_lstrip_clean. exact H.
  - rewrite (proj2 (byte_eqb_eq c c) eq_refl). exact IH.
Qed.

Lemma last_rev_hd (s : bytes) : List.last (rev s) x00 = hd x00 s.
Proof.
  destruct s as [| x s]; [reflexivity |]. simpl. apply last_last.
Qed.

Lemma Ok_inj {A : Type} (a b : A) : Ok a = Ok b -> a = b.
Proof. intros H. injection H as H. exact H. Qed.

(** What was encoded is what the decoder gives back, for a charset of 58
    distinct characters. *)
Lemma b58_round_trip (cs val encoded : bytes) :
  List.NoDup cs -> Z.of_nat (length cs) = 58 ->
  base58check.b58encode val cs = Ok encoded ->
  base58check.b58decode encoded cs = Ok val.
Proof.
  intros Hnd Hlen Henc. unfold base58check.b58encode in Henc.
  destruct cs as [| c0 cs'] eqn:Hcs; [discriminate Henc |]. rewrite <- Hcs in *.
  cbv zeta in Henc. rewrite Hlen in Henc.
  change (Ok (repeat c0 (length val - length (bytes_lstrip x00 val)) ++
              base58check.b58encode_int
                (base58check.fuel_for (base58check.from_base256 (bytes_lstrip x00 val)))
                58 cs (base58check.from_base256 (bytes_lstrip x00 val)) [])
          = Ok encoded) in Henc.
  set (stripped := bytes_lstrip x00 val) in *.
  set (acc := base58check.from_base256 stripped) in *.
  apply Ok_inj in Henc. subst encoded.
  assert (Hacc : 0 <= acc < 2 ^ Z.of_nat (base58check.fuel_for acc)).
  { split; [apply from_base256_nonneg | apply fuel_for_enough]. }
  destruct (b58encode_int_digits cs (base58check.fuel_for acc) acc [] Hnd Hlen Hacc)
    as (ds & Hds & Hdec & Hhead & Hzero).
  rewrite Hds, app_nil_r.
  assert (Hclean : forall d rest, ds = d :: rest -> d <> c0).
  { intros d rest Heq. destruct (Z_lt_le_dec 0 acc) as [Hpos | Hz].
    - destruct (Hhead Hpos) as (d' & rest' & Heq' & Hd'). rewrite Hcs in Hd'. simpl in Hd'.
      rewrite Heq in Heq'. injection Heq' as -> _. exact Hd'.
    - rewrite Hzero in Heq by lia. discriminate Heq. }
  unfold base58check.b58decode. cbv zeta. rewrite Hlen.
  change (negb (58 =? 58)) with false. cbv iota.
  replace (hd x00 cs) with c0 by (rewrite Hcs; reflexivity).
  rewrite (bytes_lstrip_repeat c0 _ ds Hclean).
  rewrite length_app, repeat_length.
  replace (length val - length stripped + length ds - length ds)%nat
    with (length val - length stripped)%nat by lia.
  rewrite (bind_Ok _ _ _ (Hdec 0)). f_equal.
  replace (0 * 58 ^ Z.of_nat (length ds) + acc) with acc by lia.
  assert (Hbytes : base58check.to_base256 (base58check.fuel_for acc) acc [] = stripped).
  { rewrite <- (to_base256_fuel (base58check.fuel_for acc) (length (rev stripped)) acc [])
      by apply fuel_for_enough.
    unfold acc at 2. rewrite from_base256_le_val.
    rewrite to_base256_le_val.
    - rewrite rev_involutive, app_nil_r. reflexivity.
    - destruct stripped as [| x rest] eqn:Hs; [left; reflexivity |]. right.
      rewrite last_rev_hd. simpl.
      exact (bytes_lstrip_head x00 x val rest Hs).
    - lia. }
  rewrite Hbytes.
  destruct (bytes_lstrip_split x00 val) as [n Hn]. fold stripped in Hn.
  assert (Hpad : (length val - length stripped)%nat = n).
  { rewrite Hn at 1. rewrite length_app, repeat_length. lia. }
  rewrite Hpad. symmetry. exact Hn.
Qed.

Lemma byte_to_Z_of_Z (m : Z) : 0 <= m < 256 -> byte_to_Z (byte_of_Z m) = m.
Proof.
  intros Hm. unfold byte_of_Z, byte_to_Z. rewrite Z.mod_small by exact Hm.
  destruct (Byte.of_N (Z.to_N m)) as [b |] eqn:Hb.
  - apply Byte.to_of_N in Hb. rewrite Hb. lia.
  - apply Byte.of_N_None_iff in Hb. lia.
Qed.

Lemma index_nth (ch : byte) (cs : bytes) (i : Z) :
  base58check.index ch cs = Some i -> nth (Z.to_nat i) cs x00 = ch.
Proof.
  revert i. induction cs as [| x cs IH]; intros i; simpl; [discriminate |].
  destruct (byte_eqb x ch) eqn:Hx.
  - intros H. injection H as <-. apply byte_eqb_eq in Hx. exact Hx.
  - destruct (base58check.index ch cs) as [j |] eqn:Hj; simpl; [| discriminate].
    intros H. injection H as <-. pose proof (index_range ch cs j Hj) as Hr.
    rewrite Z2Nat.inj_succ by lia. apply IH. reflexivity.
Qed.

(** The bytes [to_base256] writes in front of [result]: they denote the
    number and do not begin with a zero byte. *)
Lemma to_base256_digits (fuel : nat) (acc : Z) (result : bytes) :
  0 <= acc < 2 ^ Z.of_nat fuel ->
  exists bs,
    base58check.to_base256 fuel acc result = bs ++ result /\
    le_val (rev bs) = acc /\
    (forall d rest, bs = d :: rest -> d <> x00).
Proof.
  revert acc result. induction fuel as [| fuel IH]; intros acc result Hacc.
  - simpl in Hacc. assert (acc = 0) by lia. subst acc. exists []. simpl.
    split; [reflexivity |]. split; [reflexivity |]. intros d rest H. discriminate H.
  - simpl. destruct (Z.gtb_spec acc 0) as [Hpos | Hle].
    + pose proof (Z.mod_pos_bound acc 256 ltac:(lia)) as Hm.
      assert (Hq : 0 <= acc / 256 < 2 ^ Z.of_nat fuel).
      { rewrite Nat2Z.inj_succ, Z.pow_succ_r in Hacc by lia. split.
        - apply Z.div_pos; lia.
        - apply Z.div_lt_upper_bound; lia. }
      destruct (IH (acc / 256) (byte_of_Z (acc mod 256) :: result) Hq)
        as (bs & Heq & Hval & Hhead).
      exists (bs ++ [byte_of_Z (acc mod 256)]).
      split; [rewrite Heq, <- app_assoc; reflexivity |]. split.
      * rewrite rev_app_distr. simpl. rewrite Hval, byte_to_Z_of_Z by exact Hm.
        pose proof (Z.div_mod acc 256 ltac:(lia)). lia.
      * intros d rest Hd. destruct bs as [| d' bs'].
        -- simpl in Hd. injection Hd as <- _. simpl in Hval.
           intros Hzero. apply (f_equal byte_to_Z) in Hzero.
           rewrite byte_to_Z_of_Z in Hzero by exact Hm.
           change (byte_to_Z x00) with 0 in Hzero.
           pose proof (Z.div_mod acc 256 ltac:(lia)). lia.
        -- simpl in Hd. injection Hd as <- _. exact (Hhead d' bs' eq_refl).
    + assert (acc = 0) by lia. subst acc. exists []. simpl.
      split; [reflexivity |]. split; [reflexivity |]. intros d rest H. discriminate H.
Qed.

(** A digit string that does not begin with the zero digit is what
    [b58encode_int] writes for the number it denotes. *)
Lemma b58encode_int_of_digits (c0 : byte) (cs' : bytes) (s : bytes) :
  Z.of_nat (length (c0 :: cs')) = 58 ->
  forall (fuel : nat) (output : bytes) (v : Z),
    (forall d rest, s = d :: rest -> d <> c0) ->
    base58check.b58decode_int 58 (c0 :: cs') s 0 = Ok v ->
    v < 2 ^ Z.of_nat fuel ->
    base58check.b58encode_int fuel 58 (c0 :: cs') v output = s ++ output.
Proof.
  intros Hlen. induction s as [| d s' IH] using rev_ind; intros fuel output v Hclean Hdec Hv.
  - simpl in Hdec. injection Hdec as <-. destruct fuel; reflexivity.
  - rewrite b58decode_int_app in Hdec.
    apply bind_Ok_inv in Hdec. destruct Hdec as [v' [Hv' Hd]].
    change (match base58check.index d (c0 :: cs') with
            | Some i => Ok (v' * 58 + i)
            | None => Raise ValueError
            end = Ok v) in Hd.
    destruct (base58check.index d (c0 :: cs')) as [k |] eqn:Hk; [| discriminate Hd].
    apply Ok_inj in Hd. subst v.
    pose proof (index_range d _ k Hk) as Hkr. rewrite Hlen in Hkr.
    assert (Hv'nn : 0 <= v') by (apply (b58decode_int_grows 58 (c0 :: cs') s' 0 v'); [lia | lia | exact Hv']).
    assert (Hpos : 0 < v' * 58 + k).
    { destruct s' as [| d0 rest0].
      - simpl in Hv'. injection Hv' as <-.
        assert (1 <= k); [| lia].
        apply (index_head d c0 cs' k Hk). exact (Hclean d [] eq_refl).
      - assert (0 < v'); [| lia].
        apply (b58decode_int_positive c0 d0 cs' rest0 v'); [| exact Hv'].
        exact (Hclean d0 (rest0 ++ [d]) eq_refl). }
    destruct fuel as [| fuel]; [simpl in Hv; lia |].
    simpl base58check.b58encode_int.
    destruct (Z.eqb_spec (v' * 58 + k) 0) as [Hz | _]; [lia |].
    assert (Hdiv : (v' * 58 + k) / 58 = v').
    { symmetry. apply (Z.div_unique _ 58 v' k); [left; lia | lia]. }
    assert (Hmod : (v' * 58 + k) mod 58 = k).
    { symmetry. apply (Z.mod_unique _ 58 v'); [left; lia | lia]. }
    rewrite Hdiv, Hmod.
    rewrite (take1_drop (c0 :: cs') (Z.to_nat k)) by lia.
    rewrite (index_nth d _ k Hk).
    rewrite (IH fuel ([d] ++ output) v').
    + rewrite <- app_assoc. reflexivity.
    + intros d1 rest1 Heq. apply (Hclean d1 (rest1 ++ [d])). rewrite Heq. reflexivity.
    + exact Hv'.
    + rewrite Nat2Z.inj_succ, Z.pow_succ_r in Hv by lia. lia.
Qed.

(** Encoding what the decoder returned gives the address back, for every
    address the decoder accepts. *)
Lemma b58_reencode (cs address abytes : bytes) :
  base58check.b58decode address cs = Ok abytes ->
  base58check.b58encode abytes cs = Ok address.
Proof.
  intros Hdec. pose proof (b58decode_base _ _ _ Hdec) as Hlen.
  unfold base58check.b58decode in Hdec. cbv zeta in Hdec. rewrite Hlen in Hdec.
  change (negb (58 =? 58)) with false in Hdec. cbv iota in Hdec.
  destruct cs as [| c0 cs']; [simpl in Hlen; lia |].
  change (hd x00 (c0 :: cs')) with c0 in Hdec.
  set (cs := c0 :: cs') in *.
  set (s := bytes_lstrip c0 address) in *.
  apply bind_Ok_inv in Hdec. destruct Hdec as [acc [Hacc Hout]].
  assert (Hnn : 0 <= acc) by (apply (b58decode_int_grows 58 cs s 0 acc); [lia | lia | exact Hacc]).
  destruct (to_base256_digits (base58check.fuel_for acc) acc [])
    as (bs & Hbs & Hval & Hclean0).
  { split; [exact Hnn | apply fuel_for_enough]. }
  rewrite app_nil_r in Hbs.
  change (Ok (repeat x00 (length address - length s) ++
              base58check.to_base256 (base58check.fuel_for acc) acc []) = Ok abytes) in Hout.
  apply Ok_inj in Hout. rewrite Hbs in Hout. subst abytes.
  unfold base58check.b58encode. fold cs. cbv zeta. rewrite Hlen.
  change (negb (58 =? 58)) with false. cbv iota.
  rewrite (bytes_lstrip_repeat x00 _ bs Hclean0).
  rewrite length_app, repeat_length.
  replace (length address - length s + length bs - length bs)%nat
    with (length address - length s)%nat by lia.
  rewrite from_base256_le_val, Hval. subst cs.
  rewrite (b58encode_int_of_digits c0 cs' s Hlen (base58check.fuel_for acc) [] acc).
  - rewrite app_nil_r. f_equal.
    destruct (bytes_lstrip_split c0 address) as [n Hn]. fold s in Hn.
    assert (Hpad : (length address - length s)%nat = n).
    { rewrite Hn at 1. rewrite length_app, repeat_length. lia. }
    rewrite Hpad. symmetry. exact Hn.
  - intros d rest Heq. exact (bytes_lstrip_head c0 d address rest Heq).
  - exact Hacc.
  - apply fuel_for_enough.
Qed.

(** X13. The last test of [Base58CheckValidator.validate], the comparison
    of the address with the re-encoding of its decoded bytes, never fails:
    whenever the address decodes, encoding the decoded bytes gives the
    address back. The verdict is therefore decided by the version byte and
    the checksum alone. *)
Theorem X13_reencoding_never_fails (request : ValidationRequest.t) (b : byte)
    (rest : bytes) (nets : list Z) :
  Base58CheckValidator.b58decode request = Ok (b :: rest) ->
  ValidationRequest.networks request = Ok nets ->
  Base58CheckValidator.b58encode request (b :: rest)
    = Ok (ValidationRequest.address request) /\
  Base58CheckValidator.validate request =
  Ok (int_in (byte_to_Z b) nets
      && bytes_eqb (slice_from_m4 (b :: rest))
                   (firstn 4 (sha256 (sha256 (slice_to_m4 (b :: rest)))))).
Proof.
  intros Hdec Hnets.
  assert (Henc : Base58CheckValidator.b58encode request (b :: rest)
                 = Ok (ValidationRequest.address request)).
  { rewrite b58encode_charset. apply b58_reencode. rewrite <- b58decode_charset. exact Hdec. }
  split; [exact Henc |].
  rewrite validate_checks.
  destruct (checks_verdict request b rest nets Hdec Hnets) as [enc [Henc' Hv]].
  rewrite Henc in Henc'. apply Ok_inj in Henc'. subst enc.
  rewrite Hv. f_equal.
  rewrite (proj2 (bytes_eqb_eq _ _) eq_refl). rewrite andb_true_r. reflexivity.
Qed.

Lemma X13_reencoding_never_fails_witness :
  Base58CheckValidator.b58encode
    (ValidationRequest.mk bitcoin (bytes_of_str "1BoatSLRHtKNngkdXEeobR76b53LETtpyX"))
    (map byte_of_Z [0; 118; 128; 173; 236; 142; 171; 202; 186; 198; 118; 190;
                    158; 131; 133; 74; 222; 11; 210; 44; 219; 11; 185; 96; 226])
  = Ok (bytes_of_str "1BoatSLRHtKNngkdXEeobR76b53LETtpyX") /\
  Base58CheckValidator.validate
    (ValidationRequest.mk bitcoin (bytes_of_str "1BoatSLRHtKNngkdXEeobR76b53LETtpyX"))
  = Ok false.
Proof.
  pose proof (X13_reencoding_never_fails
    (ValidationRequest.mk bitcoin (bytes_of_str "1BoatSLRHtKNngkdXEeobR76b53LETtpyX"))
    x00
    (map byte_of_Z [118; 128; 173; 236; 142; 171; 202; 186; 198; 118; 190;
                    158; 131; 133; 74; 222; 11; 210; 44; 219; 11; 185; 96; 226])
    [0; 5; 111; 196]
    ltac:(vm_compute; reflexivity) ltac:(vm_compute; reflexivity)) as [Henc Hval].
  split; [exact Henc |]. rewrite Hval. vm_compute. reflexivity.
Defined.

(** ** [execute] for a Base58Check currency *)

Lemma validate_known_version (request : ValidationRequest.t) (b : byte) (rest : bytes)
    (label : string) (versions : list Z) :
  Base58CheckValidator.b58decode request = Ok (b :: rest) ->
  In (label, versions) (Currency.networks (ValidationRequest.currency request)) ->
  In (byte_to_Z b) versions ->
  Base58CheckValidator.validate request =
  Ok (bytes_eqb (slice_from_m4 (b :: rest))
                (firstn 4 (sha256 (sha256 (slice_to_m4 (b :: rest)))))).
Proof.
  intros Hdec Hin Hb.
  destruct (networks_defined request) as [nets Hnets].
  { intros Hnil. rewrite Hnil in Hin. destruct Hin. }
  assert (Hmember : In (byte_to_Z b) nets).
  { rewrite (networks_concat request nets Hnets). apply in_flattened.
    exists label, versions. split; assumption. }
  assert (Henc : Base58CheckValidator.b58encode request (b :: rest)
                 = Ok (ValidationRequest.address request)).
  { rewrite b58encode_charset. apply b58_reencode. rewrite <- b58decode_charset. exact Hdec. }
  rewrite validate_checks.
  destruct (checks_verdict request b rest nets Hdec Hnets) as [enc [Henc' Hv]].
  rewrite Henc in Henc'. apply Ok_inj in Henc'. subst enc.
  rewrite Hv. f_equal.
  rewrite (proj2 (int_in_In _ _) Hmember).
  rewrite (proj2 (bytes_eqb_eq _ _) eq_refl), andb_true_r. reflexivity.
Qed.

(** X7. For a currency whose validator is the registered Base58Check class,
    [execute] returns a result exactly when the address decodes to a
    sequence whose first byte is a version byte of one of the currency's
    networks. The result is then fully determined: the currency's name and
    ticker, the address unchanged, [valid] true or false as the last four
    decoded bytes are or are not the checksum of the bytes before them,
    and the label of the first network that lists the byte. A wrong
    checksum alone gives [valid = False] and never an exception. *)
Theorem X7_execute_returns_iff (validators : gmap string validator_class)
    (request : ValidationRequest.t) (r : ValidationResult.t) :
  Validators.get validators (Currency.validator (ValidationRequest.currency request))
    = Some Base58CheckValidator_cls ->
  (execute validators request = Ok r <->
   exists b rest pre label versions post,
     Base58CheckValidator.b58decode request = Ok (b :: rest) /\
     Currency.networks (ValidationRequest.currency request)
       = pre ++ (label, versions) :: post /\
     In (byte_to_Z b) versions /\
     (forall l v, In (l, v) pre -> ~ In (byte_to_Z b) v) /\
     r = ValidationResult.mk
           (Currency.name (ValidationRequest.currency request))
           (Currency.ticker (ValidationRequest.currency request))
           (ValidationRequest.address request)
           (bytes_eqb (slice_from_m4 (b :: rest))
                      (firstn 4 (sha256 (sha256 (slice_to_m4 (b :: rest))))))
           label).
Proof.
  intros Hget. split.
  - intros Hexec. unfold execute in Hexec. rewrite Hget in Hexec. simpl in Hexec.
    apply bind_Ok_inv in Hexec. destruct Hexec as [ov [Hv Hexec]].
    apply bind_Ok_inv in Hexec. destruct Hexec as [on [Hn Hexec]].
    apply bind_Ok_inv in Hv. destruct Hv as [valid [Hvalid Hov]]. injection Hov as <-.
    apply result_new_Ok in Hexec. destruct Hexec as (v & label & Hv & -> & ->).
    injection Hv as <-.
    unfold Base58CheckValidator.network in Hn.
    apply bind_Ok_inv in Hn. destruct Hn as [abytes [Hdec Hn]].
    apply bind_Ok_inv in Hn. destruct Hn as [nbyte [Hb Hscan]].
    destruct abytes as [| b rest]; [discriminate Hb |]. injection Hb as <-.
    injection Hscan as Hscan. apply scan_first_match in Hscan.
    destruct Hscan as (pre & versions & post & Heq & Hin & Hpre).
    assert (Hlisted : In (label, versions)
                        (Currency.networks (ValidationRequest.currency request))).
    { rewrite Heq. apply in_or_app. right. left. reflexivity. }
    rewrite (validate_known_version request b rest label versions Hdec Hlisted Hin)
      in Hvalid.
    apply Ok_inj in Hvalid. subst valid.
    exists b, rest, pre, label, versions, post. repeat split; assumption.
  - intros (b & rest & pre & label & versions & post & Hdec & Heq & Hin & Hpre & ->).
    assert (Hlisted : In (label, versions)
                        (Currency.networks (ValidationRequest.currency request))).
    { rewrite Heq. apply in_or_app. right. left. reflexivity. }
    assert (Hnet : Base58CheckValidator.network request = Ok (Some label)).
    { unfold Base58CheckValidator.network. rewrite Hdec.
      change (Ok (Base58CheckValidator.scan_networks (byte_to_Z b)
                    (Currency.networks (ValidationRequest.currency request)))
              = Ok (Some label)).
      f_equal. apply scan_first_match. exists pre, versions, post.
      repeat split; assumption. }
    unfold execute. rewrite Hget. cbv zeta.
    unfold validator_validate, validator_network.
    rewrite (validate_known_version request b rest label versions Hdec Hlisted Hin).
    rewrite Hnet. reflexivity.
Qed.

Lemma X7_execute_returns_iff_witness :
  execute module_validators
    (ValidationRequest.mk bitcoin (bytes_of_str "1BoatSLRHtKNngkdXEeobR76b53LETtpyX"))
  = Ok (ValidationResult.mk "bitcoin" "btc"
          (bytes_of_str "1BoatSLRHtKNngkdXEeobR76b53LETtpyX") false "main").
Proof.
  apply (proj2 (X7_execute_returns_iff module_validators
                  (ValidationRequest.mk bitcoin
                     (bytes_of_str "1BoatSLRHtKNngkdXEeobR76b53LETtpyX"))
                  (ValidationResult.mk "bitcoin" "btc"
                     (bytes_of_str "1BoatSLRHtKNngkdXEeobR76b53LETtpyX") false "main")
                  ltac:(vm_compute; reflexivity))).
  exists x00,
    (map byte_of_Z [118; 128; 173; 236; 142; 171; 202; 186; 198; 118; 190;
                    158; 131; 133; 74; 222; 11; 210; 44; 219; 11; 185; 96; 226]),
    [], "main"%string, [0; 5], [("test"%string, [111; 196])].
  split; [vm_compute; reflexivity |].
  split; [reflexivity |].
  split; [left; reflexivity |].
  split; [intros l v [] |].
  vm_compute. reflexivity.
Defined.

(** ** Addresses made the standard way *)

Lemma be_bytes_length (n : nat) (z : Z) : length (SHA256.be_bytes n z) = n.
Proof.
  induction n as [| n IH]; simpl; [reflexivity |]. rewrite IH. reflexivity.
Qed.

Lemma sha256_compress_length (h block : list Z) :
  length h = 8%nat -> length (SHA256.compress h block) = 8%nat.
Proof.
  intros Hh. unfold SHA256.compress. cbv zeta.
  rewrite length_map, length_combine, Hh. reflexivity.
Qed.

Lemma sha256_length (m : bytes) : length (sha256 m) = 32%nat.
Proof.
  unfold sha256, SHA256.digest_Z. cbv zeta. rewrite length_map.
  match goal with
  | |- context [fold_left SHA256.compress ?bl SHA256.H0] =>
      assert (Hst : length (fold_left SHA256.compress bl SHA256.H0) = 8%nat)
  end.
  { match goal with
    | |- context [fold_left SHA256.compress ?bl SHA256.H0] => generalize bl
    end.
    assert (H0len : length SHA256.H0 = 8%nat) by (vm_compute; reflexivity).
    generalize dependent SHA256.H0.
    intros h Hh blocks. revert h Hh.
    induction blocks as [| blk blocks IH]; intros h Hh; simpl; [exact Hh |].
    apply IH. apply sha256_compress_length. exact Hh. }
  destruct (fold_left SHA256.compress _ SHA256.H0)
    as [| w0 [| w1 [| w2 [| w3 [| w4 [| w5 [| w6 [| w7 [| w8 ws]]]]]]]]];
    try discriminate Hst.
  cbn [flat_map]. rewrite !length_app, !be_bytes_length. reflexivity.
Qed.

Lemma default_charset_distinct : List.NoDup base58check.DEFAULT_CHARSET.
Proof.
  apply (NoDup_map_inv byte_to_Z).
  assert (Hsame : nodup Z.eq_dec (map byte_to_Z base58check.DEFAULT_CHARSET)
                  = map byte_to_Z base58check.DEFAULT_CHARSET)
    by (vm_compute; reflexivity).
  rewrite <- Hsame. apply NoDup_nodup.
Qed.

Lemma b58encode_base (val cs encoded : bytes) :
  base58check.b58encode val cs = Ok encoded -> Z.of_nat (length cs) = 58.
Proof.
  unfold base58check.b58encode. destruct cs as [| c0 cs']; [discriminate |].
  cbv zeta. destruct (Z.eqb_spec (Z.of_nat (length (c0 :: cs'))) 58) as [H | H].
  - intros _. exact H.
  - intros Hd. discriminate Hd.
Qed.

(** X14. Every address made the standard way is accepted. Take a version
    byte of one of the currency's networks and any payload, append the
    first four bytes of the double SHA-256 digest, and encode: with a
    charset of distinct characters [Base58CheckValidator.validate] returns
    true on the result, whatever its length. *)
Theorem X14_generated_address_accepted (request : ValidationRequest.t) (b : byte)
    (payload : bytes) (label : string) (versions : list Z) :
  List.NoDup (charset_of request) ->
  In (label, versions) (Currency.networks (ValidationRequest.currency request)) ->
  In (byte_to_Z b) versions ->
  Base58CheckValidator.b58encode request
    ((b :: payload) ++ firstn 4 (sha256 (sha256 (b :: payload))))
    = Ok (ValidationRequest.address request) ->
  Base58CheckValidator.validate request = Ok true.
Proof.
  intros Hnd Hin Hb Henc.
  set (body := b :: payload) in *.
  set (ck := firstn 4 (sha256 (sha256 body))) in *.
  assert (Hck : length ck = 4%nat).
  { unfold ck. rewrite length_firstn, sha256_length. reflexivity. }
  assert (Hdec : Base58CheckValidator.b58decode request = Ok (b :: payload ++ ck)).
  { rewrite b58decode_charset. rewrite b58encode_charset in Henc.
    apply (b58_round_trip _ _ _ Hnd (b58encode_base _ _ _ Henc) Henc). }
  destruct (networks_defined request) as [nets Hnets].
  { intros Hnil. rewrite Hnil in Hin. destruct Hin. }
  assert (Hmember : In (byte_to_Z b) nets).
  { rewrite (networks_concat request nets Hnets). apply in_flattened.
    exists label, versions. split; assumption. }
  rewrite validate_checks.
  destruct (checks_verdict request b (payload ++ ck) nets Hdec Hnets) as [enc [Henc' Hv]].
  change (b :: payload ++ ck) with (body ++ ck) in *.
  rewrite Henc in Henc'. apply Ok_inj in Henc'. subst enc.
  rewrite Hv. f_equal.
  rewrite (proj2 (int_in_In _ _) Hmember).
  rewrite (proj2 (bytes_eqb_eq _ _) eq_refl), andb_true_r. simpl andb.
  apply bytes_eqb_eq.
  unfold Base58CheckValidator.checksum, slice_from_m4, slice_to_m4.
  change (b :: payload ++ ck) with (body ++ ck).
  rewrite length_app, Hck.
  replace (length body + 4 - 4)%nat with (length body) by lia.
  rewrite skipn_app, skipn_all, Nat.sub_diag. simpl skipn.
  rewrite firstn_app, firstn_all, Nat.sub_diag. simpl firstn.
  rewrite app_nil_r. reflexivity.
Qed.

Lemma X14_generated_address_accepted_witness :
  Base58CheckValidator.validate
    (ValidationRequest.mk bitcoin (bytes_of_str "1Wh4bh")) = Ok true.
Proof.
  apply (X14_generated_address_accepted
           (ValidationRequest.mk bitcoin (bytes_of_str "1Wh4bh"))
           x00 [] "main"%string [0; 5]).
  - exact default_charset_distinct.
  - left. reflexivity.
  - left. reflexivity.
  - vm_compute. reflexivity.
Defined.

(** ** Executing a request for an Ethereum currency *)

Lemma ethereum_validate_outcome (request : ValidationRequest.t) (text : list ascii) :
  decode (ValidationRequest.address request) = Ok text ->
  ((exists v, EthereumValidator.validate request = Ok v) \/
   EthereumValidator.validate request = Raise IndexError) /\
  ((length (lstrip_0x text) <= 64)%nat ->
   exists v, EthereumValidator.validate request = Ok v).
Proof.
  intros Hdec.
  destruct (existsb (fun pat => pat text) EthereumValidator.non_checksummed_patterns)
    eqn:Hpat.
  - rewrite (validate_matched request text Hdec Hpat).
    split; [left |]; exists true; reflexivity.
  - destruct (addr_hash_defined (lstrip_0x text)) as (h & Hh & Hlen64 & Hhex).
    { apply stripped_ascii. eapply decode_ascii. exact Hdec. }
    rewrite (validate_is_loop request text h Hdec Hpat Hh).
    pose proof (case_loop_outcome h (lstrip_0x text) 0 Hhex) as Hout.
    split; [exact Hout |].
    intros Hshort. destruct Hout as [Hv | Hraise]; [exact Hv |].
    apply (case_loop_IndexError h (lstrip_0x text) 0 Hhex) in Hraise; [| lia].
    destruct Hraise as [Hlong _]. simpl in Hlong. lia.
Qed.

(** X15. For a currency whose validator is the registered Ethereum class
    and an ASCII address, [execute] returns a result exactly when
    [EthereumValidator.validate] returns a verdict; the result carries the
    currency's name and ticker, the address unchanged, that verdict and the
    network ["both"], whatever networks the currency declares. [execute]
    raises nothing but the IndexError of [validate], and returns whenever
    the stripped text has at most 64 characters. *)
Theorem X15_ethereum_execute (validators : gmap string validator_class)
    (request : ValidationRequest.t) (text : list ascii) :
  Validators.get validators (Currency.validator (ValidationRequest.currency request))
    = Some EthereumValidator_cls ->
  decode (ValidationRequest.address request) = Ok text ->
  (forall r, execute validators request = Ok r <->
     exists v, EthereumValidator.validate request = Ok v /\
       r = ValidationResult.mk
             (Currency.name (ValidationRequest.currency request))
             (Currency.ticker (ValidationRequest.currency request))
             (ValidationRequest.address request) v "both") /\
  (forall e, execute validators request = Raise e ->
     e = IndexError /\ EthereumValidator.validate request = Raise IndexError /\
     (64 < length (lstrip_0x text))%nat) /\
  ((length (lstrip_0x text) <= 64)%nat ->
   exists r, execute validators request = Ok r /\ ValidationResult.network r = "both"%string).
Proof.
  intros Hget Hdec.
  destruct (ethereum_validate_outcome request text Hdec) as [Hout Hshort].
  assert (Hexec : execute validators request =
                  v ← EthereumValidator.validate request;
                  Ok (ValidationResult.mk
                        (Currency.name (ValidationRequest.currency request))
                        (Currency.ticker (ValidationRequest.currency request))
                        (ValidationRequest.address request) v "both")).
  { unfold execute. rewrite Hget. cbv zeta.
    unfold validator_validate, validator_network, EthereumValidator.network.
    destruct (EthereumValidator.validate request) as [v | e]; reflexivity. }
  rewrite Hexec. split; [| split].
  - intros r. split.
    + intros H. apply bind_Ok_inv in H. destruct H as [v [Hv Hr]].
      exists v. split; [exact Hv |]. apply Ok_inj in Hr. symmetry. exact Hr.
    + intros [v [Hv ->]]. rewrite Hv. reflexivity.
  - intros e He. destruct Hout as [[v Hv] | Hraise].
    + rewrite Hv in He. discriminate He.
    + rewrite Hraise in He. injection He as <-.
      split; [reflexivity |]. split; [exact Hraise |].
      destruct (le_lt_dec (length (lstrip_0x text)) 64) as [Hle | Hlt]; [| exact Hlt].
      destruct (Hshort Hle) as [v Hv]. rewrite Hv in Hraise. discriminate Hraise.
  - intros Hle. destruct (Hshort Hle) as [v Hv]. rewrite Hv.
    eexists. split; reflexivity.
Qed.

Lemma X15_ethereum_execute_witness :
  exists r,
    execute module_validators
      (ValidationRequest.mk ethereum
         (bytes_of_str "0x5aAeb6053F3E94C9b9A09f33669435E7Ef1BeAed")) = Ok r /\
    ValidationResult.network r = "both"%string.
Proof.
  refine (proj2 (proj2 (X15_ethereum_execute module_validators
            (ValidationRequest.mk ethereum
               (bytes_of_str "0x5aAeb6053F3E94C9b9A09f33669435E7Ef1BeAed"))
            (list_ascii_of_string "0x5aAeb6053F3E94C9b9A09f33669435E7Ef1BeAed")
            _ _)) _).
  - vm_compute. reflexivity.
  - vm_compute. reflexivity.
  - vm_compute. lia.
Defined.

(** ** Every text has a casing the checksum path accepts *)

Lemma case_twice (c : ascii) :
  lower_char (upper_char c) = lower_char c /\
  lower_char (lower_char c) = lower_char c /\
  upper_char (upper_char c) = upper_char c /\
  is_ascii_char (upper_char c) = is_ascii_char c /\
  is_ascii_char (lower_char c) = is_ascii_char c.
Proof.
  destruct c as [[] [] [] [] [] [] [] []]; vm_compute; repeat split.
Qed.

Lemma upper_strippable (c : ascii) : strippable (upper_char c) -> strippable (lower_char c).
Proof.
  unfold strippable.
  destruct c as [[] [] [] [] [] [] [] []]; vm_compute;
    intros [H | H]; first [discriminate H | left; reflexivity | right; reflexivity].
Qed.

Lemma lstrip_0x_fixed (s : list ascii) : clean_head s -> lstrip_0x s = s.
Proof.
  intros Hclean. destruct s as [| c s]; [reflexivity |]. simpl.
  destruct (Ascii.eqb c "0" || Ascii.eqb c "x") eqn:Hc; [| reflexivity].
  exfalso. apply (Hclean c s eq_refl). apply strip_test. exact Hc.
Qed.

Lemma checksum_case_nil (h : list ascii) : checksum_case h [] = [].
Proof. destruct h; reflexivity. Qed.

Lemma lower_checksum_case (h addr : list ascii) :
  lower (checksum_case h addr) = lower addr.
Proof.
  revert addr. induction h as [| hc h IH]; intros addr; [reflexivity |].
  destruct addr as [| c addr]; [reflexivity |].
  cbn [checksum_case]. unfold lower in *. cbn [map]. rewrite IH. f_equal.
  destruct (case_twice c) as (Hlu & Hll & _).
  destruct (int_16 hc) as [d | e]; [| reflexivity].
  destruct (d >? 7); assumption.
Qed.

Lemma checksum_case_ascii (h addr : list ascii) :
  forallb is_ascii_char addr = true -> forallb is_ascii_char (checksum_case h addr) = true.
Proof.
  revert addr. induction h as [| hc h IH]; intros addr; [intros H; exact H |].
  destruct addr as [| c addr]; [intros H; exact H |].
  cbn [checksum_case forallb]. rewrite !andb_true_iff. intros [Hc Haddr].
  split; [| apply IH; exact Haddr].
  destruct (case_twice c) as (_ & _ & _ & Hu & Hl).
  destruct (int_16 hc) as [d | e]; [| exact Hc].
  destruct (d >? 7); [rewrite Hu | rewrite Hl]; exact Hc.
Qed.

Lemma checksum_case_head (h addr : list ascii) :
  clean_head (lower addr) -> clean_head (checksum_case h addr).
Proof.
  intros Hclean c' rest Heq Hstrip.
  destruct addr as [| c addr]; [rewrite checksum_case_nil in Heq; discriminate Heq |].
  assert (Hlow : ~ strippable (lower_char c)) by (apply (Hclean _ (lower addr)); reflexivity).
  assert (Hc : ~ strippable c).
  { intros [-> | ->]; apply Hlow; [left | right]; reflexivity. }
  destruct h as [| hc h]; [injection Heq as <- _; exact (Hc Hstrip) |].
  cbn [checksum_case] in Heq. injection Heq as <- _.
  destruct (int_16 hc) as [d | e]; [| exact (Hc Hstrip)].
  destruct (d >? 7); [apply Hlow, upper_strippable, Hstrip | exact (Hlow Hstrip)].
Qed.

Lemma skipn_nth (A : Type) (l : list A) (i : nat) (x : A) :
  nth_error l i = Some x -> skipn i l = x :: skipn (S i) l.
Proof.
  revert i. induction l as [| a l IH]; intros [| i] H; try discriminate H.
  - injection H as <-. reflexivity.
  - exact (IH i H).
Qed.

Lemma case_loop_checksum_case (h rest : list ascii) (i : nat) :
  hex_text h -> (i + length rest <= length h)%nat ->
  EthereumValidator.case_loop h i (checksum_case (skipn i h) rest) = Ok true.
Proof.
  intros Hhex. revert i. induction rest as [| c rest IH]; intros i Hlen.
  - rewrite checksum_case_nil. reflexivity.
  - simpl in Hlen.
    destruct (nth_error h i) as [hc |] eqn:Hhc; [| apply nth_error_None in Hhc; lia].
    rewrite (skipn_nth _ h i hc Hhc). cbn [checksum_case].
    destruct (Hhex hc (nth_error_In _ _ Hhc)) as [d Hd]. rewrite Hd.
    cbn [EthereumValidator.case_loop]. rewrite Hhc.
    destruct (case_twice c) as (_ & Hll & Huu & _).
    assert (Hok : EthereumValidator.mismatch hc
                    (if d >? 7 then upper_char c else lower_char c) = Ok false).
    { apply (mismatch_false _ _ d Hd). unfold case_ok.
      destruct (Z.gtb_spec d 7) as [Hgt | Hle]; split; intros Hcmp;
        first [lia | assumption]. }
    rewrite Hok. apply IH. lia.
Qed.

(** X16. Every text has a casing that [EthereumValidator.validate] accepts.
    Take an ASCII text of at most 64 characters whose lower case does not
    begin with ['0'] or ['x'], and let [h] be the hex digest of the
    Keccak-256 hash of the ASCII bytes of its lower case; put each
    character in upper case where the digit of [h] at its position exceeds
    7 and in lower case elsewhere. The result differs from the text only
    by case, and [validate] returns true on it. *)
Theorem X16_checksum_casing_accepted (request : ValidationRequest.t)
    (addr : list ascii) :
  forallb is_ascii_char addr = true ->
  (length addr <= 64)%nat ->
  clean_head (lower addr) ->
  let h := list_ascii_of_string
             (hex_of_bytes (keccak_256 (map byte_of_ascii (lower addr)))) in
  ValidationRequest.address request = map byte_of_ascii (checksum_case h addr) ->
  lower (checksum_case h addr) = lower addr /\
  EthereumValidator.validate request = Ok true.
Proof.
  intros Hascii Hlen Hclean h Haddr.
  assert (Hh : EthereumValidator.addr_hash addr = Ok h)
    by (apply addr_hash_ascii; exact Hascii).
  clearbody h.
  split; [apply lower_checksum_case |].
  assert (Hdec : decode (ValidationRequest.address request) = Ok (checksum_case h addr)).
  { rewrite Haddr. apply decode_encoded, checksum_case_ascii, Hascii. }
  destruct (existsb (fun pat => pat (checksum_case h addr))
              EthereumValidator.non_checksummed_patterns) eqn:Hpat;
    [exact (validate_matched request _ Hdec Hpat) |].
  assert (Hfix : lstrip_0x (checksum_case h addr) = checksum_case h addr)
    by (apply lstrip_0x_fixed, checksum_case_head, Hclean).
  assert (Hsame : EthereumValidator.addr_hash (lstrip_0x (checksum_case h addr)) = Ok h).
  { rewrite Hfix. unfold EthereumValidator.addr_hash in *.
    rewrite lower_checksum_case. exact Hh. }
  rewrite (validate_is_loop request _ h Hdec Hpat Hsame), Hfix.
  destruct (addr_hash_defined addr Hascii) as (h' & Hh' & Hlen64 & Hhex).
  rewrite Hh in Hh'. apply Ok_inj in Hh'. subst h'.
  apply (case_loop_checksum_case h addr 0 Hhex). simpl. lia.
Qed.

Lemma X16_checksum_casing_accepted_witness :
  lower (list_ascii_of_string "5aAeb6053F3E94C9b9A09f33669435E7Ef1BeAed")
    = lower (list_ascii_of_string "5aaeb6053f3e94c9b9a09f33669435e7ef1beaed") /\
  EthereumValidator.validate
    (ValidationRequest.mk ethereum
       (bytes_of_str "5aAeb6053F3E94C9b9A09f33669435E7Ef1BeAed")) = Ok true.
Proof.
  assert (Hcase : checksum_case
            (list_ascii_of_string
               (hex_of_bytes (keccak_256 (map byte_of_ascii
                  (lower (list_ascii_of_string
                            "5aaeb6053f3e94c9b9a09f33669435e7ef1beaed"))))))
            (list_ascii_of_string "5aaeb6053f3e94c9b9a09f33669435e7ef1beaed")
          = list_ascii_of_string "5aAeb6053F3E94C9b9A09f33669435E7Ef1BeAed")
    by (vm_compute; reflexivity).
  pose proof (X16_checksum_casing_accepted
                (ValidationRequest.mk ethereum
                   (bytes_of_str "5aAeb6053F3E94C9b9A09f33669435E7Ef1BeAed"))
                (list_ascii_of_string "5aaeb6053f3e94c9b9a09f33669435e7ef1beaed")
                eq_refl) as Hmade.
  cbv zeta in Hmade. rewrite Hcase in Hmade. apply Hmade.
  - simpl. lia.
  - intros c rest Heq. injection Heq as <- _. intros [H | H]; discriminate H.
  - reflexivity.
Defined.

(** ** The arguments of the entry point *)

(** X17. The entry point converts both arguments before it checks either.
    A text address with a character outside ASCII raises UnicodeError
    whatever the currency, known or not; an ASCII text address gives what
    its encoding as bytes gives; and with a bytes or ASCII text address an
    identifier that is neither the name nor the ticker of a currency of the
    catalogue raises TypeError, whatever the registry holds. *)
Theorem X17_entry_point_arguments (catalog : list Currency.t)
    (validators : gmap string validator_class) (currency s : string) :
  (if forallb is_ascii_char (list_ascii_of_string s)
   then validate catalog validators currency (AddrStr s)
        = validate catalog validators currency
            (AddrBytes (map byte_of_ascii (list_ascii_of_string s)))
   else validate catalog validators currency (AddrStr s) = Raise UnicodeError) /\
  ((forall c, In c catalog -> Currency.name c <> currency /\ Currency.ticker c <> currency) ->
   forall b, validate catalog validators currency (AddrBytes b) = Raise TypeError).
Proof.
  split.
  - unfold validate, new_request, encode_ascii.
    destruct (forallb is_ascii_char (list_ascii_of_string s)); reflexivity.
  - intros Hunknown b. unfold validate, new_request.
    destruct (Currencies.get catalog currency) as [c |] eqn:Hget; [| reflexivity].
    exfalso. apply find_matches in Hget. destruct Hget as [Hin Hid].
    destruct (Hunknown c Hin) as [Hn Ht].
    destruct Hid as [Hid | Hid]; [apply Hn | apply Ht]; symmetry; exact Hid.
Qed.

Lemma X17_entry_point_arguments_witness :
  coinaddr_validate "doge" (AddrStr (String (ascii_of_nat 233) "")) = Raise UnicodeError /\
  coinaddr_validate "doge" (AddrBytes (bytes_of_str "1Wh4bh")) = Raise TypeError.
Proof.
  split.
  - exact (proj1 (X17_entry_point_arguments catalog module_validators "doge"
                    (String (ascii_of_nat 233) ""))).
  - apply (proj2 (X17_entry_point_arguments catalog module_validators "doge" "")).
    intros c Hc. simpl in Hc.
    destruct Hc as [<- | [<- | []]]; split; discriminate.
Defined.
